(** * Typography Flow: ramp calculation, export generation, markdown import

    A shallow embedding of [src/pages/index.tsx] and [src/util/markdown.ts].

    JavaScript numbers are IEEE-754 binary64 values and are modelled by
    Rocq's primitive floats, so every arithmetic step below rounds,
    overflows and propagates NaN exactly as the program does.
    [Math.round] is defined here as the language standard gives it.  The
    rest of what the program takes from its host ([Math.pow], which the
    standard only asks to approximate the power, the conversion of a
    number to a string, [JSON.stringify] and the remark pipeline) is
    gathered in the class [Host]; the theorems hold for every host. *)

From Stdlib Require Import ZArith List String Ascii Bool Floats Lia.
From Stdlib Require Import DecimalString.
Import ListNotations.

Set Warnings "-inexact-float,-register-all".
Local Open Scope list_scope.
Local Open Scope string_scope.

(** ** The host language *)

Module JS.

Definition number := float.

(** What a [throw] or a rejected promise carries: the [TypeError] of the
    language itself, or what the processor gave up with. *)
Inductive error : Type :=
| TypeError
| Rejection (reason : string).

Inductive result (A : Type) : Type :=
| Ok (a : A)
| Throw (e : error).
Arguments Ok {A} a.
Arguments Throw {A} e.

Definition bind {A B} (r : result A) (k : A -> result B) : result B :=
  match r with
  | Ok a => k a
  | Throw e => Throw e
  end.

(** The whole number [n] as a double; [negative] is the sign given to
    zero.  Used only for [|n| <= 2^53], where the conversion is exact. *)
Definition integral_number (negative : bool) (n : Z) : number :=
  match n with
  | Z0 => if negative then neg_zero else zero
  | Zpos _ => of_uint63 (Uint63.of_Z n)
  | Zneg _ => (- of_uint63 (Uint63.of_Z (Z.opp n)))%float
  end.

(** [Math.round]: NaN, the infinities and integral numbers are returned
    as they are; any other [x = v * 2^e] (with [e < 0]) goes to
    [floor (x + 1/2)], the nearest integer with ties towards +infinity,
    and a zero result keeps the sign of [x]. *)
Definition Math_round (x : number) : number :=
  match Prim2SF x with
  | S754_finite s m e =>
      if (0 <=? e)%Z then x
      else
        let v := if s then Z.neg m else Z.pos m in
        integral_number s (Z.shiftr (v + Z.shiftl 1 (- e - 1)) (- e))
  | _ => x
  end.

(** [a[i]]: reading past the end of an array gives [undefined]. *)
Definition index {A} (a : list A) (i : nat) : option A := nth_error a i.

(** [o[key]] on an object written as a literal: the first property of
    that name, [undefined] when there is none. *)
Fixpoint property {A} (o : list (string * A)) (key : string) : option A :=
  match o with
  | [] => None
  | (k, v) :: o' => if String.eqb k key then Some v else property o' key
  end.

Definition nl : string := String (ascii_of_nat 10) EmptyString.
Definition dq : string := String (ascii_of_nat 34) EmptyString.

(** A template literal, written line by line. *)
Definition lines (ls : list string) : string := String.concat nl ls.

(** [s.replace(/ /g, '+')] *)
Fixpoint replace_spaces (s : string) : string :=
  match s with
  | EmptyString => EmptyString
  | String c s' =>
      String (if Ascii.eqb c " "%char then "+"%char else c) (replace_spaces s')
  end.

(** The values the token tree is built from: objects (properties in
    insertion order) and strings. *)
Inductive json : Type :=
| JString (s : string)
| JObject (properties : list (string * json)).

(** [o[key] = v] on an object: replaces the property or adds it last. *)
Fixpoint assign (o : list (string * json)) (key : string) (v : json)
  : list (string * json) :=
  match o with
  | [] => [(key, v)]
  | (k, w) :: o' =>
      if String.eqb k key then (k, v) :: o' else (k, w) :: assign o' key v
  end.

(** Follows a path of property names into a value. *)
Fixpoint at_path (v : json) (path : list string) : option json :=
  match path with
  | [] => Some v
  | key :: path' =>
      match v with
      | JObject o =>
          match property o key with
          | Some w => at_path w path'
          | None => None
          end
      | JString _ => None
      end
  end.

(** What the program takes from its host. *)
Class Host : Type := {
  Math_pow : number -> number -> number;
  Number_toString : number -> string;
  JSON_stringify : json -> nat -> string;
  VFile : Type;
  processor_process : string -> result VFile;
  String_of_VFile : VFile -> string
}.

End JS.
Import JS.

Declare Scope js_scope.
Notation "x <- e ;; k" := (bind e (fun x => k))
  (at level 61, e at next level, right associativity) : js_scope.
Local Open Scope js_scope.

(** ** The data model *)

Record TypographySettings : Type := {
  baseFontSize : number;
  baseLineHeight : number;
  scaleRatio : number;
  paragraphSpacing : number;
  headingSpacing : number;
  listSpacing : number;
  rampAlgorithm : string;
  minFontSize : number;
  maxFontSize : number;
  customRampValues : list number;
  responsiveScaling : bool;
  mobileScaleFactor : number;
  tabletScaleFactor : number;
  breakpointMobile : number;
  breakpointTablet : number;
  fontFamily : string;
  headingFontFamily : string;
  useSeparateHeadingFont : bool;
  baseFontWeight : number;
  fontWeightRampAlgorithm : string;
  minFontWeight : number;
  maxFontWeight : number;
  customWeightRampValues : list number;
  useWeightRamp : bool
}.

Inductive ViewportSize : Type := mobile | tablet | desktop.

Inductive VisualizationMode : Type := none | spacing.

Inductive ExportFormat : Type := css | sass | figma.

Record RampAlgorithm : Type := {
  ramp_name : string;
  ramp_description : string;
  calculateSizes : TypographySettings -> list number
}.

Record WeightRampAlgorithm : Type := {
  weight_name : string;
  weight_description : string;
  calculateWeights : TypographySettings -> list number
}.

Local Open Scope float_scope.

Definition defaultSettings : TypographySettings := {|
  baseFontSize := 16;
  baseLineHeight := 1.5;
  scaleRatio := 1.2;
  paragraphSpacing := 1.5;
  headingSpacing := 1;
  listSpacing := 1;
  rampAlgorithm := "modular";
  minFontSize := 14;
  maxFontSize := 48;
  customRampValues := [48; 36; 24; 20; 16; 14];
  responsiveScaling := true;
  mobileScaleFactor := 0.75;
  tabletScaleFactor := 0.9;
  breakpointMobile := 480;
  breakpointTablet := 768;
  fontFamily := "Inter";
  headingFontFamily := "Inter";
  useSeparateHeadingFont := false;
  baseFontWeight := 400;
  fontWeightRampAlgorithm := "stepped";
  minFontWeight := 400;
  maxFontWeight := 700;
  customWeightRampValues := [700; 700; 600; 600; 500; 400];
  useWeightRamp := true
|}.

(** ** The ramp calculator *)

Section Ramps.
Context `{Host}.

Definition weightRampAlgorithms : list (string * WeightRampAlgorithm) :=
  [ ("stepped"%string,
     {| weight_name := "Stepped Weights";
        weight_description := "Uses predefined weight steps for each heading level";
        calculateWeights := fun settings =>
          if useWeightRamp settings then customWeightRampValues settings
          else [700; 700; 600; 600; 500; 400] |});
    ("linear"%string,
     {| weight_name := "Linear Weight Scale";
        weight_description := "Equal steps between min and max font weights";
        calculateWeights := fun settings =>
          if negb (useWeightRamp settings) then [700; 700; 600; 600; 500; 400]
          else
            let minFontWeight := minFontWeight settings in
            let maxFontWeight := maxFontWeight settings in
            let step := (maxFontWeight - minFontWeight) / 5 in
            [ Math_round maxFontWeight;
              Math_round (maxFontWeight - step);
              Math_round (maxFontWeight - 2 * step);
              Math_round (maxFontWeight - 3 * step);
              Math_round (maxFontWeight - 4 * step);
              Math_round minFontWeight ] |});
    ("custom"%string,
     {| weight_name := "Custom Weight Ramp";
        weight_description := "Define your own custom weight values for each heading level";
        calculateWeights := fun settings =>
          if useWeightRamp settings then customWeightRampValues settings
          else [700; 700; 600; 600; 500; 400] |}) ].

Definition rampAlgorithms : list (string * RampAlgorithm) :=
  [ ("modular"%string,
     {| ramp_name := "Modular Scale";
        ramp_description := "Uses a consistent ratio between each step in the scale";
        calculateSizes := fun settings =>
          [ Math_round (baseFontSize settings * Math_pow (scaleRatio settings) 4);
            Math_round (baseFontSize settings * Math_pow (scaleRatio settings) 3);
            Math_round (baseFontSize settings * Math_pow (scaleRatio settings) 2);
            Math_round (baseFontSize settings * Math_pow (scaleRatio settings) 1);
            Math_round (baseFontSize settings);
            Math_round (baseFontSize settings * 0.9) ] |});
    ("linear"%string,
     {| ramp_name := "Linear Scale";
        ramp_description := "Equal steps between each size in the scale";
        calculateSizes := fun settings =>
          let minFontSize := minFontSize settings in
          let maxFontSize := maxFontSize settings in
          let step := (maxFontSize - minFontSize) / 5 in
          [ Math_round maxFontSize;
            Math_round (maxFontSize - step);
            Math_round (maxFontSize - 2 * step);
            Math_round (maxFontSize - 3 * step);
            Math_round (maxFontSize - 4 * step);
            Math_round minFontSize ] |});
    ("fibonacci"%string,
     {| ramp_name := "Fibonacci Sequence";
        ramp_description := "Based on the Fibonacci sequence (each number is the sum of the two preceding ones)";
        calculateSizes := fun settings =>
          let fibRatios := [8; 5; 3; 2; 1; 1] in
          let baseSize := baseFontSize settings in
          map (fun ratio => Math_round (baseSize * ratio / 3)) fibRatios |});
    ("custom"%string,
     {| ramp_name := "Custom Ramp";
        ramp_description := "Define your own custom values for each heading level";
        calculateSizes := fun settings => customRampValues settings |}) ].

(** The algorithm a call [table[key].method(settings)] runs: under a key
    the table does not define there is no such method (the lookup gives
    [undefined], or a property every object inherits), and the call throws
    a [TypeError]. *)
Definition method_of {A} (table : list (string * A)) (key : string) : result A :=
  match property table key with
  | Some algorithm => Ok algorithm
  | None => Throw TypeError
  end.

(** [rampAlgorithms[key].calculateSizes(settings)] *)
Definition calculateSizes_of (key : string) (settings : TypographySettings)
  : result (list number) :=
  algorithm <- method_of rampAlgorithms key ;;
  Ok (calculateSizes algorithm settings).

(** [weightRampAlgorithms[key].calculateWeights(settings)] *)
Definition calculateWeights_of (key : string) (settings : TypographySettings)
  : result (list number) :=
  algorithm <- method_of weightRampAlgorithms key ;;
  Ok (calculateWeights algorithm settings).

Definition getScaleFactor (settings : TypographySettings) (viewport : ViewportSize)
  : number :=
  match viewport with
  | mobile => if responsiveScaling settings then mobileScaleFactor settings else 1
  | tablet => if responsiveScaling settings then tabletScaleFactor settings else 1
  | desktop => 1
  end.

Definition calculateSizesForViewport (settings : TypographySettings)
    (viewport : ViewportSize) : result (list number) :=
  let scaleFactor := getScaleFactor settings viewport in
  baseHeadingSizes <- calculateSizes_of (rampAlgorithm settings) settings ;;
  Ok (map (fun size => Math_round (size * scaleFactor)) baseHeadingSizes).

Definition calculateFontWeights (settings : TypographySettings)
  : result (list number) :=
  calculateWeights_of (fontWeightRampAlgorithm settings) settings.

End Ramps.

(** ** The export generators *)

Section Exports.
Context `{Host}.

(** [`${x}`] for a number, and for a value that may be [undefined]. *)
Definition num (x : number) : string := Number_toString x.

Definition interp (v : option number) : string :=
  match v with
  | Some x => Number_toString x
  | None => "undefined"
  end.

(** [v.toString()] *)
Definition toString (v : option number) : result string :=
  match v with
  | Some x => Ok (Number_toString x)
  | None => Throw TypeError
  end.

(** The constants of one rendering of [Home] that the generators close
    over. *)
Record RenderScope : Type := {
  headingSizes : list number;
  headingWeights : list number;
  desktopSizes : list number;
  tabletSizes : list number;
  mobileSizes : list number
}.

(** The first statement about weights in each of the three generators. *)
Definition exportFontWeights (settings : TypographySettings) : result (list number) :=
  if useWeightRamp settings
  then calculateWeights_of (fontWeightRampAlgorithm settings) settings
  else Ok [700; 700; 600; 600; 500; 400].

Definition generateCSSCode (settings : TypographySettings) (scope : RenderScope)
  : result string :=
  let desktopSizes := desktopSizes scope in
  let tabletSizes := tabletSizes scope in
  let mobileSizes := mobileSizes scope in
  let dh1 := index desktopSizes 0 in
  let dh2 := index desktopSizes 1 in
  let dh3 := index desktopSizes 2 in
  let dh4 := index desktopSizes 3 in
  let dh5 := index desktopSizes 4 in
  let dh6 := index desktopSizes 5 in
  let th1 := index tabletSizes 0 in
  let th2 := index tabletSizes 1 in
  let th3 := index tabletSizes 2 in
  let th4 := index tabletSizes 3 in
  let th5 := index tabletSizes 4 in
  let th6 := index tabletSizes 5 in
  let mh1 := index mobileSizes 0 in
  let mh2 := index mobileSizes 1 in
  let mh3 := index mobileSizes 2 in
  let mh4 := index mobileSizes 3 in
  let mh5 := index mobileSizes 4 in
  let mh6 := index mobileSizes 5 in
  let desktopBaseFontSize := baseFontSize settings in
  let tabletBaseFontSize := Math_round (baseFontSize settings * tabletScaleFactor settings) in
  let mobileBaseFontSize := Math_round (baseFontSize settings * mobileScaleFactor settings) in
  let css := lines
      [ "/* Typography Flow - Generated CSS */";
        "" ] in
  fontWeights <- exportFontWeights settings ;;
  let w1 := index fontWeights 0 in
  let w2 := index fontWeights 1 in
  let w3 := index fontWeights 2 in
  let w4 := index fontWeights 3 in
  let w5 := index fontWeights 4 in
  let w6 := index fontWeights 5 in
  let css :=
    css ++
    (if responsiveScaling settings then
      lines
        [ "/* Mobile styles */";
          ":root {";
          "  --base-font-size: " ++ num mobileBaseFontSize ++ "px;";
          "  --base-line-height: " ++ num (baseLineHeight settings) ++ ";";
          "  --paragraph-spacing: " ++ num (paragraphSpacing settings) ++ "em;";
          "  --heading-spacing: " ++ num (headingSpacing settings) ++ "em;";
          "  --list-spacing: " ++ num (listSpacing settings) ++ "em;";
          "  --h1-size: " ++ interp mh1 ++ "px;";
          "  --h2-size: " ++ interp mh2 ++ "px;";
          "  --h3-size: " ++ interp mh3 ++ "px;";
          "  --h4-size: " ++ interp mh4 ++ "px;";
          "  --h5-size: " ++ interp mh5 ++ "px;";
          "  --h6-size: " ++ interp mh6 ++ "px;";
          "  --h1-weight: " ++ interp w1 ++ ";";
          "  --h2-weight: " ++ interp w2 ++ ";";
          "  --h3-weight: " ++ interp w3 ++ ";";
          "  --h4-weight: " ++ interp w4 ++ ";";
          "  --h5-weight: " ++ interp w5 ++ ";";
          "  --h6-weight: " ++ interp w6 ++ ";";
          "  --body-weight: " ++ num (baseFontWeight settings) ++ ";";
          "}";
          "";
          "" ]
      ++
      lines
        [ "/* Tablet styles */";
          "@media (min-width: " ++ num (breakpointMobile settings) ++ "px) {";
          "  :root {";
          "    --base-font-size: " ++ num tabletBaseFontSize ++ "px;";
          "    --h1-size: " ++ interp th1 ++ "px;";
          "    --h2-size: " ++ interp th2 ++ "px;";
          "    --h3-size: " ++ interp th3 ++ "px;";
          "    --h4-size: " ++ interp th4 ++ "px;";
          "    --h5-size: " ++ interp th5 ++ "px;";
          "    --h6-size: " ++ interp th6 ++ "px;";
          "  }";
          "}";
          "";
          "" ]
      ++
      lines
        [ "/* Desktop styles */";
          "@media (min-width: " ++ num (breakpointTablet settings) ++ "px) {";
          "  :root {";
          "    --base-font-size: " ++ num desktopBaseFontSize ++ "px;";
          "    --h1-size: " ++ interp dh1 ++ "px;";
          "    --h2-size: " ++ interp dh2 ++ "px;";
          "    --h3-size: " ++ interp dh3 ++ "px;";
          "    --h4-size: " ++ interp dh4 ++ "px;";
          "    --h5-size: " ++ interp dh5 ++ "px;";
          "    --h6-size: " ++ interp dh6 ++ "px;";
          "  }";
          "}";
          "";
          "" ]
    else
      lines
        [ ":root {";
          "  --base-font-size: " ++ num (baseFontSize settings) ++ "px;";
          "  --base-line-height: " ++ num (baseLineHeight settings) ++ ";";
          "  --paragraph-spacing: " ++ num (paragraphSpacing settings) ++ "em;";
          "  --heading-spacing: " ++ num (headingSpacing settings) ++ "em;";
          "  --list-spacing: " ++ num (listSpacing settings) ++ "em;";
          "  --h1-size: " ++ interp dh1 ++ "px;";
          "  --h2-size: " ++ interp dh2 ++ "px;";
          "  --h3-size: " ++ interp dh3 ++ "px;";
          "  --h4-size: " ++ interp dh4 ++ "px;";
          "  --h5-size: " ++ interp dh5 ++ "px;";
          "  --h6-size: " ++ interp dh6 ++ "px;";
          "  --h1-weight: " ++ interp w1 ++ ";";
          "  --h2-weight: " ++ interp w2 ++ ";";
          "  --h3-weight: " ++ interp w3 ++ ";";
          "  --h4-weight: " ++ interp w4 ++ ";";
          "  --h5-weight: " ++ interp w5 ++ ";";
          "  --h6-weight: " ++ interp w6 ++ ";";
          "  --body-weight: " ++ num (baseFontWeight settings) ++ ";";
          "}";
          "";
          "" ]) in
  let heading_font_import :=
    if useSeparateHeadingFont settings
       && negb (headingFontFamily settings =? fontFamily settings)%string
    then "@import url('https://fonts.googleapis.com/css2?family="
         ++ replace_spaces (headingFontFamily settings)
         ++ ":wght@400;700&display=swap');"
    else "" in
  let heading_font_rule :=
    if useSeparateHeadingFont settings
    then "font-family: " ++ dq ++ headingFontFamily settings ++ dq ++ ", sans-serif;"
    else "" in
  let css :=
    css ++
    lines
      [ "/* Font imports */";
        "@import url('https://fonts.googleapis.com/css2?family=" ++ replace_spaces (fontFamily settings) ++ ":wght@400;700&display=swap');";
        heading_font_import;
        "";
        "body {";
        "  font-size: var(--base-font-size);";
        "  line-height: var(--base-line-height);";
        "  font-family: " ++ dq ++ fontFamily settings ++ dq ++ ", sans-serif;";
        "}";
        "";
        "h1 {";
        "  font-size: var(--h1-size);";
        "  margin-bottom: var(--heading-spacing);";
        "  line-height: 1.2;";
        "  font-weight: var(--h1-weight);";
        "  " ++ heading_font_rule;
        "}";
        "";
        "h2 {";
        "  font-size: var(--h2-size);";
        "  margin-top: 1.5em;";
        "  margin-bottom: var(--heading-spacing);";
        "  line-height: 1.25;";
        "  font-weight: var(--h2-weight);";
        "  " ++ heading_font_rule;
        "}";
        "";
        "h3 {";
        "  font-size: var(--h3-size);";
        "  margin-top: 1.5em;";
        "  margin-bottom: var(--heading-spacing);";
        "  line-height: 1.3;";
        "  font-weight: var(--h3-weight);";
        "  " ++ heading_font_rule;
        "}";
        "";
        "h4 {";
        "  font-size: var(--h4-size);";
        "  margin-top: 1.5em;";
        "  margin-bottom: var(--heading-spacing);";
        "  line-height: 1.35;";
        "  font-weight: var(--h4-weight);";
        "  " ++ heading_font_rule;
        "}";
        "";
        "h5 {";
        "  font-size: var(--h5-size);";
        "  margin-top: 1.5em;";
        "  margin-bottom: var(--heading-spacing);";
        "  line-height: 1.4;";
        "  font-weight: var(--h5-weight);";
        "  " ++ heading_font_rule;
        "}";
        "";
        "h6 {";
        "  font-size: var(--h6-size);";
        "  margin-top: 1.5em;";
        "  margin-bottom: var(--heading-spacing);";
        "  line-height: 1.4;";
        "  font-weight: var(--h6-weight);";
        "  " ++ heading_font_rule;
        "}";
        "";
        "p {";
        "  margin-bottom: var(--paragraph-spacing);";
        "}";
        "";
        "ul, ol {";
        "  margin-bottom: var(--paragraph-spacing);";
        "  padding-left: 2em;";
        "}";
        "";
        "li {";
        "  margin-bottom: var(--list-spacing);";
        "}";
        "";
        "li:last-child {";
        "  margin-bottom: 0;";
        "}" ] in
  Ok css.

Definition generateSASSCode (settings : TypographySettings) (scope : RenderScope)
  : result string :=
  let desktopSizes := desktopSizes scope in
  let tabletSizes := tabletSizes scope in
  let mobileSizes := mobileSizes scope in
  let dh1 := index desktopSizes 0 in
  let dh2 := index desktopSizes 1 in
  let dh3 := index desktopSizes 2 in
  let dh4 := index desktopSizes 3 in
  let dh5 := index desktopSizes 4 in
  let dh6 := index desktopSizes 5 in
  let th1 := index tabletSizes 0 in
  let th2 := index tabletSizes 1 in
  let th3 := index tabletSizes 2 in
  let th4 := index tabletSizes 3 in
  let th5 := index tabletSizes 4 in
  let th6 := index tabletSizes 5 in
  let mh1 := index mobileSizes 0 in
  let mh2 := index mobileSizes 1 in
  let mh3 := index mobileSizes 2 in
  let mh4 := index mobileSizes 3 in
  let mh5 := index mobileSizes 4 in
  let mh6 := index mobileSizes 5 in
  let desktopBaseFontSize := baseFontSize settings in
  let tabletBaseFontSize := Math_round (baseFontSize settings * tabletScaleFactor settings) in
  let mobileBaseFontSize := Math_round (baseFontSize settings * mobileScaleFactor settings) in
  let sass := lines
      [ "// Typography Flow - Generated SASS";
        "" ] in
  fontWeights <- exportFontWeights settings ;;
  let w1 := index fontWeights 0 in
  let w2 := index fontWeights 1 in
  let w3 := index fontWeights 2 in
  let w4 := index fontWeights 3 in
  let w5 := index fontWeights 4 in
  let w6 := index fontWeights 5 in
  let heading_font_import :=
    if useSeparateHeadingFont settings
       && negb (headingFontFamily settings =? fontFamily settings)%string
    then "@import url('https://fonts.googleapis.com/css2?family="
         ++ replace_spaces (headingFontFamily settings)
         ++ ":wght@400;700&display=swap');"
    else "" in
  let heading_font_variable :=
    if useSeparateHeadingFont settings
    then "$heading-font: " ++ dq ++ headingFontFamily settings ++ dq ++ ", sans-serif;"
    else "" in
  let heading_font_rule :=
    if useSeparateHeadingFont settings then "font-family: $heading-font;" else "" in
  let sass :=
    sass ++
    lines
      [ "// Font imports";
        "@import url('https://fonts.googleapis.com/css2?family=" ++ replace_spaces (fontFamily settings) ++ ":wght@400;700&display=swap');";
        heading_font_import;
        "";
        "// Variables";
        "// Breakpoints";
        "$breakpoint-mobile: " ++ num (breakpointMobile settings) ++ "px;";
        "$breakpoint-tablet: " ++ num (breakpointTablet settings) ++ "px;";
        "";
        "// Font families";
        "$body-font: " ++ dq ++ fontFamily settings ++ dq ++ ", sans-serif;";
        heading_font_variable;
        "";
        "// Font weights";
        "$body-weight: " ++ num (baseFontWeight settings) ++ ";";
        "$h1-weight: " ++ interp w1 ++ ";";
        "$h2-weight: " ++ interp w2 ++ ";";
        "$h3-weight: " ++ interp w3 ++ ";";
        "$h4-weight: " ++ interp w4 ++ ";";
        "$h5-weight: " ++ interp w5 ++ ";";
        "$h6-weight: " ++ interp w6 ++ ";";
        "";
        "// Base typography settings";
        "$base-line-height: " ++ num (baseLineHeight settings) ++ ";";
        "$paragraph-spacing: " ++ num (paragraphSpacing settings) ++ "em;";
        "$heading-spacing: " ++ num (headingSpacing settings) ++ "em;";
        "$list-spacing: " ++ num (listSpacing settings) ++ "em;";
        "";
        "" ] in
  let sass :=
    sass ++
    (if responsiveScaling settings then
      lines
        [ "// Mobile typography (base)";
          "$base-font-size-mobile: " ++ num mobileBaseFontSize ++ "px;";
          "$h1-size-mobile: " ++ interp mh1 ++ "px;";
          "$h2-size-mobile: " ++ interp mh2 ++ "px;";
          "$h3-size-mobile: " ++ interp mh3 ++ "px;";
          "$h4-size-mobile: " ++ interp mh4 ++ "px;";
          "$h5-size-mobile: " ++ interp mh5 ++ "px;";
          "$h6-size-mobile: " ++ interp mh6 ++ "px;";
          "";
          "// Tablet typography";
          "$base-font-size-tablet: " ++ num tabletBaseFontSize ++ "px;";
          "$h1-size-tablet: " ++ interp th1 ++ "px;";
          "$h2-size-tablet: " ++ interp th2 ++ "px;";
          "$h3-size-tablet: " ++ interp th3 ++ "px;";
          "$h4-size-tablet: " ++ interp th4 ++ "px;";
          "$h5-size-tablet: " ++ interp th5 ++ "px;";
          "$h6-size-tablet: " ++ interp th6 ++ "px;";
          "";
          "// Desktop typography";
          "$base-font-size-desktop: " ++ num desktopBaseFontSize ++ "px;";
          "$h1-size-desktop: " ++ interp dh1 ++ "px;";
          "$h2-size-desktop: " ++ interp dh2 ++ "px;";
          "$h3-size-desktop: " ++ interp dh3 ++ "px;";
          "$h4-size-desktop: " ++ interp dh4 ++ "px;";
          "$h5-size-desktop: " ++ interp dh5 ++ "px;";
          "$h6-size-desktop: " ++ interp dh6 ++ "px;";
          "";
          "" ]
      ++
      lines
        [ "// Base styles (mobile first)";
          "body {";
          "  font-size: $base-font-size-mobile;";
          "  line-height: $base-line-height;";
          "  font-family: $body-font;";
          "}";
          "";
          "h1 {";
          "  font-size: $h1-size-mobile;";
          "  margin-bottom: $heading-spacing;";
          "  line-height: 1.2;";
          "  font-weight: $h1-weight;";
          "  " ++ heading_font_rule;
          "}";
          "";
          "h2 {";
          "  font-size: $h2-size-mobile;";
          "  margin-top: 1.5em;";
          "  margin-bottom: $heading-spacing;";
          "  line-height: 1.25;";
          "  font-weight: $h2-weight;";
          "  " ++ heading_font_rule;
          "}";
          "";
          "h3 {";
          "  font-size: $h3-size-mobile;";
          "  margin-top: 1.5em;";
          "  margin-bottom: $heading-spacing;";
          "  line-height: 1.3;";
          "  font-weight: $h3-weight;";
          "  " ++ heading_font_rule;
          "}";
          "";
          "h4 {";
          "  font-size: $h4-size-mobile;";
          "  margin-top: 1.5em;";
          "  margin-bottom: $heading-spacing;";
          "  line-height: 1.35;";
          "  font-weight: $h4-weight;";
          "  " ++ heading_font_rule;
          "}";
          "";
          "h5 {";
          "  font-size: $h5-size-mobile;";
          "  margin-top: 1.5em;";
          "  margin-bottom: $heading-spacing;";
          "  line-height: 1.4;";
          "  font-weight: $h5-weight;";
          "  " ++ heading_font_rule;
          "}";
          "";
          "h6 {";
          "  font-size: $h6-size-mobile;";
          "  margin-top: 1.5em;";
          "  margin-bottom: $heading-spacing;";
          "  line-height: 1.4;";
          "  font-weight: $h6-weight;";
          "  " ++ heading_font_rule;
          "}";
          "";
          "// Tablet styles";
          "@media (min-width: $breakpoint-mobile) {";
          "  body {";
          "    font-size: $base-font-size-tablet;";
          "  }";
          "  ";
          "  h1 {";
          "    font-size: $h1-size-tablet;";
          "  }";
          "  ";
          "  h2 {";
          "    font-size: $h2-size-tablet;";
          "  }";
          "  ";
          "  h3 {";
          "    font-size: $h3-size-tablet;";
          "  }";
          "  ";
          "  h4 {";
          "    font-size: $h4-size-tablet;";
          "  }";
          "  ";
          "  h5 {";
          "    font-size: $h5-size-tablet;";
          "  }";
          "  ";
          "  h6 {";
          "    font-size: $h6-size-tablet;";
          "  }";
          "}";
          "";
          "// Desktop styles";
          "@media (min-width: $breakpoint-tablet) {";
          "  body {";
          "    font-size: $base-font-size-desktop;";
          "  }";
          "  ";
          "  h1 {";
          "    font-size: $h1-size-desktop;";
          "  }";
          "  ";
          "  h2 {";
          "    font-size: $h2-size-desktop;";
          "  }";
          "  ";
          "  h3 {";
          "    font-size: $h3-size-desktop;";
          "  }";
          "  ";
          "  h4 {";
          "    font-size: $h4-size-desktop;";
          "  }";
          "  ";
          "  h5 {";
          "    font-size: $h5-size-desktop;";
          "  }";
          "  ";
          "  h6 {";
          "    font-size: $h6-size-desktop;";
          "  }";
          "}";
          "" ]
    else
      lines
        [ "$base-font-size: " ++ num (baseFontSize settings) ++ "px;";
          "$h1-size: " ++ interp dh1 ++ "px;";
          "$h2-size: " ++ interp dh2 ++ "px;";
          "$h3-size: " ++ interp dh3 ++ "px;";
          "$h4-size: " ++ interp dh4 ++ "px;";
          "$h5-size: " ++ interp dh5 ++ "px;";
          "$h6-size: " ++ interp dh6 ++ "px;";
          "";
          "body {";
          "  font-size: $base-font-size;";
          "  line-height: $base-line-height;";
          "  font-family: $body-font;";
          "}";
          "";
          "h1 {";
          "  font-size: $h1-size;";
          "  margin-bottom: $heading-spacing;";
          "  line-height: 1.2;";
          "  font-weight: $h1-weight;";
          "  " ++ heading_font_rule;
          "}";
          "";
          "h2 {";
          "  font-size: $h2-size;";
          "  margin-top: 1.5em;";
          "  margin-bottom: $heading-spacing;";
          "  line-height: 1.25;";
          "  font-weight: $h2-weight;";
          "  " ++ heading_font_rule;
          "}";
          "";
          "h3 {";
          "  font-size: $h3-size;";
          "  margin-top: 1.5em;";
          "  margin-bottom: $heading-spacing;";
          "  line-height: 1.3;";
          "  font-weight: $h3-weight;";
          "  " ++ heading_font_rule;
          "}";
          "";
          "h4 {";
          "  font-size: $h4-size;";
          "  margin-top: 1.5em;";
          "  margin-bottom: $heading-spacing;";
          "  line-height: 1.35;";
          "  font-weight: $h4-weight;";
          "  " ++ heading_font_rule;
          "}";
          "";
          "h5 {";
          "  font-size: $h5-size;";
          "  margin-top: 1.5em;";
          "  margin-bottom: $heading-spacing;";
          "  line-height: 1.4;";
          "  font-weight: $h5-weight;";
          "  " ++ heading_font_rule;
          "}";
          "";
          "h6 {";
          "  font-size: $h6-size;";
          "  margin-top: 1.5em;";
          "  margin-bottom: $heading-spacing;";
          "  line-height: 1.4;";
          "  font-weight: $h6-weight;";
          "  " ++ heading_font_rule;
          "}";
          "" ]) in
  let sass :=
    sass ++
    lines
      [ "";
        "p {";
        "  margin-bottom: $paragraph-spacing;";
        "}";
        "";
        "ul, ol {";
        "  margin-bottom: $paragraph-spacing;";
        "  padding-left: 2em;";
        "}";
        "";
        "li {";
        "  margin-bottom: $list-spacing;";
        "}";
        "";
        "li:last-child {";
        "  margin-bottom: 0;";
        "}" ] in
  Ok sass.

(** [{ "value": s }] *)
Definition value (s : string) : json := JObject [("value", JString s)].

(** The [tokens] object of [generateFigmaTokens], as it stands when it is
    handed to [JSON.stringify]. *)
Definition figmaTokens (settings : TypographySettings) (scope : RenderScope)
  : result json :=
  let desktopSizes := desktopSizes scope in
  let tabletSizes := tabletSizes scope in
  let mobileSizes := mobileSizes scope in
  let dh1 := index desktopSizes 0 in
  let dh2 := index desktopSizes 1 in
  let dh3 := index desktopSizes 2 in
  let dh4 := index desktopSizes 3 in
  let dh5 := index desktopSizes 4 in
  let dh6 := index desktopSizes 5 in
  let th1 := index tabletSizes 0 in
  let th2 := index tabletSizes 1 in
  let th3 := index tabletSizes 2 in
  let th4 := index tabletSizes 3 in
  let th5 := index tabletSizes 4 in
  let th6 := index tabletSizes 5 in
  let mh1 := index mobileSizes 0 in
  let mh2 := index mobileSizes 1 in
  let mh3 := index mobileSizes 2 in
  let mh4 := index mobileSizes 3 in
  let mh5 := index mobileSizes 4 in
  let mh6 := index mobileSizes 5 in
  let desktopBaseFontSize := baseFontSize settings in
  let tabletBaseFontSize := Math_round (baseFontSize settings * tabletScaleFactor settings) in
  let mobileBaseFontSize := Math_round (baseFontSize settings * mobileScaleFactor settings) in
  fontWeights <- exportFontWeights settings ;;
  let w1 := index fontWeights 0 in
  let w2 := index fontWeights 1 in
  let w3 := index fontWeights 2 in
  let w4 := index fontWeights 3 in
  let w5 := index fontWeights 4 in
  let w6 := index fontWeights 5 in
  w1_string <- toString w1 ;;
  w2_string <- toString w2 ;;
  w3_string <- toString w3 ;;
  w4_string <- toString w4 ;;
  w5_string <- toString w5 ;;
  w6_string <- toString w6 ;;
  let typography :=
    [ ("fontFamilies",
       JObject
         [ ("body", value (fontFamily settings));
           ("heading", value (if useSeparateHeadingFont settings
                              then headingFontFamily settings
                              else fontFamily settings)) ]);
      ("fontWeights",
       JObject
         [ ("body", value (num (baseFontWeight settings)));
           ("h1", value w1_string);
           ("h2", value w2_string);
           ("h3", value w3_string);
           ("h4", value w4_string);
           ("h5", value w5_string);
           ("h6", value w6_string) ]);
      ("lineHeights",
       JObject
         [ ("body", value (num (baseLineHeight settings)));
           ("h1", value "1.2");
           ("h2", value "1.25");
           ("h3", value "1.3");
           ("h4", value "1.35");
           ("h5", value "1.4");
           ("h6", value "1.4") ]);
      ("fontSize",
       JObject
         [ ("base", value (num desktopBaseFontSize ++ "px"));
           ("h1", value (interp dh1 ++ "px"));
           ("h2", value (interp dh2 ++ "px"));
           ("h3", value (interp dh3 ++ "px"));
           ("h4", value (interp dh4 ++ "px"));
           ("h5", value (interp dh5 ++ "px"));
           ("h6", value (interp dh6 ++ "px")) ]) ] in
  let spacing :=
    [ ("paragraph", value (num (paragraphSpacing settings) ++ "em"));
      ("heading", value (num (headingSpacing settings) ++ "em"));
      ("list", value (num (listSpacing settings) ++ "em")) ] in
  let typography :=
    if responsiveScaling settings then
      assign typography "responsiveSizes"
        (JObject
           [ ("breakpoints",
              JObject
                [ ("mobile", value (num (breakpointMobile settings) ++ "px"));
                  ("tablet", value (num (breakpointTablet settings) ++ "px")) ]);
             ("scaleFactors",
              JObject
                [ ("mobile", value (num (mobileScaleFactor settings)));
                  ("tablet", value (num (tabletScaleFactor settings))) ]);
             ("mobile",
              JObject
                [ ("base", value (num mobileBaseFontSize ++ "px"));
                  ("h1", value (interp mh1 ++ "px"));
                  ("h2", value (interp mh2 ++ "px"));
                  ("h3", value (interp mh3 ++ "px"));
                  ("h4", value (interp mh4 ++ "px"));
                  ("h5", value (interp mh5 ++ "px"));
                  ("h6", value (interp mh6 ++ "px")) ]);
             ("tablet",
              JObject
                [ ("base", value (num tabletBaseFontSize ++ "px"));
                  ("h1", value (interp th1 ++ "px"));
                  ("h2", value (interp th2 ++ "px"));
                  ("h3", value (interp th3 ++ "px"));
                  ("h4", value (interp th4 ++ "px"));
                  ("h5", value (interp th5 ++ "px"));
                  ("h6", value (interp th6 ++ "px")) ]) ])
    else typography in
  Ok (JObject [("typography", JObject typography); ("spacing", JObject spacing)]).

Definition generateFigmaTokens (settings : TypographySettings) (scope : RenderScope)
  : result string :=
  tokens <- figmaTokens settings scope ;;
  Ok (JSON_stringify tokens 2).

End Exports.

(** ** The component *)

Section Component.
Context `{Host}.

Record HomeState : Type := {
  settings : TypographySettings;
  activeTab : string;
  exportFormat : ExportFormat;
  copySuccess : string;
  previewViewport : ViewportSize;
  importMarkdownOpen : bool;
  exportDialogOpen : bool;
  markdownInput : string;
  visualizationMode : VisualizationMode;
  previewContent : string
}.

(** The constants the body of [Home] computes, in its order, before any
    generator can be called. *)
Definition render (st : HomeState) : result RenderScope :=
  headingSizes <- calculateSizesForViewport (settings st) (previewViewport st) ;;
  headingWeights <- calculateFontWeights (settings st) ;;
  desktopSizes <- calculateSizesForViewport (settings st) desktop ;;
  tabletSizes <- calculateSizesForViewport (settings st) tablet ;;
  mobileSizes <- calculateSizesForViewport (settings st) mobile ;;
  Ok {| headingSizes := headingSizes;
        headingWeights := headingWeights;
        desktopSizes := desktopSizes;
        tabletSizes := tabletSizes;
        mobileSizes := mobileSizes |}.

Definition getExportCode (st : HomeState) (scope : RenderScope) : result string :=
  match exportFormat st with
  | css => generateCSSCode (settings st) scope
  | sass => generateSASSCode (settings st) scope
  | figma => generateFigmaTokens (settings st) scope
  end.

(** One rendering followed by one call of a generator. *)
Definition exported (generate : TypographySettings -> RenderScope -> result string)
    (st : HomeState) : result string :=
  scope <- render st ;;
  generate (settings st) scope.

Definition setPreviewContent (st : HomeState) (html : string) : HomeState :=
  {| settings := settings st;
     activeTab := activeTab st;
     exportFormat := exportFormat st;
     copySuccess := copySuccess st;
     previewViewport := previewViewport st;
     importMarkdownOpen := importMarkdownOpen st;
     exportDialogOpen := exportDialogOpen st;
     markdownInput := markdownInput st;
     visualizationMode := visualizationMode st;
     previewContent := html |}.

Definition setImportMarkdownOpen (st : HomeState) (open : bool) : HomeState :=
  {| settings := settings st;
     activeTab := activeTab st;
     exportFormat := exportFormat st;
     copySuccess := copySuccess st;
     previewViewport := previewViewport st;
     importMarkdownOpen := open;
     exportDialogOpen := exportDialogOpen st;
     markdownInput := markdownInput st;
     visualizationMode := visualizationMode st;
     previewContent := previewContent st |}.

End Component.

(** ** Markdown import *)

Section MarkdownImport.
Context `{Host}.

(** [markdownToHtml]: the promise resolves with the processed file turned
    into a string, or rejects with what the processor threw. *)
Definition markdownToHtml (markdown : string) : result string :=
  file <- processor_process markdown ;;
  Ok (String_of_VFile file).

(** The component state together with what the handlers leave outside it:
    the console and the alerts shown. *)
Record World : Type := {
  state : HomeState;
  console_errors : list (string * error);
  alerts : list string
}.

(** The [onClick] handler of the Import button. *)
Definition importOnClick (w : World) : World :=
  match markdownToHtml (markdownInput (state w)) with
  | Ok html =>
      {| state := setImportMarkdownOpen (setPreviewContent (state w) html) false;
         console_errors := console_errors w;
         alerts := alerts w |}
  | Throw error =>
      {| state := state w;
         console_errors :=
           (console_errors w ++ [("Error converting markdown to HTML:", error)])%list;
         alerts := (alerts w ++ ["Error parsing markdown. Please check your input."])%list |}
  end.

End MarkdownImport.

(** ** Sets and array assignment of the host language *)

Module Builtin.

(** [fonts.add(x)] on a [Set] of strings, its members kept in the order
    they were first added: a member the set has is not added again. *)
Definition Set_add (members : list string) (x : string) : list string :=
  if existsb (String.eqb x) members then members else (members ++ [x])%list.

(** [a[i] = v] on an array, for an index [i] that is a whole number from
    0: an entry the array has is replaced, and at [i = a.length] the array
    grows by one.  Further out the assignment leaves holes before the new
    entry; an array with holes is not a list of its entries, and the
    result is [None]. *)
Fixpoint Array_assign {A} (a : list A) (i : nat) (v : A) : option (list A) :=
  match a, i with
  | _ :: a', O => Some (v :: a')
  | [], O => Some [v]
  | x :: a', S i' =>
      match Array_assign a' i' v with
      | Some b => Some (x :: b)
      | None => None
      end
  | [], S _ => None
  end.

End Builtin.
Import Builtin.

(** ** The fonts the page loads *)

Record FontOption : Type := {
  family : string;
  category : string;
  variants : list string
}.

Definition popularFonts : list FontOption :=
  [ {| family := "Inter"; category := "sans-serif"; variants := ["400"; "500"; "600"; "700"] |};
    {| family := "Roboto"; category := "sans-serif"; variants := ["400"; "500"; "700"] |};
    {| family := "Open Sans"; category := "sans-serif"; variants := ["400"; "600"; "700"] |};
    {| family := "Lato"; category := "sans-serif"; variants := ["400"; "700"] |};
    {| family := "Montserrat"; category := "sans-serif"; variants := ["400"; "500"; "600"; "700"] |};
    {| family := "Poppins"; category := "sans-serif"; variants := ["400"; "500"; "600"; "700"] |};
    {| family := "Raleway"; category := "sans-serif"; variants := ["400"; "500"; "600"; "700"] |};
    {| family := "Merriweather"; category := "serif"; variants := ["400"; "700"] |};
    {| family := "PT Serif"; category := "serif"; variants := ["400"; "700"] |};
    {| family := "Playfair Display"; category := "serif"; variants := ["400"; "500"; "600"; "700"] |};
    {| family := "Lora"; category := "serif"; variants := ["400"; "500"; "600"; "700"] |};
    {| family := "Source Code Pro"; category := "monospace"; variants := ["400"; "600"] |};
    {| family := "Fira Code"; category := "monospace"; variants := ["400"; "500"; "600"; "700"] |};
    {| family := "JetBrains Mono"; category := "monospace"; variants := ["400"; "500"; "600"; "700"] |} ].

Definition getRequiredFonts (settings : TypographySettings) : list string :=
  let fonts := [] in
  let fonts := Set_add fonts (fontFamily settings) in
  let fonts :=
    if useSeparateHeadingFont settings
    then Set_add fonts (headingFontFamily settings)
    else fonts in
  fonts.

Definition createGoogleFontsUrl (settings : TypographySettings) : string :=
  let fonts := getRequiredFonts settings in
  let fontFamilies :=
    map (fun font =>
           match find (fun f => (family f =? font)%string) popularFonts with
           | Some fontOption =>
               "family=" ++ replace_spaces font ++ ":wght@"
               ++ String.concat ";" (variants fontOption)
           | None => "family=" ++ replace_spaces font ++ ":wght@400;700"
           end)
        fonts in
  "https://fonts.googleapis.com/css2?" ++ String.concat "&" fontFamilies
  ++ "&display=swap".

(** ** The preview *)

Section Preview.
Context `{Host}.

Definition calculateActualSpacing (emValue baseFontSize : number) : number :=
  Math_round (emValue * baseFontSize).

(** A value of the style object: a string, a number, or [undefined]. *)
Inductive StyleValue : Type :=
| StyleString (s : string)
| StyleNumber (x : number)
| StyleUndefined.

Definition style_number (v : option number) : StyleValue :=
  match v with
  | Some x => StyleNumber x
  | None => StyleUndefined
  end.

Definition previewStyles (st : HomeState) (scope : RenderScope)
  : list (string * StyleValue) :=
  let previewViewport := previewViewport st in
  let settings := settings st in
  let h1Size := index (headingSizes scope) 0 in
  let h2Size := index (headingSizes scope) 1 in
  let h3Size := index (headingSizes scope) 2 in
  let h4Size := index (headingSizes scope) 3 in
  let h5Size := index (headingSizes scope) 4 in
  let h6Size := index (headingSizes scope) 5 in
  let h1Weight := index (headingWeights scope) 0 in
  let h2Weight := index (headingWeights scope) 1 in
  let h3Weight := index (headingWeights scope) 2 in
  let h4Weight := index (headingWeights scope) 3 in
  let h5Weight := index (headingWeights scope) 4 in
  let h6Weight := index (headingWeights scope) 5 in
  [ ("--base-font-size",
     StyleString
       (num (Math_round (baseFontSize settings * getScaleFactor settings previewViewport))
        ++ "px"));
    ("--base-line-height", StyleNumber (baseLineHeight settings));
    ("--paragraph-spacing", StyleString (num (paragraphSpacing settings) ++ "em"));
    ("--heading-spacing", StyleString (num (headingSpacing settings) ++ "em"));
    ("--list-spacing", StyleString (num (listSpacing settings) ++ "em"));
    ("--h1-size", StyleString (interp h1Size ++ "px"));
    ("--h2-size", StyleString (interp h2Size ++ "px"));
    ("--h3-size", StyleString (interp h3Size ++ "px"));
    ("--h4-size", StyleString (interp h4Size ++ "px"));
    ("--h5-size", StyleString (interp h5Size ++ "px"));
    ("--h6-size", StyleString (interp h6Size ++ "px"));
    ("--h1-weight", style_number h1Weight);
    ("--h2-weight", style_number h2Weight);
    ("--h3-weight", style_number h3Weight);
    ("--h4-weight", style_number h4Weight);
    ("--h5-weight", style_number h5Weight);
    ("--h6-weight", style_number h6Weight);
    ("--body-weight", StyleNumber (baseFontWeight settings));
    ("fontFamily", StyleString (fontFamily settings)) ].

Definition getPreviewWidth (st : HomeState) : string :=
  match previewViewport st with
  | mobile => "375px"
  | tablet => "768px"
  | desktop => "100%"
  end.

(** The pixel labels the preview element carries for the spacing
    visualization: its [data-px], [data-heading-mb-px],
    [data-paragraph-mb-px] and [data-list-mb-px] attributes. *)
Definition previewData (st : HomeState) : list (string * number) :=
  let previewViewport := previewViewport st in
  let settings := settings st in
  [ ("data-px",
     calculateActualSpacing 1.5
       (Math_round (baseFontSize settings * getScaleFactor settings previewViewport)));
    ("data-heading-mb-px",
     calculateActualSpacing (headingSpacing settings)
       (Math_round (baseFontSize settings * getScaleFactor settings previewViewport)));
    ("data-paragraph-mb-px",
     calculateActualSpacing (paragraphSpacing settings)
       (Math_round (baseFontSize settings * getScaleFactor settings previewViewport)));
    ("data-list-mb-px",
     calculateActualSpacing (listSpacing settings)
       (Math_round (baseFontSize settings * getScaleFactor settings previewViewport))) ].

End Preview.

(** ** Changing the settings *)

(** The keys of [TypographySettings]. *)
Module Key.

Inductive t : Type :=
| baseFontSize
| baseLineHeight
| scaleRatio
| paragraphSpacing
| headingSpacing
| listSpacing
| rampAlgorithm
| minFontSize
| maxFontSize
| customRampValues
| responsiveScaling
| mobileScaleFactor
| tabletScaleFactor
| breakpointMobile
| breakpointTablet
| fontFamily
| headingFontFamily
| useSeparateHeadingFont
| baseFontWeight
| fontWeightRampAlgorithm
| minFontWeight
| maxFontWeight
| customWeightRampValues
| useWeightRamp.

End Key.

(** The type of [settings[key]]. *)
Definition Value (key : Key.t) : Type :=
  match key with
  | Key.baseFontSize => number
  | Key.baseLineHeight => number
  | Key.scaleRatio => number
  | Key.paragraphSpacing => number
  | Key.headingSpacing => number
  | Key.listSpacing => number
  | Key.rampAlgorithm => string
  | Key.minFontSize => number
  | Key.maxFontSize => number
  | Key.customRampValues => (list number)
  | Key.responsiveScaling => bool
  | Key.mobileScaleFactor => number
  | Key.tabletScaleFactor => number
  | Key.breakpointMobile => number
  | Key.breakpointTablet => number
  | Key.fontFamily => string
  | Key.headingFontFamily => string
  | Key.useSeparateHeadingFont => bool
  | Key.baseFontWeight => number
  | Key.fontWeightRampAlgorithm => string
  | Key.minFontWeight => number
  | Key.maxFontWeight => number
  | Key.customWeightRampValues => (list number)
  | Key.useWeightRamp => bool
  end.

(** [settings[key]] *)
Definition setting (settings : TypographySettings) (key : Key.t) : Value key :=
  match key with
  | Key.baseFontSize => baseFontSize settings
  | Key.baseLineHeight => baseLineHeight settings
  | Key.scaleRatio => scaleRatio settings
  | Key.paragraphSpacing => paragraphSpacing settings
  | Key.headingSpacing => headingSpacing settings
  | Key.listSpacing => listSpacing settings
  | Key.rampAlgorithm => rampAlgorithm settings
  | Key.minFontSize => minFontSize settings
  | Key.maxFontSize => maxFontSize settings
  | Key.customRampValues => customRampValues settings
  | Key.responsiveScaling => responsiveScaling settings
  | Key.mobileScaleFactor => mobileScaleFactor settings
  | Key.tabletScaleFactor => tabletScaleFactor settings
  | Key.breakpointMobile => breakpointMobile settings
  | Key.breakpointTablet => breakpointTablet settings
  | Key.fontFamily => fontFamily settings
  | Key.headingFontFamily => headingFontFamily settings
  | Key.useSeparateHeadingFont => useSeparateHeadingFont settings
  | Key.baseFontWeight => baseFontWeight settings
  | Key.fontWeightRampAlgorithm => fontWeightRampAlgorithm settings
  | Key.minFontWeight => minFontWeight settings
  | Key.maxFontWeight => maxFontWeight settings
  | Key.customWeightRampValues => customWeightRampValues settings
  | Key.useWeightRamp => useWeightRamp settings
  end.

(** The function [updateSetting(key, value)] hands to [setSettings]:
    [(prev) => ({ ...prev, [key]: value })]. *)
Definition updateSetting (key : Key.t) (value : Value key)
    (prev : TypographySettings) : TypographySettings :=
  {|
    baseFontSize :=
      match key return Value key -> number with
      | Key.baseFontSize => fun value => value
      | _ => fun _ => baseFontSize prev
      end value;
    baseLineHeight :=
      match key return Value key -> number with
      | Key.baseLineHeight => fun value => value
      | _ => fun _ => baseLineHeight prev
      end value;
    scaleRatio :=
      match key return Value key -> number with
      | Key.scaleRatio => fun value => value
      | _ => fun _ => scaleRatio prev
      end value;
    paragraphSpacing :=
      match key return Value key -> number with
      | Key.paragraphSpacing => fun value => value
      | _ => fun _ => paragraphSpacing prev
      end value;
    headingSpacing :=
      match key return Value key -> number with
      | Key.headingSpacing => fun value => value
      | _ => fun _ => headingSpacing prev
      end value;
    listSpacing :=
      match key return Value key -> number with
      | Key.listSpacing => fun value => value
      | _ => fun _ => listSpacing prev
      end value;
    rampAlgorithm :=
      match key return Value key -> string with
      | Key.rampAlgorithm => fun value => value
      | _ => fun _ => rampAlgorithm prev
      end value;
    minFontSize :=
      match key return Value key -> number with
      | Key.minFontSize => fun value => value
      | _ => fun _ => minFontSize prev
      end value;
    maxFontSize :=
      match key return Value key -> number with
      | Key.maxFontSize => fun value => value
      | _ => fun _ => maxFontSize prev
      end value;
    customRampValues :=
      match key return Value key -> (list number) with
      | Key.customRampValues => fun value => value
      | _ => fun _ => customRampValues prev
      end value;
    responsiveScaling :=
      match key return Value key -> bool with
      | Key.responsiveScaling => fun value => value
      | _ => fun _ => responsiveScaling prev
      end value;
    mobileScaleFactor :=
      match key return Value key -> number with
      | Key.mobileScaleFactor => fun value => value
      | _ => fun _ => mobileScaleFactor prev
      end value;
    tabletScaleFactor :=
      match key return Value key -> number with
      | Key.tabletScaleFactor => fun value => value
      | _ => fun _ => tabletScaleFactor prev
      end value;
    breakpointMobile :=
      match key return Value key -> number with
      | Key.breakpointMobile => fun value => value
      | _ => fun _ => breakpointMobile prev
      end value;
    breakpointTablet :=
      match key return Value key -> number with
      | Key.breakpointTablet => fun value => value
      | _ => fun _ => breakpointTablet prev
      end value;
    fontFamily :=
      match key return Value key -> string with
      | Key.fontFamily => fun value => value
      | _ => fun _ => fontFamily prev
      end value;
    headingFontFamily :=
      match key return Value key -> string with
      | Key.headingFontFamily => fun value => value
      | _ => fun _ => headingFontFamily prev
      end value;
    useSeparateHeadingFont :=
      match key return Value key -> bool with
      | Key.useSeparateHeadingFont => fun value => value
      | _ => fun _ => useSeparateHeadingFont prev
      end value;
    baseFontWeight :=
      match key return Value key -> number with
      | Key.baseFontWeight => fun value => value
      | _ => fun _ => baseFontWeight prev
      end value;
    fontWeightRampAlgorithm :=
      match key return Value key -> string with
      | Key.fontWeightRampAlgorithm => fun value => value
      | _ => fun _ => fontWeightRampAlgorithm prev
      end value;
    minFontWeight :=
      match key return Value key -> number with
      | Key.minFontWeight => fun value => value
      | _ => fun _ => minFontWeight prev
      end value;
    maxFontWeight :=
      match key return Value key -> number with
      | Key.maxFontWeight => fun value => value
      | _ => fun _ => maxFontWeight prev
      end value;
    customWeightRampValues :=
      match key return Value key -> (list number) with
      | Key.customWeightRampValues => fun value => value
      | _ => fun _ => customWeightRampValues prev
      end value;
    useWeightRamp :=
      match key return Value key -> bool with
      | Key.useWeightRamp => fun value => value
      | _ => fun _ => useWeightRamp prev
      end value
  |}.

(** [updateCustomRampValue(index, value)], called in a rendering whose
    settings are [settings]: the array is copied from that rendering, and
    the function handed to [setSettings] stores the copy. *)
Definition updateCustomRampValue (settings : TypographySettings) (index : nat)
    (value : number) : option (TypographySettings -> TypographySettings) :=
  let newCustomValues := customRampValues settings in
  match Array_assign newCustomValues index value with
  | Some newCustomValues => Some (updateSetting Key.customRampValues newCustomValues)
  | None => None
  end.

(** The [onChange] and [onValueChange] handlers of the custom weight of
    heading [index + 1]. *)
Definition customWeightOnChange (settings : TypographySettings) (index : nat)
    (value : number) : option (TypographySettings -> TypographySettings) :=
  let newWeights := customWeightRampValues settings in
  match Array_assign newWeights index value with
  | Some newWeights => Some (updateSetting Key.customWeightRampValues newWeights)
  | None => None
  end.

(** ** The component's state setters *)

(** [setSettings(update)] with an updating function. *)
Definition setSettings (st : HomeState) (update : TypographySettings -> TypographySettings) : HomeState :=
  {| settings := update (settings st);
     activeTab := activeTab st;
     exportFormat := exportFormat st;
     copySuccess := copySuccess st;
     previewViewport := previewViewport st;
     importMarkdownOpen := importMarkdownOpen st;
     exportDialogOpen := exportDialogOpen st;
     markdownInput := markdownInput st;
     visualizationMode := visualizationMode st;
     previewContent := previewContent st |}.

Definition setActiveTab (st : HomeState) (tab : string) : HomeState :=
  {| settings := settings st;
     activeTab := tab;
     exportFormat := exportFormat st;
     copySuccess := copySuccess st;
     previewViewport := previewViewport st;
     importMarkdownOpen := importMarkdownOpen st;
     exportDialogOpen := exportDialogOpen st;
     markdownInput := markdownInput st;
     visualizationMode := visualizationMode st;
     previewContent := previewContent st |}.

Definition setExportFormat (st : HomeState) (format : ExportFormat) : HomeState :=
  {| settings := settings st;
     activeTab := activeTab st;
     exportFormat := format;
     copySuccess := copySuccess st;
     previewViewport := previewViewport st;
     importMarkdownOpen := importMarkdownOpen st;
     exportDialogOpen := exportDialogOpen st;
     markdownInput := markdownInput st;
     visualizationMode := visualizationMode st;
     previewContent := previewContent st |}.

Definition setCopySuccess (st : HomeState) (message : string) : HomeState :=
  {| settings := settings st;
     activeTab := activeTab st;
     exportFormat := exportFormat st;
     copySuccess := message;
     previewViewport := previewViewport st;
     importMarkdownOpen := importMarkdownOpen st;
     exportDialogOpen := exportDialogOpen st;
     markdownInput := markdownInput st;
     visualizationMode := visualizationMode st;
     previewContent := previewContent st |}.

Definition setPreviewViewport (st : HomeState) (viewport : ViewportSize) : HomeState :=
  {| settings := settings st;
     activeTab := activeTab st;
     exportFormat := exportFormat st;
     copySuccess := copySuccess st;
     previewViewport := viewport;
     importMarkdownOpen := importMarkdownOpen st;
     exportDialogOpen := exportDialogOpen st;
     markdownInput := markdownInput st;
     visualizationMode := visualizationMode st;
     previewContent := previewContent st |}.

Definition setExportDialogOpen (st : HomeState) (open : bool) : HomeState :=
  {| settings := settings st;
     activeTab := activeTab st;
     exportFormat := exportFormat st;
     copySuccess := copySuccess st;
     previewViewport := previewViewport st;
     importMarkdownOpen := importMarkdownOpen st;
     exportDialogOpen := open;
     markdownInput := markdownInput st;
     visualizationMode := visualizationMode st;
     previewContent := previewContent st |}.

Definition setMarkdownInput (st : HomeState) (text : string) : HomeState :=
  {| settings := settings st;
     activeTab := activeTab st;
     exportFormat := exportFormat st;
     copySuccess := copySuccess st;
     previewViewport := previewViewport st;
     importMarkdownOpen := importMarkdownOpen st;
     exportDialogOpen := exportDialogOpen st;
     markdownInput := text;
     visualizationMode := visualizationMode st;
     previewContent := previewContent st |}.

Definition setVisualizationMode (st : HomeState) (mode : VisualizationMode) : HomeState :=
  {| settings := settings st;
     activeTab := activeTab st;
     exportFormat := exportFormat st;
     copySuccess := copySuccess st;
     previewViewport := previewViewport st;
     importMarkdownOpen := importMarkdownOpen st;
     exportDialogOpen := exportDialogOpen st;
     markdownInput := markdownInput st;
     visualizationMode := mode;
     previewContent := previewContent st |}.

(** ** The page and its events *)

(** The text the preview starts with, in UTF-8. *)
Definition defaultPreviewContent : string :=
  lines
    [ "";
      "<h1>Typography Flow Preview</h1>";
      "<p>This is a preview of your typography settings. Adjust the controls on the left to see how different settings affect the flow and readability of text on the page.</p>";
      "";
      "<h2>Heading Level 2</h2>";
      "<p>Typography is the art and technique of arranging type to make written language <strong>legible</strong>, <em>readable</em>, and <strong><em>appealing</em></strong> when displayed. The arrangement of type involves selecting typefaces, point sizes, line lengths, line-spacing, and letter-spacing.</p>";
      "<p>Good typography enhances readability, establishes hierarchy, and contributes to the overall aesthetic of a design. It helps guide the reader through the content in a logical and pleasing manner.</p>";
      "";
      "<h3>Heading Level 3</h3>";
      "<p>The term " ++ dq ++ "typography" ++ dq ++ " also refers to the style, arrangement, and appearance of the letters, numbers, and symbols created by the process. Type design is a closely related craft, sometimes considered part of typography.</p>";
      "";
      "<blockquote>";
      "  <p>Typography is what language looks like.</p>";
      "  <p><cite>â€” Ellen Lupton</cite></p>";
      "</blockquote>";
      "";
      "<h4>Heading Level 4</h4>";
      "<ul>";
      "  <li>Font size affects readability across different devices</li>";
      "  <li>Line height (leading) impacts how easily text can be scanned</li>";
      "  <li>Letter spacing (tracking) influences the density of text</li>";
      "  <li>Paragraph spacing creates breathing room between blocks of text</li>";
      "</ul>";
      "";
      "<h5>Heading Level 5</h5>";
      "<p>In traditional typography, text is composed to create a readable, coherent, and visually satisfying whole that works invisibly, without the awareness of the reader. Even distribution of typeset material, with a minimum of distractions and anomalies, aims to produce clarity and transparency.</p>";
      "";
      "<pre><code>// Example code block";
      "function calculateTypography(baseSize, ratio) {";
      "  return {";
      "    h1: baseSize * Math.pow(ratio, 4),";
      "    h2: baseSize * Math.pow(ratio, 3),";
      "    h3: baseSize * Math.pow(ratio, 2),";
      "    h4: baseSize * Math.pow(ratio, 1),";
      "    body: baseSize";
      "  };";
      "}</code></pre>";
      "";
      "<h6>Heading Level 6</h6>";
      "<ol>";
      "  <li>Choose appropriate typefaces for your content</li>";
      "  <li>Establish a clear hierarchy with different sizes</li>";
      "  <li>Maintain consistent spacing throughout the document</li>";
      "  <li>Consider the reading environment and audience</li>";
      "</ol>";
      "";
      "<hr>";
      "";
      "<table>";
      "  <thead>";
      "    <tr>";
      "      <th>Element</th>";
      "      <th>Purpose</th>";
      "      <th>Example Size</th>";
      "    </tr>";
      "  </thead>";
      "  <tbody>";
      "    <tr>";
      "      <td>Heading 1</td>";
      "      <td>Main page title</td>";
      "      <td>32px</td>";
      "    </tr>";
      "    <tr>";
      "      <td>Heading 2</td>";
      "      <td>Section headers</td>";
      "      <td>24px</td>";
      "    </tr>";
      "    <tr>";
      "      <td>Body text</td>";
      "      <td>Main content</td>";
      "      <td>16px</td>";
      "    </tr>";
      "  </tbody>";
      "</table>";
      "" ].

(** The state the component starts in. *)
Definition initialState : HomeState := {|
  settings := defaultSettings;
  activeTab := "basic";
  exportFormat := css;
  copySuccess := "";
  previewViewport := desktop;
  importMarkdownOpen := false;
  exportDialogOpen := false;
  markdownInput := "";
  visualizationMode := none;
  previewContent := defaultPreviewContent
|}.

(** The label of the copy button: [copySuccess || "Copy to Clipboard"]. *)
Definition copyButtonLabel (st : HomeState) : string :=
  if (copySuccess st =? "")%string then "Copy to Clipboard" else copySuccess st.

(** The page: the component with its console and alerts, the texts written
    to the clipboard, and the number of timeouts set and not yet run. *)
Record Page : Type := {
  world : World;
  clipboard : list string;
  timeouts : nat
}.

Definition initialPage : Page := {|
  world := {| state := initialState; console_errors := []; alerts := [] |};
  clipboard := [];
  timeouts := 0
|}.

(** A state setter called on the page. *)
Definition setState (p : Page) (st : HomeState) : Page :=
  {| world := {| state := st;
                 console_errors := console_errors (world p);
                 alerts := alerts (world p) |};
     clipboard := clipboard p;
     timeouts := timeouts p |}.

(** What the elements of the page report: a control wired to
    [updateSetting(key, ...)] with its value, the input or slider of a
    custom size or weight with its index and value, the tabs, the two
    dialogs as they open or close, the markdown text area, the two reset
    buttons, the Import button, a format button, the copy button with the
    answer of the clipboard, a viewport button, the spacing button, and a
    timeout of [copyToClipboard] that is due. *)
Inductive Event : Type :=
| Change (key : Key.t) (value : Value key)
| CustomSizeChange (index : nat) (value : number)
| CustomWeightChange (index : nat) (value : number)
| TabChange (tab : string)
| ImportDialogChange (open : bool)
| ExportDialogChange (open : bool)
| MarkdownChange (text : string)
| ResetClick
| ImportClick
| FormatClick (format : ExportFormat)
| CopyClick (permitted : bool)
| ViewportClick (viewport : ViewportSize)
| VisualizationClick
| TimeoutDue.

(** The values a select offers. *)
Definition offers (items : list string) (value : string) : bool :=
  existsb (String.eqb value) items.

Section PageEvents.
Context `{Host}.

(** [copyToClipboard], in a rendering with the constants [scope];
    [permitted] tells whether the promise of
    [navigator.clipboard.writeText] resolves. *)
Definition copyToClipboard (p : Page) (scope : RenderScope) (permitted : bool)
  : Page :=
  let st := state (world p) in
  match getExportCode st scope with
  | Ok text =>
      if permitted then
        {| world := {| state := setCopySuccess st "Copied!";
                       console_errors := console_errors (world p);
                       alerts := alerts (world p) |};
           clipboard := (clipboard p ++ [text])%list;
           timeouts := S (timeouts p) |}
      else setState p (setCopySuccess st "Failed to copy!")
  | Throw err => setState p (setCopySuccess st "Failed to copy!")
  end.

(** Whether the elements one rendering creates can report the event: the
    inputs, sliders and checkboxes wired to [updateSetting] under the
    conditions the markup puts them under, the selects with one of their
    items, the tabs with one of their values, the inputs of the custom
    values at the indices of the arrays, and a timeout when one is set.
    The numbers an input or slider reports are not restricted, and an
    element counts whether or not the tab or dialog that holds it is
    open.  Nothing is wired to [baseFontWeight], and the two arrays change
    through their entries only. *)
Definition offered (p : Page) (e : Event) : bool :=
  let settings := settings (state (world p)) in
  match e with
  | Change key value =>
      match key return Value key -> bool with
      | Key.baseFontSize | Key.baseLineHeight
      | Key.paragraphSpacing | Key.headingSpacing | Key.listSpacing
      | Key.responsiveScaling | Key.useSeparateHeadingFont | Key.useWeightRamp =>
          fun _ => true
      | Key.scaleRatio => fun _ => (rampAlgorithm settings =? "modular")%string
      | Key.rampAlgorithm => fun value => offers (map fst rampAlgorithms) value
      | Key.minFontSize | Key.maxFontSize =>
          fun _ => (rampAlgorithm settings =? "linear")%string
      | Key.mobileScaleFactor | Key.tabletScaleFactor
      | Key.breakpointMobile | Key.breakpointTablet =>
          fun _ => responsiveScaling settings
      | Key.fontFamily => fun value => offers (map family popularFonts) value
      | Key.headingFontFamily =>
          fun value =>
            useSeparateHeadingFont settings
            && offers (map family popularFonts) value
      | Key.fontWeightRampAlgorithm =>
          fun value =>
            useWeightRamp settings && offers (map fst weightRampAlgorithms) value
      | Key.minFontWeight | Key.maxFontWeight =>
          fun _ =>
            useWeightRamp settings
            && (fontWeightRampAlgorithm settings =? "linear")%string
      | Key.customRampValues | Key.customWeightRampValues | Key.baseFontWeight =>
          fun _ => false
      end value
  | CustomSizeChange index _ =>
      (rampAlgorithm settings =? "custom")%string
      && (index <? List.length (customRampValues settings))%nat
  | CustomWeightChange index _ =>
      useWeightRamp settings
      && (fontWeightRampAlgorithm settings =? "custom")%string
      && (index <? List.length (customWeightRampValues settings))%nat
  | TabChange tab => offers ["basic"; "fonts"; "ramps"; "spacing"; "responsive"] tab
  | TimeoutDue => (0 <? timeouts p)%nat
  | _ => true
  end.

(** The handler of each event, in a rendering with the constants [scope]. *)
Definition dispatch (p : Page) (scope : RenderScope) (e : Event) : option Page :=
  let st := state (world p) in
  match e with
  | Change key value => Some (setState p (setSettings st (updateSetting key value)))
  | CustomSizeChange index value =>
      match updateCustomRampValue (settings st) index value with
      | Some update => Some (setState p (setSettings st update))
      | None => None
      end
  | CustomWeightChange index value =>
      match customWeightOnChange (settings st) index value with
      | Some update => Some (setState p (setSettings st update))
      | None => None
      end
  | TabChange tab => Some (setState p (setActiveTab st tab))
  | ImportDialogChange open => Some (setState p (setImportMarkdownOpen st open))
  | ExportDialogChange open => Some (setState p (setExportDialogOpen st open))
  | MarkdownChange text => Some (setState p (setMarkdownInput st text))
  | ResetClick => Some (setState p (setPreviewContent st defaultPreviewContent))
  | ImportClick =>
      Some {| world := importOnClick (world p);
              clipboard := clipboard p;
              timeouts := timeouts p |}
  | FormatClick format => Some (setState p (setExportFormat st format))
  | CopyClick permitted => Some (copyToClipboard p scope permitted)
  | ViewportClick viewport => Some (setState p (setPreviewViewport st viewport))
  | VisualizationClick =>
      Some (setState p
              (setVisualizationMode st
                 match visualizationMode st with
                 | spacing => none
                 | none => spacing
                 end))
  | TimeoutDue =>
      Some {| world := {| state := setCopySuccess st "";
                          console_errors := console_errors (world p);
                          alerts := alerts (world p) |};
              clipboard := clipboard p;
              timeouts := pred (timeouts p) |}
  end.

(** One event on the page.  A component whose body throws is taken off
    the page and has no elements; there is no next page then, nor for an
    event its elements do not report. *)
Definition handle (p : Page) (e : Event) : option Page :=
  match render (state (world p)) with
  | Ok scope => if offered p e then dispatch p scope e else None
  | Throw err => None
  end.

(** A sequence of events, each handled in the rendering that follows the
    one before. *)
Fixpoint run (p : Page) (events : list Event) : option Page :=
  match events with
  | [] => Some p
  | e :: events' =>
      match handle p e with
      | Some p' => run p' events'
      | None => None
      end
  end.

End PageEvents.

(** ** A sample host

    A concrete host on which the program can be run: exponentiation for
    the whole exponents 0 to 4 by repeated multiplication, numbers printed
    by their exact decimal expansion, a plain indenting serializer, and a
    processor that rejects the empty document.  It stands in for the
    browser where a statement needs a concrete run; no theorem about every
    host depends on it. *)

Module Sample.

Definition pow (x y : number) : number :=
  if y =? 0 then 1
  else if y =? 1 then x
  else if y =? 2 then x * x
  else if y =? 3 then x * x * x
  else if y =? 4 then x * x * x * x
  else nan.

Definition decimal (n : Z) : string := NilZero.string_of_int (Z.to_int n).

(** The digits of [r / 2^k] after the decimal point, [r < 2^k]. *)
Fixpoint fraction (fuel : nat) (r : Z) (k : Z) : string :=
  match fuel with
  | O => ""
  | S fuel' =>
      if (r =? 0)%Z then ""
      else decimal (Z.shiftr (10 * r) k)
           ++ fraction fuel' (Z.land (10 * r) (Z.ones k)) k
  end.

Definition toString (x : number) : string :=
  match Prim2SF x with
  | S754_nan => "NaN"
  | S754_infinity s => if s then "-Infinity" else "Infinity"
  | S754_zero _ => "0"
  | S754_finite s m e =>
      (if s then "-" else "")
      ++ (if (0 <=? e)%Z then decimal (Z.shiftl (Z.pos m) e)
          else
            let k := (- e)%Z in
            let r := Z.land (Z.pos m) (Z.ones k) in
            decimal (Z.shiftr (Z.pos m) k)
            ++ (if (r =? 0)%Z then "" else "." ++ fraction (Z.to_nat k) r k))
  end.

Fixpoint quote_chars (s : string) : string :=
  match s with
  | EmptyString => EmptyString
  | String c s' =>
      if Ascii.eqb c (ascii_of_nat 34) || Ascii.eqb c (ascii_of_nat 92)
      then String (ascii_of_nat 92) (String c (quote_chars s'))
      else String c (quote_chars s')
  end.

Definition quote (s : string) : string := dq ++ quote_chars s ++ dq.

Fixpoint repeat_string (s : string) (n : nat) : string :=
  match n with
  | O => ""
  | S n' => s ++ repeat_string s n'
  end.

Fixpoint serialize (gap indent : string) (v : json) : string :=
  match v with
  | JString s => quote s
  | JObject [] => "{}"
  | JObject properties =>
      let inner := indent ++ gap in
      "{" ++ nl ++ inner
      ++ String.concat ("," ++ nl ++ inner)
           (map (fun p => quote (fst p) ++ ": " ++ serialize gap inner (snd p))
                properties)
      ++ nl ++ indent ++ "}"
  end.

Definition stringify (v : json) (space : nat) : string :=
  serialize (repeat_string " " space) "" v.

Definition process (markdown : string) : result string :=
  if (markdown =? "")%string then Throw (Rejection "empty document")
  else Ok ("<p>" ++ markdown ++ "</p>").

#[export] Instance host : Host := {|
  Math_pow := pow;
  Number_toString := toString;
  JSON_stringify := stringify;
  VFile := string;
  processor_process := process;
  String_of_VFile := fun file => file
|}.

End Sample.

(** * The vocabulary of the statements *)

Section Statements.
Context `{Host}.

(** The settings of the page with the custom ramp selected and a single
    custom size. *)
Definition one_custom_size : TypographySettings := {|
  baseFontSize := 16;
  baseLineHeight := 1.5;
  scaleRatio := 1.2;
  paragraphSpacing := 1.5;
  headingSpacing := 1;
  listSpacing := 1;
  rampAlgorithm := "custom";
  minFontSize := 14;
  maxFontSize := 48;
  customRampValues := [48];
  responsiveScaling := true;
  mobileScaleFactor := 0.75;
  tabletScaleFactor := 0.9;
  breakpointMobile := 480;
  breakpointTablet := 768;
  fontFamily := "Inter";
  headingFontFamily := "Inter";
  useSeparateHeadingFont := false;
  baseFontWeight := 400;
  fontWeightRampAlgorithm := "stepped";
  minFontWeight := 400;
  maxFontWeight := 700;
  customWeightRampValues := [700; 700; 600; 600; 500; 400];
  useWeightRamp := true
|}.

(** The keys of the two tables. *)
Definition sizeAlgorithms : list string :=
  ["modular"; "linear"; "fibonacci"; "custom"]%string.

Definition weightAlgorithms : list string :=
  ["stepped"; "linear"; "custom"]%string.

(** The weights used when the weight ramp is off. *)
Definition defaultWeights : list number := [700; 700; 600; 600; 500; 400].

(** The settings of the page with the custom ramp selected, a fractional
    first custom size, and responsive scaling switched off. *)
Definition fractional_custom_size : TypographySettings := {|
  baseFontSize := 16;
  baseLineHeight := 1.5;
  scaleRatio := 1.2;
  paragraphSpacing := 1.5;
  headingSpacing := 1;
  listSpacing := 1;
  rampAlgorithm := "custom";
  minFontSize := 14;
  maxFontSize := 48;
  customRampValues := [48.5; 36; 24; 20; 16; 14];
  responsiveScaling := false;
  mobileScaleFactor := 0.75;
  tabletScaleFactor := 0.9;
  breakpointMobile := 480;
  breakpointTablet := 768;
  fontFamily := "Inter";
  headingFontFamily := "Inter";
  useSeparateHeadingFont := false;
  baseFontWeight := 400;
  fontWeightRampAlgorithm := "stepped";
  minFontWeight := 400;
  maxFontWeight := 700;
  customWeightRampValues := [700; 700; 600; 600; 500; 400];
  useWeightRamp := true
|}.

(** The whole number [n] as a size. *)
Definition whole (n : Z) : number := integral_number false n.

(** [f] holds at [lo], [lo + 1], ..., [count] numbers in all. *)
Fixpoint all_from (f : Z -> bool) (lo : Z) (count : nat) : bool :=
  match count with
  | O => true
  | S count' => f lo && all_from f (lo + 1) count'
  end.

(** [l] never increases from one entry to the next, by the comparison of
    doubles. *)
Fixpoint non_increasing (l : list number) : bool :=
  match l with
  | x :: (y :: _) as l' => (y <=? x) && non_increasing l'
  | _ => true
  end.

(** The settings of the page with the linear ramp selected and size bounds
    whose difference is beyond the largest double. *)
Definition huge_size_range : TypographySettings := {|
  baseFontSize := 16;
  baseLineHeight := 1.5;
  scaleRatio := 1.2;
  paragraphSpacing := 1.5;
  headingSpacing := 1;
  listSpacing := 1;
  rampAlgorithm := "linear";
  minFontSize := -1.7e308;
  maxFontSize := 1.7e308;
  customRampValues := [48; 36; 24; 20; 16; 14];
  responsiveScaling := true;
  mobileScaleFactor := 0.75;
  tabletScaleFactor := 0.9;
  breakpointMobile := 480;
  breakpointTablet := 768;
  fontFamily := "Inter";
  headingFontFamily := "Inter";
  useSeparateHeadingFont := false;
  baseFontWeight := 400;
  fontWeightRampAlgorithm := "stepped";
  minFontWeight := 400;
  maxFontWeight := 700;
  customWeightRampValues := [700; 700; 600; 600; 500; 400];
  useWeightRamp := true
|}.

(** The linear ramp between the whole sizes [lo] and [hi]. *)
Definition linear_ramp (lo hi : Z) : list number :=
  let step := (whole hi - whole lo) / 5 in
  [ Math_round (whole hi);
    Math_round (whole hi - step);
    Math_round (whole hi - 2 * step);
    Math_round (whole hi - 3 * step);
    Math_round (whole hi - 4 * step);
    Math_round (whole lo) ].

(** The check of the linear ramp between [lo] and [hi]: it never
    increases, starts at [hi] and ends at [lo]. *)
Definition linear_ramp_ok (lo hi : Z) : bool :=
  non_increasing (linear_ramp lo hi)
  && match linear_ramp lo hi with
     | [h1; _; _; _; _; h6] => Leibniz.eqb h1 (whole hi) && Leibniz.eqb h6 (whole lo)
     | _ => false
     end.

(** The settings of the page with the fibonacci ramp selected and a base
    size whose triple is beyond the largest double. *)
Definition huge_base_size : TypographySettings := {|
  baseFontSize := 1e308;
  baseLineHeight := 1.5;
  scaleRatio := 1.2;
  paragraphSpacing := 1.5;
  headingSpacing := 1;
  listSpacing := 1;
  rampAlgorithm := "fibonacci";
  minFontSize := 14;
  maxFontSize := 48;
  customRampValues := [48; 36; 24; 20; 16; 14];
  responsiveScaling := true;
  mobileScaleFactor := 0.75;
  tabletScaleFactor := 0.9;
  breakpointMobile := 480;
  breakpointTablet := 768;
  fontFamily := "Inter";
  headingFontFamily := "Inter";
  useSeparateHeadingFont := false;
  baseFontWeight := 400;
  fontWeightRampAlgorithm := "stepped";
  minFontWeight := 400;
  maxFontWeight := 700;
  customWeightRampValues := [700; 700; 600; 600; 500; 400];
  useWeightRamp := true
|}.

(** The check of H3 for the whole base size [b]. *)
Definition fibonacci_h3_ok (b : Z) : bool :=
  Leibniz.eqb (Math_round (whole b * 3 / 3)) (Math_round (whole b))
  && Leibniz.eqb (Math_round (whole b)) (whole b).

(** A generator that reads only the three export ramps of its scope. *)
Definition reads_export_sizes
    (generate : TypographySettings -> RenderScope -> result string) : Prop :=
  forall settings scope scope',
    desktopSizes scope = desktopSizes scope' ->
    tabletSizes scope = tabletSizes scope' ->
    mobileSizes scope = mobileSizes scope' ->
    generate settings scope = generate settings scope'.

(** The marks occur in the document, one after the other and without
    overlap. *)
Inductive occur_in_order : list string -> string -> Prop :=
| occur_none (document : string) : occur_in_order [] document
| occur_next (before mark rest : string) (marks : list string) :
    occur_in_order marks rest ->
    occur_in_order (mark :: marks) (before ++ mark ++ rest).

(** [marks] is [lines] with some entries left out. *)
Inductive chosen_from : list string -> list string -> Prop :=
| chosen_none (ls : list string) : chosen_from [] ls
| chosen_take (l : string) (marks ls : list string) :
    chosen_from marks ls -> chosen_from (l :: marks) (l :: ls)
| chosen_skip (l : string) (marks ls : list string) :
    chosen_from marks ls -> chosen_from marks (l :: ls).

(** The custom properties of one [:root] block: the base size and the six
    heading sizes, in pixels. *)
Definition css_size_lines (indent : string) (base : number) (sizes : list number)
  : list string :=
  [ indent ++ "--base-font-size: " ++ num base ++ "px;";
    indent ++ "--h1-size: " ++ interp (index sizes 0) ++ "px;";
    indent ++ "--h2-size: " ++ interp (index sizes 1) ++ "px;";
    indent ++ "--h3-size: " ++ interp (index sizes 2) ++ "px;";
    indent ++ "--h4-size: " ++ interp (index sizes 3) ++ "px;";
    indent ++ "--h5-size: " ++ interp (index sizes 4) ++ "px;";
    indent ++ "--h6-size: " ++ interp (index sizes 5) ++ "px;" ].

(** The SASS variables of one viewport. *)
Definition sass_size_lines (viewport : string) (base : number) (sizes : list number)
  : list string :=
  [ "$base-font-size" ++ viewport ++ ": " ++ num base ++ "px;";
    "$h1-size" ++ viewport ++ ": " ++ interp (index sizes 0) ++ "px;";
    "$h2-size" ++ viewport ++ ": " ++ interp (index sizes 1) ++ "px;";
    "$h3-size" ++ viewport ++ ": " ++ interp (index sizes 2) ++ "px;";
    "$h4-size" ++ viewport ++ ": " ++ interp (index sizes 3) ++ "px;";
    "$h5-size" ++ viewport ++ ": " ++ interp (index sizes 4) ++ "px;";
    "$h6-size" ++ viewport ++ ": " ++ interp (index sizes 5) ++ "px;" ].

(** The size tokens of one group of the token tree. *)
Definition token_sizes (group : list string) (base : number) (sizes : list number)
    (tokens : json) : Prop :=
  at_path tokens (group ++ ["base"; "value"])%list
  = Some (JString (num base ++ "px"))
  /\ at_path tokens (group ++ ["h1"; "value"])%list
     = Some (JString (interp (index sizes 0) ++ "px"))
  /\ at_path tokens (group ++ ["h2"; "value"])%list
     = Some (JString (interp (index sizes 1) ++ "px"))
  /\ at_path tokens (group ++ ["h3"; "value"])%list
     = Some (JString (interp (index sizes 2) ++ "px"))
  /\ at_path tokens (group ++ ["h4"; "value"])%list
     = Some (JString (interp (index sizes 3) ++ "px"))
  /\ at_path tokens (group ++ ["h5"; "value"])%list
     = Some (JString (interp (index sizes 4) ++ "px"))
  /\ at_path tokens (group ++ ["h6"; "value"])%list
     = Some (JString (interp (index sizes 5) ++ "px")).

(** Where the three documents carry the base sizes [base], [tablet_base],
    [mobile_base] and the ramps [d], [t], [m] of the three viewports. *)
Definition css_carries (responsive : bool) (base tablet_base mobile_base : number)
    (d t m : list number) (document : string) : Prop :=
  if responsive then
    occur_in_order
      (("/* Mobile styles */" :: css_size_lines "  " mobile_base m)
       ++ ("/* Tablet styles */" :: css_size_lines "    " tablet_base t)
       ++ ("/* Desktop styles */" :: css_size_lines "    " base d))%list
      document
  else occur_in_order (css_size_lines "  " base d) document.

Definition sass_carries (responsive : bool) (base tablet_base mobile_base : number)
    (d t m : list number) (document : string) : Prop :=
  if responsive then
    occur_in_order
      (sass_size_lines "-mobile" mobile_base m
       ++ sass_size_lines "-tablet" tablet_base t
       ++ sass_size_lines "-desktop" base d)%list
      document
  else occur_in_order (sass_size_lines "" base d) document.

Definition tokens_carry (responsive : bool) (base tablet_base mobile_base : number)
    (d t m : list number) (tokens : json) : Prop :=
  token_sizes ["typography"; "fontSize"] base d tokens
  /\ if responsive then
       token_sizes ["typography"; "responsiveSizes"; "mobile"] mobile_base m tokens
       /\ token_sizes ["typography"; "responsiveSizes"; "tablet"] tablet_base t tokens
     else at_path tokens ["typography"; "responsiveSizes"] = None.

(** The state the page starts in, but for an empty preview. *)
Definition sample_state : HomeState := {|
  settings := defaultSettings;
  activeTab := "basic";
  exportFormat := css;
  copySuccess := "";
  previewViewport := desktop;
  importMarkdownOpen := false;
  exportDialogOpen := false;
  markdownInput := "";
  visualizationMode := none;
  previewContent := ""
|}.

(** The same state with the preview switched to the mobile viewport and
    the import dialog open. *)
Definition sample_state_mobile : HomeState := {|
  settings := defaultSettings;
  activeTab := "ramps";
  exportFormat := figma;
  copySuccess := "";
  previewViewport := mobile;
  importMarkdownOpen := true;
  exportDialogOpen := false;
  markdownInput := "# Title";
  visualizationMode := spacing;
  previewContent := "<h1>Title</h1>"
|}.

(** What rendering that state leaves in scope, on the sample host. *)
Definition sample_scope : RenderScope := {|
  headingSizes := [33; 28; 23; 19; 16; 14];
  headingWeights := [700; 700; 600; 600; 500; 400];
  desktopSizes := [33; 28; 23; 19; 16; 14];
  tabletSizes := [30; 25; 21; 17; 14; 13];
  mobileSizes := [25; 21; 17; 14; 12; 11]
|}.

(** That state before anything was logged or alerted. *)
Definition sample_world : World := {|
  state := sample_state;
  console_errors := [];
  alerts := []
|}.

(** The default settings with the linear ramps selected and the weight
    ramp switched off. *)
Definition linear_settings : TypographySettings := {|
  baseFontSize := 16;
  baseLineHeight := 1.5;
  scaleRatio := 1.2;
  paragraphSpacing := 1.5;
  headingSpacing := 1;
  listSpacing := 1;
  rampAlgorithm := "linear";
  minFontSize := 14;
  maxFontSize := 48;
  customRampValues := [48; 36; 24; 20; 16; 14];
  responsiveScaling := true;
  mobileScaleFactor := 0.75;
  tabletScaleFactor := 0.9;
  breakpointMobile := 480;
  breakpointTablet := 768;
  fontFamily := "Inter";
  headingFontFamily := "Inter";
  useSeparateHeadingFont := false;
  baseFontWeight := 400;
  fontWeightRampAlgorithm := "linear";
  minFontWeight := 400;
  maxFontWeight := 700;
  customWeightRampValues := [900; 800; 700; 600; 500; 400];
  useWeightRamp := false
|}.

End Statements.

(** Chooses the marks from the lines, taking each at its first match. *)
Ltac choose_lines :=
  repeat first [ apply chosen_none | apply chosen_take | apply chosen_skip ].

(** * The vocabulary of the further properties *)

Section FurtherStatements.
Context `{Host}.

(** The custom properties of the weights in a [:root] block. *)
Definition css_weight_lines (weights : list number) (body : number) : list string :=
  [ "  --h1-weight: " ++ interp (index weights 0) ++ ";";
    "  --h2-weight: " ++ interp (index weights 1) ++ ";";
    "  --h3-weight: " ++ interp (index weights 2) ++ ";";
    "  --h4-weight: " ++ interp (index weights 3) ++ ";";
    "  --h5-weight: " ++ interp (index weights 4) ++ ";";
    "  --h6-weight: " ++ interp (index weights 5) ++ ";";
    "  --body-weight: " ++ num body ++ ";" ].

(** The SASS variables of the weights. *)
Definition sass_weight_lines (weights : list number) (body : number) : list string :=
  [ "$body-weight: " ++ num body ++ ";";
    "$h1-weight: " ++ interp (index weights 0) ++ ";";
    "$h2-weight: " ++ interp (index weights 1) ++ ";";
    "$h3-weight: " ++ interp (index weights 2) ++ ";";
    "$h4-weight: " ++ interp (index weights 3) ++ ";";
    "$h5-weight: " ++ interp (index weights 4) ++ ";";
    "$h6-weight: " ++ interp (index weights 5) ++ ";" ].

(** The weight tokens of the token tree. *)
Definition token_weights (weights : list number) (body : number) (tokens : json)
  : Prop :=
  at_path tokens ["typography"; "fontWeights"; "body"; "value"]
  = Some (JString (num body))
  /\ at_path tokens ["typography"; "fontWeights"; "h1"; "value"]
     = Some (JString (interp (index weights 0)))
  /\ at_path tokens ["typography"; "fontWeights"; "h2"; "value"]
     = Some (JString (interp (index weights 1)))
  /\ at_path tokens ["typography"; "fontWeights"; "h3"; "value"]
     = Some (JString (interp (index weights 2)))
  /\ at_path tokens ["typography"; "fontWeights"; "h4"; "value"]
     = Some (JString (interp (index weights 3)))
  /\ at_path tokens ["typography"; "fontWeights"; "h5"; "value"]
     = Some (JString (interp (index weights 4)))
  /\ at_path tokens ["typography"; "fontWeights"; "h6"; "value"]
     = Some (JString (interp (index weights 5))).

(** The line height and the three spacings, as custom properties, as SASS
    variables and as tokens. *)
Definition css_spacing_lines (settings : TypographySettings) : list string :=
  [ "  --base-line-height: " ++ num (baseLineHeight settings) ++ ";";
    "  --paragraph-spacing: " ++ num (paragraphSpacing settings) ++ "em;";
    "  --heading-spacing: " ++ num (headingSpacing settings) ++ "em;";
    "  --list-spacing: " ++ num (listSpacing settings) ++ "em;" ].

Definition sass_spacing_lines (settings : TypographySettings) : list string :=
  [ "$base-line-height: " ++ num (baseLineHeight settings) ++ ";";
    "$paragraph-spacing: " ++ num (paragraphSpacing settings) ++ "em;";
    "$heading-spacing: " ++ num (headingSpacing settings) ++ "em;";
    "$list-spacing: " ++ num (listSpacing settings) ++ "em;" ].

Definition token_spacing (settings : TypographySettings) (tokens : json) : Prop :=
  at_path tokens ["typography"; "lineHeights"; "body"; "value"]
  = Some (JString (num (baseLineHeight settings)))
  /\ at_path tokens ["spacing"; "paragraph"; "value"]
     = Some (JString (num (paragraphSpacing settings) ++ "em"))
  /\ at_path tokens ["spacing"; "heading"; "value"]
     = Some (JString (num (headingSpacing settings) ++ "em"))
  /\ at_path tokens ["spacing"; "list"; "value"]
     = Some (JString (num (listSpacing settings) ++ "em")).

(** The sizes and the weights of a style object. *)
Definition style_sizes (styles : list (string * StyleValue)) (sizes : list number)
  : Prop :=
  property styles "--h1-size" = Some (StyleString (interp (index sizes 0) ++ "px"))
  /\ property styles "--h2-size" = Some (StyleString (interp (index sizes 1) ++ "px"))
  /\ property styles "--h3-size" = Some (StyleString (interp (index sizes 2) ++ "px"))
  /\ property styles "--h4-size" = Some (StyleString (interp (index sizes 3) ++ "px"))
  /\ property styles "--h5-size" = Some (StyleString (interp (index sizes 4) ++ "px"))
  /\ property styles "--h6-size" = Some (StyleString (interp (index sizes 5) ++ "px")).

Definition style_weights (styles : list (string * StyleValue)) (weights : list number)
  : Prop :=
  property styles "--h1-weight" = Some (style_number (index weights 0))
  /\ property styles "--h2-weight" = Some (style_number (index weights 1))
  /\ property styles "--h3-weight" = Some (style_number (index weights 2))
  /\ property styles "--h4-weight" = Some (style_number (index weights 3))
  /\ property styles "--h5-weight" = Some (style_number (index weights 4))
  /\ property styles "--h6-weight" = Some (style_number (index weights 5)).

(** The ramp among the three export ramps that belongs to a viewport. *)
Definition exportSizes (scope : RenderScope) (viewport : ViewportSize) : list number :=
  match viewport with
  | mobile => mobileSizes scope
  | tablet => tabletSizes scope
  | desktop => desktopSizes scope
  end.

(** The base font size the generators declare for a viewport: the
    constants [mobileBaseFontSize], [tabletBaseFontSize] and
    [desktopBaseFontSize] under responsive scaling, the base size of the
    settings without it. *)
Definition exportBaseFontSize (settings : TypographySettings) (viewport : ViewportSize)
  : number :=
  if responsiveScaling settings then
    match viewport with
    | mobile => Math_round (baseFontSize settings * mobileScaleFactor settings)
    | tablet => Math_round (baseFontSize settings * tabletScaleFactor settings)
    | desktop => baseFontSize settings
    end
  else baseFontSize settings.

(** The weights a font is requested in by the page. *)
Definition requestedWeights (font : string) : list string :=
  match find (fun f => (family f =? font)%string) popularFonts with
  | Some fontOption => variants fontOption
  | None => ["400"; "700"]%string
  end.

(** The line that imports a font in the generated CSS and SASS. *)
Definition font_import (font : string) : string :=
  "@import url('https://fonts.googleapis.com/css2?family=" ++ replace_spaces font
  ++ ":wght@400;700&display=swap');".

(** Whether a text has a space in it. *)
Fixpoint has_space (s : string) : bool :=
  match s with
  | EmptyString => false
  | String c s' => Ascii.eqb c " "%char || has_space s'
  end.

(** The settings a page in good order has: algorithms of the two tables,
    six custom sizes and six custom weights, the body weight and the fonts
    it started with or offers. *)
Definition well_formed (settings : TypographySettings) : Prop :=
  In (rampAlgorithm settings) sizeAlgorithms
  /\ In (fontWeightRampAlgorithm settings) weightAlgorithms
  /\ List.length (customRampValues settings) = 6%nat
  /\ List.length (customWeightRampValues settings) = 6%nat
  /\ baseFontWeight settings = 400
  /\ In (fontFamily settings) (map family popularFonts)
  /\ In (headingFontFamily settings) (map family popularFonts).

(** The events that change the settings. *)
Definition changes_settings (e : Event) : bool :=
  match e with
  | Change _ _ | CustomSizeChange _ _ | CustomWeightChange _ _ => true
  | _ => false
  end.

(** A copy the clipboard takes. *)
Definition is_permitted_copy (e : Event) : bool :=
  match e with
  | CopyClick permitted => permitted
  | _ => false
  end.

(** The steps of the two scale-factor sliders, and the check that a whole
    size up to 400 scaled by the smaller of two steps is not the larger
    one. *)
Definition scaleSteps : list number :=
  [0.5; 0.55; 0.6; 0.65; 0.7; 0.75; 0.8; 0.85; 0.9; 0.95; 1].

Definition scaled_ok (f g : number) (n : Z) : bool :=
  Math_round (whole n * f) <=? Math_round (whole n * g).

Definition steps_ok (f g : number) : bool :=
  negb (f <=? g) || all_from (scaled_ok f g) 0 401.

(** Entry by entry, the first list is at most the second. *)
Fixpoint pointwise_le (l l' : list number) : bool :=
  match l, l' with
  | x :: l, y :: l' => (x <=? y) && pointwise_le l l'
  | [], [] => true
  | _, _ => false
  end.

(** The check of the linear weight ramp between the weights [100 * lo]
    and [100 * hi]. *)
Definition linear_weights_ok (lo hi : Z) : bool :=
  linear_ramp_ok (100 * lo) (100 * hi).

(** The fibonacci ramp of the whole base size [b], and its check: it never
    increases and ends at 3 pixels or more. *)
Definition fibonacci_ramp (b : Z) : list number :=
  map (fun ratio => Math_round (whole b * ratio / 3)) [8; 5; 3; 2; 1; 1].

Definition fibonacci_ramp_ok (b : Z) : bool :=
  non_increasing (fibonacci_ramp b)
  && match fibonacci_ramp b with
     | [_; _; _; _; _; h6] => 3 <=? h6
     | _ => false
     end.

(** The default settings with a single custom weight. *)
Definition one_custom_weight : TypographySettings :=
  updateSetting Key.customWeightRampValues [700] defaultSettings.

(** The default settings with the font Lato, which the table lists with
    the weights 400 and 700. *)
Definition lato_settings : TypographySettings :=
  updateSetting Key.fontFamily "Lato"%string defaultSettings.

(** The default settings with the separate heading font Open Sans. *)
Definition two_fonts_settings : TypographySettings :=
  updateSetting Key.useSeparateHeadingFont true
    (updateSetting Key.headingFontFamily "Open Sans"%string defaultSettings).

(** The page as it starts, with a fractional base size. *)
Definition fractional_base_state : HomeState :=
  setSettings initialState (updateSetting Key.baseFontSize 16.5).

(** A session on the page: the custom ramp is chosen and its first size
    changed, the token format chosen and copied, and the timeout runs. *)
Definition sample_session : list Event :=
  [ Change Key.rampAlgorithm "custom"%string;
    CustomSizeChange 0 50;
    FormatClick figma;
    CopyClick true;
    TimeoutDue ].

End FurtherStatements.

(** * Properties *)

(** ** Arithmetic on doubles *)

(** Multiplication of doubles is commutative. *)
Lemma mul_comm (x y : number) : x * y = y * x.
Proof.
  apply Prim2SF_inj. rewrite !mul_spec. unfold SF64mul, SFmul.
  destruct (Prim2SF x) as [sx|sx| |sx mx ex], (Prim2SF y) as [sy|sy| |sy my ey];
    try reflexivity; rewrite (xorb_comm sx sy); try reflexivity.
  now rewrite (Pos.mul_comm mx my), (Z.add_comm ex ey).
Qed.

(** A significand of [d] binary digits lies in [2^(d-1), 2^d). *)
Lemma digits2_pos_bound (p : positive) :
  (2 ^ (Z.pos (digits2_pos p) - 1) <= Z.pos p < 2 ^ Z.pos (digits2_pos p))%Z.
Proof.
  induction p as [p IH|p IH|]; cbn [digits2_pos];
    [rewrite Pos2Z.inj_succ, (Pos2Z.inj_xI p)
    |rewrite Pos2Z.inj_succ, (Pos2Z.inj_xO p)
    |cbn; lia];
    replace (Z.succ (Z.pos (digits2_pos p)) - 1)%Z
      with (Z.succ (Z.pos (digits2_pos p) - 1))%Z by lia;
    rewrite !Z.pow_succ_r by lia;
    revert IH;
    generalize (2 ^ (Z.pos (digits2_pos p) - 1))%Z (2 ^ Z.pos (digits2_pos p))%Z;
    intros; lia.
Qed.

(** Shifting a significand left by [k] bits. *)
Lemma iter_xO_spec (p k : positive) :
  Z.pos (Pos.iter xO p k) = (Z.pos p * 2 ^ Z.pos k)%Z
  /\ Z.pos (digits2_pos (Pos.iter xO p k)) = (Z.pos (digits2_pos p) + Z.pos k)%Z.
Proof.
  induction k as [|k [IHv IHd]] using Pos.peano_ind.
  - cbn [Pos.iter digits2_pos]. lia.
  - rewrite Pos.iter_succ. cbn [digits2_pos].
    rewrite (Pos2Z.inj_xO (Pos.iter xO p k)), IHv, !Pos2Z.inj_succ, IHd.
    rewrite Z.pow_succ_r by lia. lia.
Qed.

(** The exponent of a double is the one its format gives its significand. *)
Lemma bounded_exponent m e :
  bounded prec emax m e = true ->
  (fexp prec emax (Z.pos (digits2_pos m) + e) = e /\ e <= emax - prec)%Z.
Proof.
  unfold bounded, canonical_mantissa. intros Hb.
  apply andb_prop in Hb as [Hc He].
  apply Z.eqb_eq in Hc. apply Z.leb_le in He. now split.
Qed.

(** Rounding the significand and exponent of a double gives that double. *)
Lemma round_exact (s : bool) (m : positive) (e : Z) :
  bounded prec emax m e = true ->
  binary_round_aux prec emax s (Z.pos m) e loc_Exact = S754_finite s m e.
Proof.
  intros Hb. destruct (bounded_exponent m e Hb) as [Hc He].
  unfold binary_round_aux, shr_fexp. cbn [Zdigits2 shr_record_of_loc].
  rewrite Hc, Z.sub_diag.
  cbn [shr shr_m loc_of_shr_record round_nearest_even Zdigits2 shr_record_of_loc].
  rewrite Hc, Z.sub_diag. cbn [shr shr_m].
  apply Z.leb_le in He. now rewrite He.
Qed.

(** Multiplying a double by 1 changes nothing, NaN, the infinities and the
    sign of zero included. *)
Lemma mul_1_r (x : number) : x * 1 = x.
Proof.
  apply Prim2SF_inj. rewrite mul_spec.
  change (Prim2SF 1) with (S754_finite false (Pos.iter xO 1%positive 52) (-52)).
  pose proof (Prim2SF_valid x) as Hv.
  destruct (Prim2SF x) as [s|s| |s m e]; unfold SF64mul, SFmul;
    rewrite ?xorb_false_r; try reflexivity.
  cbn [valid_binary] in Hv. destruct (bounded_exponent m e Hv) as [Hc He].
  rewrite (Pos.mul_comm m).
  change (Pos.iter xO 1%positive 52 * m)%positive with (Pos.iter xO m 52).
  unfold binary_round_aux at 1, shr_fexp at 1. cbn [Zdigits2 shr_record_of_loc].
  rewrite (proj2 (iter_xO_spec m 52)).
  replace (Z.pos (digits2_pos m) + 52 + (e + -52))%Z
    with (Z.pos (digits2_pos m) + e)%Z by lia.
  rewrite Hc. replace (e - (e + -52))%Z with 52%Z by lia.
  cbn [shr iter_pos shr_1 orb Pos.iter].
  replace (e + -52 + 52)%Z with e by lia.
  cbn [shr_m loc_of_shr_record round_nearest_even]. unfold shr_fexp.
  cbn [Zdigits2 shr_record_of_loc]. rewrite Hc, Z.sub_diag. cbn [shr shr_m].
  apply Z.leb_le in He. now rewrite He.
Qed.

(** A whole number from 1 to [2^52], converted to a double, is the double
    of that value: its significand is the number shifted left. *)
Lemma Prim2SF_of_pos (p : positive) :
  (Z.pos p <= 2 ^ 52)%Z ->
  exists (m : positive) (k : Z),
    (0 <= k)%Z /\ Z.pos m = (Z.pos p * 2 ^ k)%Z
    /\ Prim2SF (of_uint63 (Uint63.of_Z (Z.pos p))) = S754_finite false m (- k).
Proof.
  intros Hp.
  rewrite of_uint63_spec, Uint63.of_Z_spec, Z.mod_small
    by (change Uint63.wB with (2 ^ 63)%Z; lia).
  unfold binary_normalize, binary_round, shl_align.
  pose proof (digits2_pos_bound p) as [Hlo _].
  assert (Hd : (Z.pos (digits2_pos p) <= 53)%Z).
  { destruct (Z.le_gt_cases (Z.pos (digits2_pos p)) 53) as [Hle|Hgt]; [exact Hle|].
    assert (2 ^ 53 <= 2 ^ (Z.pos (digits2_pos p) - 1))%Z
      by (apply Z.pow_le_mono_r; lia).
    lia. }
  assert (Hf : fexp prec emax (Z.pos (digits2_pos p) + 0)
               = (Z.pos (digits2_pos p) - 53)%Z)
    by (unfold fexp, FloatOps.emin, SpecFloat.emin, prec, emax; lia).
  rewrite Hf, Z.sub_0_r.
  destruct (Z.pos (digits2_pos p) - 53)%Z as [|q|q] eqn:Hq; [| lia |].
  - exists p, 0%Z. repeat split; [lia | lia |].
    change (- 0)%Z with 0%Z. apply round_exact. unfold bounded, canonical_mantissa.
    rewrite Hf. reflexivity.
  - destruct (iter_xO_spec p q) as [Hv Hdig].
    exists (Pos.iter xO p q), (Z.pos q). repeat split; [lia | exact Hv |].
    change (- Z.pos q)%Z with (Z.neg q).
    apply round_exact. unfold bounded, canonical_mantissa.
    rewrite Hdig. apply andb_true_intro. split.
    + apply Z.eqb_eq. unfold fexp, FloatOps.emin, SpecFloat.emin, prec, emax. lia.
    + apply Z.leb_le. unfold prec, emax. lia.
Qed.

(** Rounding [p * 2^k / 2^k] to the nearest whole number gives [p]. *)
Lemma round_shift (p k : Z) :
  (0 < k)%Z ->
  Z.shiftr (p * 2 ^ k + Z.shiftl 1 (- - k - 1)) (- - k) = p.
Proof.
  intros Hk. rewrite Z.opp_involutive, Z.shiftl_1_l, Z.shiftr_div_pow2 by lia.
  rewrite Z.add_comm, Z.div_add by (apply Z.pow_nonzero; lia).
  rewrite Z.div_small; [lia|].
  split; [apply Z.pow_nonneg; lia | apply Z.pow_lt_mono_r; lia].
Qed.

(** [Math.round] returns a whole number as it is. *)
Lemma Math_round_integral (s : bool) (n : Z) :
  (Z.abs n <= 2 ^ 52)%Z ->
  Math_round (integral_number s n) = integral_number s n.
Proof.
  intros Hn. destruct n as [|p|p]; cbn [integral_number].
  - now destruct s.
  - destruct (Prim2SF_of_pos p) as (m & k & Hk & Hm & HSF); [lia|].
    unfold Math_round. rewrite HSF.
    destruct (0 <=? - k)%Z eqn:Hsign; [reflexivity|].
    apply Z.leb_gt in Hsign. cbv zeta.
    now rewrite Hm, round_shift by lia.
  - destruct (Prim2SF_of_pos p) as (m & k & Hk & Hm & HSF); [lia|].
    unfold Math_round. cbn [Z.opp].
    rewrite FloatAxioms.opp_spec, HSF. cbn [SFopp negb].
    destruct (0 <=? - k)%Z eqn:Hsign; [reflexivity|].
    apply Z.leb_gt in Hsign. cbv zeta.
    change (Z.neg m) with (- Z.pos m)%Z. rewrite Hm.
    replace (- (Z.pos p * 2 ^ k))%Z with (Z.neg p * 2 ^ k)%Z by lia.
    now rewrite round_shift by lia.
Qed.

(** What [Math.round] makes of a double with a fractional part is at most
    [2^52] in magnitude. *)
Lemma rounded_bound (s : bool) (m : positive) (e : Z) :
  bounded prec emax m e = true -> (e < 0)%Z ->
  (Z.abs (Z.shiftr ((if s then Z.neg m else Z.pos m) + Z.shiftl 1 (- e - 1)) (- e))
   <= 2 ^ 52)%Z.
Proof.
  intros Hb He. destruct (bounded_exponent m e Hb) as [Hc _].
  pose proof (digits2_pos_bound m) as [_ Hhi].
  assert (Hd : (Z.pos (digits2_pos m) <= 53)%Z)
    by (revert Hc; unfold fexp, FloatOps.emin, SpecFloat.emin, prec, emax; lia).
  assert (Hm : (Z.pos m < 2 ^ 53)%Z).
  { eapply Z.lt_le_trans; [exact Hhi|]. apply Z.pow_le_mono_r; lia. }
  rewrite Z.shiftl_1_l, Z.shiftr_div_pow2 by lia.
  remember (- e - 1)%Z as k eqn:Hk.
  replace (- e)%Z with (Z.succ k) by lia.
  rewrite Z.pow_succ_r by lia.
  assert (Hq : (0 < 2 ^ k)%Z) by (apply Z.pow_pos_nonneg; lia).
  revert Hq. generalize (2 ^ k)%Z. intros q Hq.
  change (2 ^ 52)%Z with 4503599627370496%Z.
  change (2 ^ 53)%Z with 9007199254740992%Z in Hm.
  apply Z.abs_le. split.
  - apply Z.div_le_lower_bound; [lia|]. destruct s; lia.
  - apply Z.div_le_upper_bound; [lia|]. destruct s; lia.
Qed.

(** [Math.round] is idempotent on every double. *)
Theorem Math_round_idempotent (x : number) :
  Math_round (Math_round x) = Math_round x.
Proof.
  pose proof (Prim2SF_valid x) as Hv.
  unfold Math_round at 2. unfold Math_round at 2.
  destruct (Prim2SF x) as [s|s| |s m e] eqn:Hx;
    try (unfold Math_round; now rewrite Hx).
  destruct (0 <=? e)%Z eqn:He.
  - unfold Math_round. now rewrite Hx, He.
  - apply Z.leb_gt in He. apply Math_round_integral, rounded_bound; assumption.
Qed.

(** ** The ramp calculator *)

Section RampProperties.

Context `{Host}.

(** What each entry of [rampAlgorithms] computes. *)
Lemma calculateSizes_of_modular settings :
  calculateSizes_of "modular" settings =
  Ok [ Math_round (baseFontSize settings * Math_pow (scaleRatio settings) 4);
       Math_round (baseFontSize settings * Math_pow (scaleRatio settings) 3);
       Math_round (baseFontSize settings * Math_pow (scaleRatio settings) 2);
       Math_round (baseFontSize settings * Math_pow (scaleRatio settings) 1);
       Math_round (baseFontSize settings);
       Math_round (baseFontSize settings * 0.9) ].
Proof. reflexivity. Qed.

Lemma calculateSizes_of_linear settings :
  calculateSizes_of "linear" settings =
  let step := (maxFontSize settings - minFontSize settings) / 5 in
  Ok [ Math_round (maxFontSize settings);
       Math_round (maxFontSize settings - step);
       Math_round (maxFontSize settings - 2 * step);
       Math_round (maxFontSize settings - 3 * step);
       Math_round (maxFontSize settings - 4 * step);
       Math_round (minFontSize settings) ].
Proof. reflexivity. Qed.

Lemma calculateSizes_of_fibonacci settings :
  calculateSizes_of "fibonacci" settings =
  Ok (map (fun ratio => Math_round (baseFontSize settings * ratio / 3))
          [8; 5; 3; 2; 1; 1]).
Proof. reflexivity. Qed.

Lemma calculateSizes_of_custom settings :
  calculateSizes_of "custom" settings = Ok (customRampValues settings).
Proof. reflexivity. Qed.

(** C1. The modular ramp is
    [round(b*r^4), round(b*r^3), round(b*r^2), round(b*r^1), round(b),
    round(0.9*b)] for base size [b] and ratio [r], the powers being those
    of the host's [Math.pow]; with base 16 and ratio 1.2, on a host whose
    [Math.pow] returns its base for the exponent 1, H4 is [round(16*1.2)],
    which is 19. *)
Theorem modular_ramp_formula :
  (forall settings,
     let b := baseFontSize settings in
     let r := scaleRatio settings in
     calculateSizes_of "modular" settings =
     Ok [ Math_round (b * Math_pow r 4);
          Math_round (b * Math_pow r 3);
          Math_round (b * Math_pow r 2);
          Math_round (b * Math_pow r 1);
          Math_round b;
          Math_round (0.9 * b) ])
  /\ ((forall x, Math_pow x 1 = x) ->
      forall settings sizes,
        baseFontSize settings = 16 ->
        scaleRatio settings = 1.2 ->
        calculateSizes_of "modular" settings = Ok sizes ->
        index sizes 3 = Some (Math_round (16 * 1.2))
        /\ Math_round (16 * 1.2) = 19).
Proof.
  split.
  - intros settings b r. rewrite calculateSizes_of_modular.
    subst b r. now rewrite (mul_comm 0.9).
  - intros pow_one settings sizes Hb Hr Hs.
    rewrite calculateSizes_of_modular, Hb, Hr, pow_one in Hs.
    injection Hs as <-. split; reflexivity.
Qed.

(** C2, as stated, fails: the custom ramp returns the custom values as they
    are, here a single one. *)
Lemma custom_ramp_of_one_size :
  In (rampAlgorithm one_custom_size) sizeAlgorithms
  /\ calculateSizes_of (H := Sample.host) (rampAlgorithm one_custom_size)
       one_custom_size = Ok [48]
  /\ List.length [48 : number] <> 6%nat.
Proof. repeat split; [simpl; tauto | discriminate]. Qed.

(** C2, amended. For settings whose custom size and custom weight lists
    have six entries each, every size algorithm returns six sizes and every
    weight algorithm six weights. *)
Theorem six_sizes_six_weights settings :
  List.length (customRampValues settings) = 6%nat ->
  List.length (customWeightRampValues settings) = 6%nat ->
  (forall key, In key sizeAlgorithms ->
     exists sizes, calculateSizes_of key settings = Ok sizes
                   /\ List.length sizes = 6%nat)
  /\ (forall key, In key weightAlgorithms ->
        exists weights, calculateWeights_of key settings = Ok weights
                        /\ List.length weights = 6%nat).
Proof.
  intros Hsizes Hweights. split; intros key Hkey; simpl in Hkey.
  - destruct Hkey as [<-|[<-|[<-|[<-|[]]]]]; eexists; split;
      try reflexivity; exact Hsizes.
  - destruct Hkey as [<-|[<-|[<-|[]]]]; eexists; split; try reflexivity;
      cbn; destruct (useWeightRamp settings); cbn; auto.
Qed.

(** C9. The stepped and the custom weight algorithms return the same list
    on every settings record: the custom weights when the weight ramp is in
    use, the default list otherwise. *)
Theorem stepped_weights_are_custom_weights :
  forall settings,
    calculateWeights_of "stepped" settings = calculateWeights_of "custom" settings
    /\ calculateWeights_of "custom" settings =
       Ok (if useWeightRamp settings then customWeightRampValues settings
           else defaultWeights).
Proof. intros settings. split; reflexivity. Qed.

(** C10. With the weight ramp switched off each of the three weight
    algorithms returns the default list, whatever the weight bounds and
    custom weights are; and whenever one of the three is selected, the
    weights a generator exports are the weights the selected algorithm
    returns, so the generators' own fallback changes nothing. *)
Theorem weights_without_ramp settings :
  useWeightRamp settings = false ->
  (forall key, In key weightAlgorithms ->
     calculateWeights_of key settings = Ok defaultWeights)
  /\ (forall settings',
        In (fontWeightRampAlgorithm settings') weightAlgorithms ->
        exportFontWeights settings' =
        calculateWeights_of (fontWeightRampAlgorithm settings') settings').
Proof.
  intros Hoff. split.
  - intros key Hkey. simpl in Hkey.
    destruct Hkey as [<-|[<-|[<-|[]]]]; cbn; now rewrite Hoff.
  - intros settings' Hkey. unfold exportFontWeights.
    destruct (useWeightRamp settings') eqn:Huse; [reflexivity|].
    simpl in Hkey.
    destruct Hkey as [<-|[<-|[<-|[]]]]; cbn; now rewrite Huse.
Qed.

(** *** Sizes per viewport *)

(** C5, as stated, fails in its last part: without responsive scaling the
    sizes are still rounded, so a fractional custom size does not come
    back as it is. *)
Lemma unscaled_custom_ramp_is_rounded :
  responsiveScaling fractional_custom_size = false
  /\ calculateSizes_of (H := Sample.host) (rampAlgorithm fractional_custom_size)
       fractional_custom_size = Ok [48.5; 36; 24; 20; 16; 14]
  /\ calculateSizesForViewport (H := Sample.host) fractional_custom_size desktop
     = Ok [49; 36; 24; 20; 16; 14]
  /\ (48.5 =? 49) = false.
Proof. repeat split. Qed.

(** The sizes for a viewport, once the ramp is known. *)
Lemma calculateSizesForViewport_eq settings viewport base :
  calculateSizes_of (rampAlgorithm settings) settings = Ok base ->
  calculateSizesForViewport settings viewport =
  Ok (map (fun size => Math_round (size * getScaleFactor settings viewport)) base).
Proof. intros Hbase. unfold calculateSizesForViewport. now rewrite Hbase. Qed.

(** The entries of the three computed ramps are rounded already. *)
Lemma computed_ramp_is_rounded settings key base :
  In key ["modular"; "linear"; "fibonacci"]%string ->
  calculateSizes_of key settings = Ok base ->
  map Math_round base = base.
Proof.
  intros Hkey Hbase. simpl in Hkey.
  destruct Hkey as [<-|[<-|[<-|[]]]]; cbn in Hbase; injection Hbase as <-;
    cbn [map]; now rewrite !Math_round_idempotent.
Qed.

(** C5, amended. The sizes for a viewport are the entries of the selected
    algorithm's ramp, each multiplied by the viewport's scale factor and
    rounded; the factor is [mobileScaleFactor] for mobile and
    [tabletScaleFactor] for tablet under responsive scaling, and 1
    otherwise.  Without responsive scaling the mobile, tablet and desktop
    lists are one list, the ramp with each entry rounded, which for the
    modular, linear and fibonacci algorithms is the ramp itself. *)
Theorem sizes_for_viewport settings base :
  calculateSizes_of (rampAlgorithm settings) settings = Ok base ->
  (forall viewport,
     calculateSizesForViewport settings viewport =
     Ok (map (fun size =>
                Math_round
                  (size *
                   match viewport with
                   | mobile =>
                       if responsiveScaling settings
                       then mobileScaleFactor settings else 1
                   | tablet =>
                       if responsiveScaling settings
                       then tabletScaleFactor settings else 1
                   | desktop => 1
                   end)) base))
  /\ (responsiveScaling settings = false ->
      forall viewport,
        calculateSizesForViewport settings viewport = Ok (map Math_round base))
  /\ (responsiveScaling settings = false ->
      In (rampAlgorithm settings) ["modular"; "linear"; "fibonacci"]%string ->
      forall viewport, calculateSizesForViewport settings viewport = Ok base).
Proof.
  intros Hbase.
  assert (Hflat : responsiveScaling settings = false ->
                  forall viewport,
                    calculateSizesForViewport settings viewport
                    = Ok (map Math_round base)).
  { intros Hoff viewport.
    rewrite (calculateSizesForViewport_eq _ _ _ Hbase). f_equal.
    apply map_ext. intros size.
    destruct viewport; cbn [getScaleFactor]; rewrite ?Hoff; now rewrite mul_1_r. }
  split; [|split].
  - intros viewport. rewrite (calculateSizesForViewport_eq _ _ _ Hbase).
    now destruct viewport.
  - exact Hflat.
  - intros Hoff Hkey viewport.
    now rewrite Hflat, (computed_ramp_is_rounded _ _ _ Hkey Hbase).
Qed.

(** *** Checking a property on a range of whole numbers *)

(** A check that passed on a range holds at each of its points. *)
Lemma all_from_spec f count : forall lo,
  all_from f lo count = true ->
  forall z, (lo <= z < lo + Z.of_nat count)%Z -> f z = true.
Proof.
  induction count as [|count IH]; intros lo Hall z Hz; [lia|].
  cbn [all_from] in Hall. apply andb_prop in Hall as [Hlo Hrest].
  destruct (Z.eq_dec z lo) as [->|Hne]; [exact Hlo|].
  apply (IH (lo + 1)%Z Hrest). lia.
Qed.

(** *** The linear ramp *)

(** C6, as stated, fails: [minFontSize < maxFontSize] holds, yet the
    difference of the bounds overflows, the step is infinite, and H2 to H5
    are below H6. *)
Lemma linear_ramp_overflow :
  (minFontSize huge_size_range <? maxFontSize huge_size_range) = true
  /\ calculateSizes_of (H := Sample.host) "linear" huge_size_range
     = Ok [1.7e308; neg_infinity; neg_infinity; neg_infinity; neg_infinity;
           -1.7e308]
  /\ (-1.7e308 <=? neg_infinity) = false.
Proof. repeat split. Qed.

(** Every pair of whole bounds the size controls allow, evaluated. *)
Lemma linear_ramp_checked :
  all_from (fun lo => all_from (fun hi => (hi <=? lo)%Z || linear_ramp_ok lo hi) 8 93)
    8 93 = true.
Proof. vm_compute. reflexivity. Qed.

(** C6, amended. The linear ramp is the rounding of [max], [max - step],
    [max - 2*step], [max - 3*step], [max - 4*step], [min] with
    [step = (max - min) / 5], so H1 is [round(maxFontSize)] and H6 is
    [round(minFontSize)]; and for whole-number bounds with
    [8 <= minFontSize < maxFontSize <= 100], the range the size controls
    keep, it never increases from H1 to H6, H1 is [maxFontSize] and H6 is
    [minFontSize]. *)
Theorem linear_ramp_descends settings :
  let step := (maxFontSize settings - minFontSize settings) / 5 in
  calculateSizes_of "linear" settings =
  Ok (map Math_round
        [ maxFontSize settings;
          maxFontSize settings - step;
          maxFontSize settings - 2 * step;
          maxFontSize settings - 3 * step;
          maxFontSize settings - 4 * step;
          minFontSize settings ])
  /\ (forall sizes,
        calculateSizes_of "linear" settings = Ok sizes ->
        index sizes 0 = Some (Math_round (maxFontSize settings))
        /\ index sizes 5 = Some (Math_round (minFontSize settings)))
  /\ (forall lo hi : Z,
        (8 <= lo)%Z -> (lo < hi)%Z -> (hi <= 100)%Z ->
        minFontSize settings = whole lo ->
        maxFontSize settings = whole hi ->
        exists h1 h2 h3 h4 h5 h6,
          calculateSizes_of "linear" settings = Ok [h1; h2; h3; h4; h5; h6]
          /\ (h2 <=? h1) = true /\ (h3 <=? h2) = true /\ (h4 <=? h3) = true
          /\ (h5 <=? h4) = true /\ (h6 <=? h5) = true
          /\ h1 = maxFontSize settings /\ h6 = minFontSize settings).
Proof.
  intros step. rewrite calculateSizes_of_linear. fold step. cbn [map].
  split; [reflexivity|split].
  - intros sizes [= <-]. split; reflexivity.
  - intros lo hi Hlo Hlt Hhi Hmin Hmax.
    pose proof (all_from_spec _ _ _ linear_ramp_checked lo ltac:(lia)) as Hrow.
    cbv beta in Hrow.
    pose proof (all_from_spec _ _ _ Hrow hi ltac:(lia)) as Hok. cbv beta in Hok.
    apply orb_prop in Hok as [Hle|Hok]; [apply Z.leb_le in Hle; lia|].
    subst step. rewrite Hmin, Hmax.
    unfold linear_ramp_ok, linear_ramp in Hok. cbv zeta in Hok.
    cbn [non_increasing] in Hok.
    repeat match goal with
           | E : _ && _ = true |- _ => apply andb_prop in E as [? ?]
           | E : Leibniz.eqb _ _ = true |- _ => apply Leibniz.eqb_spec in E
           end.
    do 6 eexists. split; [reflexivity|].
    repeat split; auto.
Qed.

(** *** The fibonacci ramp *)

(** C7, as stated, fails in its claim about H3: the triple of the base size
    overflows and H3 is infinite, not the rounded base size. *)
Lemma fibonacci_ramp_overflow :
  (exists h1 h2 h4 h5 h6,
     calculateSizes_of (H := Sample.host) "fibonacci" huge_base_size
     = Ok [h1; h2; infinity; h4; h5; h6])
  /\ Math_round (baseFontSize huge_base_size) = 1e308
  /\ (infinity =? 1e308) = false.
Proof. split; [do 5 eexists|split]; reflexivity. Qed.

(** Every whole base size the base-size control allows, evaluated. *)
Lemma fibonacci_h3_checked : all_from fibonacci_h3_ok 8 17 = true.
Proof. vm_compute. reflexivity. Qed.

(** C7, amended. The fibonacci ramp is
    [round(8b/3), round(5b/3), round(3b/3), round(2b/3), round(b/3),
    round(b/3)] for base size [b], each product formed before the
    division, so H5 equals H6; and for a whole-number base size from 8 to
    24, the range the base-size control keeps, H3 is [round(b)], which is
    [b]. *)
Theorem fibonacci_ramp_formula settings :
  let b := baseFontSize settings in
  calculateSizes_of "fibonacci" settings =
  Ok [ Math_round (8 * b / 3);
       Math_round (5 * b / 3);
       Math_round (3 * b / 3);
       Math_round (2 * b / 3);
       Math_round (b / 3);
       Math_round (b / 3) ]
  /\ (forall sizes,
        calculateSizes_of "fibonacci" settings = Ok sizes ->
        index sizes 4 = index sizes 5)
  /\ (forall n : Z,
        (8 <= n <= 24)%Z -> b = whole n ->
        forall sizes,
          calculateSizes_of "fibonacci" settings = Ok sizes ->
          index sizes 2 = Some (Math_round b) /\ Math_round b = b).
Proof.
  intros b. rewrite calculateSizes_of_fibonacci. fold b. cbn [map].
  rewrite (mul_comm b 8), (mul_comm b 5), (mul_comm b 3), (mul_comm b 2),
    (mul_1_r b).
  split; [reflexivity|split].
  - intros sizes Hs. injection Hs as <-. reflexivity.
  - intros n Hn Hb sizes Hs. injection Hs as <-. cbn [index nth_error].
    pose proof (all_from_spec _ _ _ fibonacci_h3_checked n ltac:(lia)) as Hok.
    unfold fibonacci_h3_ok in Hok. apply andb_prop in Hok as [H3 Hround].
    apply Leibniz.eqb_spec in H3. apply Leibniz.eqb_spec in Hround.
    rewrite Hb, (mul_comm 3). split; [now rewrite H3 | exact Hround].
Qed.

End RampProperties.

(** ** Markdown import *)

Section ImportProperties.

Context `{Host}.

(** C3. When the conversion of the imported text fails, the Import handler
    leaves the component state, the preview content with it, as it was and
    raises one alert; when it succeeds the preview content becomes the
    converted text and no alert is raised.  So the preview content is
    replaced only by a successful conversion. *)
Theorem import_keeps_preview_on_failure (w : World) :
  (forall error,
     markdownToHtml (markdownInput (state w)) = Throw error ->
     state (importOnClick w) = state w
     /\ previewContent (state (importOnClick w)) = previewContent (state w)
     /\ alerts (importOnClick w)
        = (alerts w ++ ["Error parsing markdown. Please check your input."])%list)
  /\ (forall html,
        markdownToHtml (markdownInput (state w)) = Ok html ->
        previewContent (state (importOnClick w)) = html
        /\ importMarkdownOpen (state (importOnClick w)) = false
        /\ alerts (importOnClick w) = alerts w)
  /\ (previewContent (state (importOnClick w)) <> previewContent (state w) ->
      exists html,
        markdownToHtml (markdownInput (state w)) = Ok html
        /\ previewContent (state (importOnClick w)) = html).
Proof.
  unfold importOnClick.
  destruct (markdownToHtml (markdownInput (state w))) as [html|error].
  - split; [discriminate|split].
    + intros html' [= <-]. repeat split.
    + intros _. now exists html.
  - split; [|split].
    + intros error' _. repeat split.
    + discriminate.
    + intros Hchanged. now contradiction Hchanged.
Qed.

End ImportProperties.

(** ** The export generators *)

Section ExportProperties.

Context `{Host}.

(** Whether the sizes can be computed does not depend on the viewport. *)
Lemma calculateSizesForViewport_viewport settings viewport viewport' :
  (exists sizes sizes',
     calculateSizesForViewport settings viewport = Ok sizes
     /\ calculateSizesForViewport settings viewport' = Ok sizes')
  \/ (exists error,
        calculateSizesForViewport settings viewport = Throw error
        /\ calculateSizesForViewport settings viewport' = Throw error).
Proof.
  unfold calculateSizesForViewport.
  destruct (calculateSizes_of (rampAlgorithm settings) settings) as [base|error];
    cbn; [left|right]; eauto.
Qed.

(** None of the three generators reads the sizes or weights of the
    preview. *)
Lemma generateCSSCode_reads_export_sizes : reads_export_sizes generateCSSCode.
Proof.
  intros settings scope scope' Hd Ht Hm. unfold generateCSSCode.
  now rewrite Hd, Ht, Hm.
Qed.

Lemma generateSASSCode_reads_export_sizes : reads_export_sizes generateSASSCode.
Proof.
  intros settings scope scope' Hd Ht Hm. unfold generateSASSCode.
  now rewrite Hd, Ht, Hm.
Qed.

Lemma generateFigmaTokens_reads_export_sizes :
  reads_export_sizes generateFigmaTokens.
Proof.
  intros settings scope scope' Hd Ht Hm. unfold generateFigmaTokens, figmaTokens.
  now rewrite Hd, Ht, Hm.
Qed.

(** Such a generator, run on a state, reads nothing of it but the
    settings. *)
Lemma exported_settings generate st st' :
  reads_export_sizes generate ->
  settings st = settings st' ->
  exported generate st = exported generate st'.
Proof.
  intros Hgen Hs. unfold exported, render. rewrite <- Hs.
  destruct (calculateSizesForViewport_viewport (settings st)
              (previewViewport st) (previewViewport st'))
    as [(sizes & sizes' & -> & ->)|(error & -> & ->)]; cbn; [|reflexivity].
  destruct (calculateFontWeights (settings st)); cbn; [|reflexivity].
  destruct (calculateSizesForViewport (settings st) desktop); cbn; [|reflexivity].
  destruct (calculateSizesForViewport (settings st) tablet); cbn; [|reflexivity].
  destruct (calculateSizesForViewport (settings st) mobile); cbn; [|reflexivity].
  now apply Hgen.
Qed.

(** C8. The ramp calculations and the export generators are functions of
    the settings record alone: two component states with equal settings,
    whatever their other fields, give the same sizes from every size
    algorithm, the same weights from every weight algorithm, the same
    sizes for every viewport, and the same CSS, SASS and token documents. *)
Theorem outputs_depend_on_settings_only (st st' : HomeState) :
  settings st = settings st' ->
  (forall key, calculateSizes_of key (settings st)
               = calculateSizes_of key (settings st'))
  /\ (forall key, calculateWeights_of key (settings st)
                  = calculateWeights_of key (settings st'))
  /\ (forall viewport, calculateSizesForViewport (settings st) viewport
                       = calculateSizesForViewport (settings st') viewport)
  /\ exported generateCSSCode st = exported generateCSSCode st'
  /\ exported generateSASSCode st = exported generateSASSCode st'
  /\ exported generateFigmaTokens st = exported generateFigmaTokens st'.
Proof.
  intros Hs. repeat split; intros; try (now rewrite Hs);
    apply exported_settings; trivial.
  - exact generateCSSCode_reads_export_sizes.
  - exact generateSASSCode_reads_export_sizes.
  - exact generateFigmaTokens_reads_export_sizes.
Qed.

(** *** Text that occurs in a document *)

(** Appending strings is associative. *)
Lemma append_assoc (a b c : string) : (a ++ b) ++ c = a ++ b ++ c.
Proof. induction a as [|ch a IH]; cbn; [reflexivity|now rewrite IH]. Qed.

(** Marks that occur in a document occur in any document around it. *)
Lemma occur_after (before : string) (marks : list string) (document : string) :
  occur_in_order marks document -> occur_in_order marks (before ++ document).
Proof.
  intros Hmarks. destruct Hmarks as [document|pre mark rest marks Hrest].
  - constructor.
  - rewrite <- append_assoc. now constructor.
Qed.

Lemma occur_app (marks marks' : list string) (document document' : string) :
  occur_in_order marks document ->
  occur_in_order marks' document' ->
  occur_in_order (marks ++ marks')%list (document ++ document').
Proof.
  intros Hmarks Hmarks'.
  induction Hmarks as [document|before mark rest marks Hrest IH]; cbn [app].
  - now apply occur_after.
  - rewrite !append_assoc. now constructor.
Qed.

Lemma occur_before (marks : list string) (document after : string) :
  occur_in_order marks document -> occur_in_order marks (document ++ after).
Proof.
  intros Hmarks. rewrite <- (app_nil_r marks).
  apply occur_app; [exact Hmarks|constructor].
Qed.

(** The first line of a template and the rest. *)
Lemma lines_cons (l : string) (ls : list string) :
  lines (l :: ls) = l ++ match ls with [] => "" | _ => nl ++ lines ls end.
Proof.
  unfold lines. destruct ls as [|l' ls]; cbn [String.concat]; [|reflexivity].
  induction l as [|ch l IH]; cbn; [reflexivity|now rewrite <- IH].
Qed.

(** Lines chosen from a template occur in it, in their order. *)
Lemma occur_lines (marks ls : list string) :
  chosen_from marks ls -> occur_in_order marks (lines ls).
Proof.
  intros Hchosen.
  induction Hchosen as [ls|l marks ls Hchosen IH|l marks ls Hchosen IH].
  - constructor.
  - rewrite lines_cons. apply (occur_next "" l).
    destruct ls as [|l' ls]; [|now apply occur_after].
    inversion Hchosen. constructor.
  - rewrite lines_cons. apply occur_after.
    destruct ls as [|l' ls]; [|now apply occur_after].
    inversion Hchosen. constructor.
Qed.

(** *** Where each document carries the sizes *)

(** The CSS document carries the sizes of its scope. *)
Lemma generateCSSCode_carries settings scope weights :
  exportFontWeights settings = Ok weights ->
  exists document,
    generateCSSCode settings scope = Ok document
    /\ css_carries (responsiveScaling settings) (baseFontSize settings)
         (Math_round (baseFontSize settings * tabletScaleFactor settings))
         (Math_round (baseFontSize settings * mobileScaleFactor settings))
         (desktopSizes scope) (tabletSizes scope) (mobileSizes scope) document.
Proof.
  intros Hweights. unfold generateCSSCode. rewrite Hweights. cbn [bind]. cbv zeta.
  eexists. split; [reflexivity|].
  unfold css_carries, css_size_lines.
  destruct (responsiveScaling settings);
    apply occur_before, occur_after;
    repeat apply occur_app; apply occur_lines; choose_lines.
Qed.

(** The SASS document carries the sizes of its scope. *)
Lemma generateSASSCode_carries settings scope weights :
  exportFontWeights settings = Ok weights ->
  exists document,
    generateSASSCode settings scope = Ok document
    /\ sass_carries (responsiveScaling settings) (baseFontSize settings)
         (Math_round (baseFontSize settings * tabletScaleFactor settings))
         (Math_round (baseFontSize settings * mobileScaleFactor settings))
         (desktopSizes scope) (tabletSizes scope) (mobileSizes scope) document.
Proof.
  intros Hweights. unfold generateSASSCode. rewrite Hweights. cbn [bind]. cbv zeta.
  eexists. split; [reflexivity|].
  unfold sass_carries, sass_size_lines.
  destruct (responsiveScaling settings).
  - apply occur_before, occur_after, occur_before.
    apply occur_lines. cbn [app]. choose_lines.
  - apply occur_before, occur_after.
    apply occur_lines. choose_lines.
Qed.

(** [toString] succeeds on an entry the array has. *)
Lemma toString_ok (weights : list number) (i : nat) :
  (i < List.length weights)%nat -> exists text, toString (index weights i) = Ok text.
Proof.
  intros Hi. unfold index.
  destruct (nth_error weights i) as [x|] eqn:Hx.
  - now exists (Number_toString x).
  - apply nth_error_None in Hx. lia.
Qed.

(** With six weights to print the token tree is built. *)
Lemma figmaTokens_total settings scope weights :
  exportFontWeights settings = Ok weights ->
  (6 <= List.length weights)%nat ->
  exists tokens, figmaTokens settings scope = Ok tokens.
Proof.
  intros Hweights Hsix. unfold figmaTokens. rewrite Hweights. cbn [bind]. cbv zeta.
  destruct (toString_ok weights 0) as [w1 ->]; [lia|].
  destruct (toString_ok weights 1) as [w2 ->]; [lia|].
  destruct (toString_ok weights 2) as [w3 ->]; [lia|].
  destruct (toString_ok weights 3) as [w4 ->]; [lia|].
  destruct (toString_ok weights 4) as [w5 ->]; [lia|].
  destruct (toString_ok weights 5) as [w6 ->]; [lia|].
  cbn [bind]. eexists. reflexivity.
Qed.

(** The token tree carries the sizes of its scope. *)
Lemma figmaTokens_carry settings scope tokens :
  figmaTokens settings scope = Ok tokens ->
  tokens_carry (responsiveScaling settings) (baseFontSize settings)
    (Math_round (baseFontSize settings * tabletScaleFactor settings))
    (Math_round (baseFontSize settings * mobileScaleFactor settings))
    (desktopSizes scope) (tabletSizes scope) (mobileSizes scope) tokens.
Proof.
  unfold figmaTokens. cbv zeta.
  destruct (exportFontWeights settings) as [weights|]; cbn [bind]; [|discriminate].
  destruct (toString (index weights 0)); cbn [bind]; [|discriminate].
  destruct (toString (index weights 1)); cbn [bind]; [|discriminate].
  destruct (toString (index weights 2)); cbn [bind]; [|discriminate].
  destruct (toString (index weights 3)); cbn [bind]; [|discriminate].
  destruct (toString (index weights 4)); cbn [bind]; [|discriminate].
  destruct (toString (index weights 5)); cbn [bind]; [|discriminate].
  intros [= <-]. unfold tokens_carry, token_sizes.
  destruct (responsiveScaling settings); repeat split.
Qed.

(** What a rendering leaves in the scope of the generators. *)
Lemma render_scope st scope :
  render st = Ok scope ->
  calculateSizesForViewport (settings st) desktop = Ok (desktopSizes scope)
  /\ calculateSizesForViewport (settings st) tablet = Ok (tabletSizes scope)
  /\ calculateSizesForViewport (settings st) mobile = Ok (mobileSizes scope)
  /\ calculateFontWeights (settings st) = Ok (headingWeights scope).
Proof.
  unfold render.
  destruct (calculateSizesForViewport (settings st) (previewViewport st));
    cbn [bind]; [|discriminate].
  destruct (calculateFontWeights (settings st)); cbn [bind]; [|discriminate].
  destruct (calculateSizesForViewport (settings st) desktop);
    cbn [bind]; [|discriminate].
  destruct (calculateSizesForViewport (settings st) tablet);
    cbn [bind]; [|discriminate].
  destruct (calculateSizesForViewport (settings st) mobile);
    cbn [bind]; [|discriminate].
  intros [= <-]. repeat split.
Qed.

(** After a rendering the generators find their weights. *)
Lemma exportFontWeights_ok settings weights :
  calculateFontWeights settings = Ok weights ->
  exists weights', exportFontWeights settings = Ok weights'.
Proof.
  unfold exportFontWeights, calculateFontWeights. intros ->.
  destruct (useWeightRamp settings); eauto.
Qed.

(** C4. After a rendering, the CSS and the SASS generator each return a
    document, and the three exports carry one set of sizes, the ramps
    [calculateSizesForViewport] computes: the desktop sizes with the base
    size, and under responsive scaling also the mobile and tablet sizes
    with their rounded base sizes, stand in the custom properties of the
    CSS document, in the variables of the SASS document and, whenever the
    token tree is built, in its size tokens; the tree is built as soon as
    six weights are exported. *)
Theorem exports_carry_the_same_sizes (st : HomeState) (scope : RenderScope) :
  render st = Ok scope ->
  let base := baseFontSize (settings st) in
  let tablet_base :=
    Math_round (baseFontSize (settings st) * tabletScaleFactor (settings st)) in
  let mobile_base :=
    Math_round (baseFontSize (settings st) * mobileScaleFactor (settings st)) in
  let responsive := responsiveScaling (settings st) in
  exists d t m css_document sass_document weights,
    calculateSizesForViewport (settings st) desktop = Ok d
    /\ calculateSizesForViewport (settings st) tablet = Ok t
    /\ calculateSizesForViewport (settings st) mobile = Ok m
    /\ generateCSSCode (settings st) scope = Ok css_document
    /\ css_carries responsive base tablet_base mobile_base d t m css_document
    /\ generateSASSCode (settings st) scope = Ok sass_document
    /\ sass_carries responsive base tablet_base mobile_base d t m sass_document
    /\ (forall tokens,
          figmaTokens (settings st) scope = Ok tokens ->
          generateFigmaTokens (settings st) scope = Ok (JSON_stringify tokens 2)
          /\ tokens_carry responsive base tablet_base mobile_base d t m tokens)
    /\ exportFontWeights (settings st) = Ok weights
    /\ ((6 <= List.length weights)%nat ->
        exists tokens, figmaTokens (settings st) scope = Ok tokens).
Proof.
  intros Hrender base tablet_base mobile_base responsive.
  destruct (render_scope st scope Hrender) as (Hd & Ht & Hm & Hw).
  destruct (exportFontWeights_ok _ _ Hw) as [weights Hweights].
  destruct (generateCSSCode_carries (settings st) scope weights Hweights)
    as (css_document & Hcss & Hcss_sizes).
  destruct (generateSASSCode_carries (settings st) scope weights Hweights)
    as (sass_document & Hsass & Hsass_sizes).
  exists (desktopSizes scope), (tabletSizes scope), (mobileSizes scope),
    css_document, sass_document, weights.
  repeat (split; [assumption|]). split; [|split].
  - intros tokens Htokens. split.
    + unfold generateFigmaTokens. now rewrite Htokens.
    + now apply figmaTokens_carry.
  - exact Hweights.
  - now apply figmaTokens_total.
Qed.

End ExportProperties.

(** ** Further properties of the ramp calculator *)

Section FurtherRampProperties.

Context `{Host}.

(** X1. Every size [calculateSizesForViewport] returns is left unchanged
    by [Math.round], fractional custom sizes included; there are as many
    sizes as the selected algorithm's ramp has entries; and the desktop
    sizes are that ramp with each entry rounded, whatever the responsive
    settings are. *)
Theorem viewport_sizes_are_whole settings viewport sizes :
  calculateSizesForViewport settings viewport = Ok sizes ->
  (forall size, In size sizes -> Math_round size = size)
  /\ exists base,
       calculateSizes_of (rampAlgorithm settings) settings = Ok base
       /\ List.length sizes = List.length base
       /\ calculateSizesForViewport settings desktop = Ok (map Math_round base).
Proof.
  unfold calculateSizesForViewport.
  destruct (calculateSizes_of (rampAlgorithm settings) settings) as [base|];
    cbn [bind]; [|discriminate].
  intros [= <-]. split.
  - intros size Hin. apply in_map_iff in Hin as (x & <- & _).
    apply Math_round_idempotent.
  - exists base. split; [reflexivity|]. split; [now rewrite length_map|].
    cbn [getScaleFactor]. f_equal. apply map_ext. intros size.
    now rewrite mul_1_r.
Qed.

(** The size table has an algorithm exactly under its four keys. *)
Lemma method_of_rampAlgorithms key :
  (In key sizeAlgorithms /\ exists algorithm, method_of rampAlgorithms key = Ok algorithm)
  \/ (~ In key sizeAlgorithms /\ method_of rampAlgorithms key = Throw TypeError).
Proof.
  unfold method_of, rampAlgorithms, sizeAlgorithms. cbn [property].
  destruct (String.eqb_spec "modular" key) as [<-|H1];
    [left; split; [simpl; tauto|eauto]|].
  destruct (String.eqb_spec "linear" key) as [<-|H2];
    [left; split; [simpl; tauto|eauto]|].
  destruct (String.eqb_spec "fibonacci" key) as [<-|H3];
    [left; split; [simpl; tauto|eauto]|].
  destruct (String.eqb_spec "custom" key) as [<-|H4];
    [left; split; [simpl; tauto|eauto]|].
  right. split; [|reflexivity]. simpl. tauto.
Qed.

(** The weight table has an algorithm exactly under its three keys. *)
Lemma method_of_weightRampAlgorithms key :
  (In key weightAlgorithms
   /\ exists algorithm, method_of weightRampAlgorithms key = Ok algorithm)
  \/ (~ In key weightAlgorithms
      /\ method_of weightRampAlgorithms key = Throw TypeError).
Proof.
  unfold method_of, weightRampAlgorithms, weightAlgorithms. cbn [property].
  destruct (String.eqb_spec "stepped" key) as [<-|H1];
    [left; split; [simpl; tauto|eauto]|].
  destruct (String.eqb_spec "linear" key) as [<-|H2];
    [left; split; [simpl; tauto|eauto]|].
  destruct (String.eqb_spec "custom" key) as [<-|H3];
    [left; split; [simpl; tauto|eauto]|].
  right. split; [|reflexivity]. simpl. tauto.
Qed.

(** Rendering succeeds under keys of the two tables. *)
Lemma render_ok st :
  In (rampAlgorithm (settings st)) sizeAlgorithms ->
  In (fontWeightRampAlgorithm (settings st)) weightAlgorithms ->
  exists scope, render st = Ok scope.
Proof.
  intros Hsize Hweight. unfold render, calculateSizesForViewport, calculateFontWeights,
    calculateSizes_of, calculateWeights_of.
  destruct (method_of_rampAlgorithms (rampAlgorithm (settings st)))
    as [(_ & a & ->)|(Hno & _)]; [|contradiction].
  destruct (method_of_weightRampAlgorithms (fontWeightRampAlgorithm (settings st)))
    as [(_ & w & ->)|(Hno & _)]; [|contradiction].
  cbn [bind]. eauto.
Qed.


(** *** The linear weight ramp *)

(** Every pair of weights the two weight sliders allow, evaluated. *)
Lemma linear_weights_checked :
  all_from (fun lo => all_from (fun hi => (hi <=? lo)%Z || linear_weights_ok lo hi) 1 9)
    1 9 = true.
Proof. vm_compute. reflexivity. Qed.

(** X3. With the weight ramp in use and bounds that are multiples of 100
    with [100 <= minFontWeight < maxFontWeight <= 900], the steps of the
    two weight sliders, the linear weight ramp never increases from H1 to
    H6, H1 has the weight [maxFontWeight] and H6 the weight
    [minFontWeight]. *)
Theorem linear_weights_descend settings (lo hi : Z) :
  useWeightRamp settings = true ->
  (1 <= lo)%Z -> (lo < hi)%Z -> (hi <= 9)%Z ->
  minFontWeight settings = whole (100 * lo) ->
  maxFontWeight settings = whole (100 * hi) ->
  exists w1 w2 w3 w4 w5 w6,
    calculateWeights_of "linear" settings = Ok [w1; w2; w3; w4; w5; w6]
    /\ (w2 <=? w1) = true /\ (w3 <=? w2) = true /\ (w4 <=? w3) = true
    /\ (w5 <=? w4) = true /\ (w6 <=? w5) = true
    /\ w1 = maxFontWeight settings /\ w6 = minFontWeight settings.
Proof.
  intros Huse Hlo Hlt Hhi Hmin Hmax.
  pose proof (all_from_spec _ _ _ linear_weights_checked lo ltac:(lia)) as Hrow.
  cbv beta in Hrow.
  pose proof (all_from_spec _ _ _ Hrow hi ltac:(lia)) as Hok. cbv beta in Hok.
  apply orb_prop in Hok as [Hle|Hok]; [apply Z.leb_le in Hle; lia|].
  unfold calculateWeights_of. cbn. rewrite Huse. cbn [negb]. rewrite Hmin, Hmax.
  unfold linear_weights_ok, linear_ramp_ok, linear_ramp in Hok. cbv zeta in Hok.
  cbn [non_increasing] in Hok.
  repeat match goal with
         | E : _ && _ = true |- _ => apply andb_prop in E as [? ?]
         | E : Leibniz.eqb _ _ = true |- _ => apply Leibniz.eqb_spec in E
         end.
  do 6 eexists. split; [reflexivity|].
  repeat split; auto.
Qed.

(** *** The fibonacci ramp *)

(** Every whole base size the base-size control allows, evaluated. *)
Lemma fibonacci_ramp_checked : all_from fibonacci_ramp_ok 8 17 = true.
Proof. vm_compute. reflexivity. Qed.

(** X4. For a whole base size from 8 to 24, the range of the base-size
    slider, the fibonacci ramp never increases from H1 to H6 and its
    smallest size, H6, is at least 3 pixels. *)
Theorem fibonacci_ramp_descends settings (b : Z) :
  (8 <= b <= 24)%Z ->
  baseFontSize settings = whole b ->
  exists h1 h2 h3 h4 h5 h6,
    calculateSizes_of "fibonacci" settings = Ok [h1; h2; h3; h4; h5; h6]
    /\ (h2 <=? h1) = true /\ (h3 <=? h2) = true /\ (h4 <=? h3) = true
    /\ (h5 <=? h4) = true /\ (h6 <=? h5) = true
    /\ (3 <=? h6) = true.
Proof.
  intros Hb Hbase.
  pose proof (all_from_spec _ _ _ fibonacci_ramp_checked b ltac:(lia)) as Hok.
  rewrite calculateSizes_of_fibonacci, Hbase.
  unfold fibonacci_ramp_ok, fibonacci_ramp in Hok. cbn [map non_increasing] in Hok.
  repeat match goal with
         | E : _ && _ = true |- _ => apply andb_prop in E as [? ?]
         end.
  cbn [map]. do 6 eexists. split; [reflexivity|].
  repeat split; auto.
Qed.

(** *** Sizes across the viewports *)

(** Every pair of slider steps and every whole size up to 400, evaluated. *)
Lemma scale_steps_checked :
  forallb (fun f => forallb (steps_ok f) scaleSteps) scaleSteps = true.
Proof. vm_compute. reflexivity. Qed.

(** A whole size scaled by the smaller of two steps is at most that size
    scaled by the larger. *)
Lemma scaled_le (f g : number) (n : Z) :
  In f scaleSteps -> In g scaleSteps -> (f <=? g) = true ->
  (0 <= n <= 400)%Z ->
  (Math_round (whole n * f) <=? Math_round (whole n * g)) = true.
Proof.
  intros Hf Hg Hle Hn.
  pose proof (proj1 (forallb_forall _ _) scale_steps_checked f Hf) as Hrow.
  cbv beta in Hrow.
  pose proof (proj1 (forallb_forall _ _) Hrow g Hg) as Hpair.
  unfold steps_ok in Hpair. rewrite Hle in Hpair.
  exact (all_from_spec _ _ _ Hpair n ltac:(lia)).
Qed.

(** Scaling a ramp of whole sizes by two steps, the smaller first. *)
Lemma scaled_ramp_le (f g : number) (base : list number) :
  In f scaleSteps -> In g scaleSteps -> (f <=? g) = true ->
  (forall size, In size base -> exists n, (0 <= n <= 400)%Z /\ size = whole n) ->
  pointwise_le (map (fun size => Math_round (size * f)) base)
               (map (fun size => Math_round (size * g)) base) = true.
Proof.
  intros Hf Hg Hle. induction base as [|size base IH]; intros Hwhole; [reflexivity|].
  cbn [map pointwise_le]. apply andb_true_intro. split.
  - destruct (Hwhole size (or_introl eq_refl)) as (n & Hn & ->).
    now apply scaled_le.
  - apply IH. intros size' Hin. apply Hwhole. now right.
Qed.

(** Each step of the sliders is at most 1. *)
Lemma scale_step_le_1 (f : number) : In f scaleSteps -> (f <=? 1) = true.
Proof.
  intros Hf. unfold scaleSteps in Hf. simpl in Hf.
  repeat (destruct Hf as [<-|Hf]; [reflexivity|]). contradiction.
Qed.

(** X5. Under responsive scaling, with both scale factors among the steps
    of their sliders, the mobile factor not above the tablet factor, and
    a ramp of whole sizes up to 400, no heading is larger on mobile than
    on tablet, nor on tablet than on desktop; and the desktop sizes are the
    ramp itself. *)
Theorem smaller_viewports_get_smaller_sizes settings base :
  responsiveScaling settings = true ->
  In (mobileScaleFactor settings) scaleSteps ->
  In (tabletScaleFactor settings) scaleSteps ->
  (mobileScaleFactor settings <=? tabletScaleFactor settings) = true ->
  calculateSizes_of (rampAlgorithm settings) settings = Ok base ->
  (forall size, In size base -> exists n, (0 <= n <= 400)%Z /\ size = whole n) ->
  exists m t,
    calculateSizesForViewport settings mobile = Ok m
    /\ calculateSizesForViewport settings tablet = Ok t
    /\ calculateSizesForViewport settings desktop = Ok base
    /\ pointwise_le m t = true
    /\ pointwise_le t base = true.
Proof.
  intros Hon Hm Ht Hle Hbase Hwhole.
  assert (H1 : In 1 scaleSteps) by (unfold scaleSteps; simpl; tauto).
  assert (Hd : map (fun size => Math_round (size * 1)) base = base).
  { rewrite <- (map_id base) at 2. apply map_ext_in. intros size Hin.
    destruct (Hwhole size Hin) as (n & Hn & ->). rewrite mul_1_r.
    apply Math_round_integral. change (2 ^ 52)%Z with 4503599627370496%Z. lia. }
  rewrite !(calculateSizesForViewport_eq _ _ _ Hbase). cbn [getScaleFactor].
  rewrite Hon. do 2 eexists.
  split; [reflexivity|]. split; [reflexivity|].
  split; [now rewrite Hd|]. split.
  - now apply scaled_ramp_le.
  - rewrite <- Hd at 2. apply scaled_ramp_le; auto. now apply scale_step_le_1.
Qed.

(** X6. Under responsive scaling, with both scale factors among the steps
    of their sliders and the mobile factor not above the tablet factor, for
    a whole base size up to 400 the base font size the generators declare
    never grows from desktop to tablet to mobile. *)
Theorem smaller_viewports_get_smaller_base_sizes settings (b : Z) :
  responsiveScaling settings = true ->
  In (mobileScaleFactor settings) scaleSteps ->
  In (tabletScaleFactor settings) scaleSteps ->
  (mobileScaleFactor settings <=? tabletScaleFactor settings) = true ->
  (0 <= b <= 400)%Z ->
  baseFontSize settings = whole b ->
  (exportBaseFontSize settings mobile <=? exportBaseFontSize settings tablet) = true
  /\ (exportBaseFontSize settings tablet <=? exportBaseFontSize settings desktop)
     = true.
Proof.
  intros Hon Hm Ht Hle Hb Hbase. unfold exportBaseFontSize. rewrite Hon, Hbase.
  split; [now apply scaled_le|].
  assert (H1 : In 1 scaleSteps) by (unfold scaleSteps; simpl; tauto).
  pose proof (scaled_le _ _ b Ht H1 (scale_step_le_1 _ Ht) Hb) as Htablet.
  rewrite mul_1_r in Htablet. unfold whole in *.
  rewrite (Math_round_integral false b) in Htablet; [exact Htablet|].
  change (2 ^ 52)%Z with 4503599627370496%Z. lia.
Qed.

End FurtherRampProperties.

(** ** The fonts the page loads *)

(** A member added to a set is a member of it, and the members it had
    stay. *)
Lemma Set_add_In (members : list string) (x y : string) :
  In y (Set_add members x) <-> In y members \/ y = x.
Proof.
  unfold Set_add. destruct (existsb (String.eqb x) members) eqn:Hx.
  - apply existsb_exists in Hx as (z & Hz & Heq). apply String.eqb_eq in Heq.
    subst z. split; [tauto|]. now intros [Hy| ->].
  - rewrite in_app_iff. simpl. split; intros [Hy|Hy]; auto; try tauto.
    destruct Hy as [<-|[]]. now right.
Qed.

(** Adding to a set without repeated members gives such a set. *)
Lemma Set_add_NoDup (members : list string) (x : string) :
  NoDup members -> NoDup (Set_add members x).
Proof.
  intros Hmembers. unfold Set_add.
  destruct (existsb (String.eqb x) members) eqn:Hx; [exact Hmembers|].
  apply NoDup_app; [exact Hmembers | repeat constructor; simpl; tauto |].
  intros y Hy [<-|[]].
  assert (Hsome : existsb (String.eqb x) members = true)
    by (apply existsb_exists; exists x; split; [exact Hy | apply String.eqb_refl]).
  congruence.
Qed.

(** The fonts requested, case by case. *)
Lemma getRequiredFonts_eq settings :
  getRequiredFonts settings =
  (if useSeparateHeadingFont settings
      && negb (headingFontFamily settings =? fontFamily settings)%string
   then [fontFamily settings; headingFontFamily settings]
   else [fontFamily settings]).
Proof.
  unfold getRequiredFonts, Set_add. cbv zeta. cbn [existsb app].
  destruct (useSeparateHeadingFont settings); cbn [andb existsb]; [|reflexivity].
  rewrite orb_false_r.
  now destruct (headingFontFamily settings =? fontFamily settings)%string.
Qed.

(** X7. The fonts the page requests are the body font, and after it the
    heading font when a separate heading font is in use and differs from
    the body font; no font is requested twice. *)
Theorem required_fonts_once settings :
  NoDup (getRequiredFonts settings)
  /\ getRequiredFonts settings =
     (if useSeparateHeadingFont settings
         && negb (headingFontFamily settings =? fontFamily settings)%string
      then [fontFamily settings; headingFontFamily settings]
      else [fontFamily settings])
  /\ (forall font,
        In font (getRequiredFonts settings) <->
        font = fontFamily settings
        \/ (useSeparateHeadingFont settings = true
            /\ font = headingFontFamily settings)).
Proof.
  split; [|split]; [|apply getRequiredFonts_eq|]; unfold getRequiredFonts; cbv zeta.
  - destruct (useSeparateHeadingFont settings);
      repeat apply Set_add_NoDup; constructor.
  - intros font. destruct (useSeparateHeadingFont settings);
      rewrite ?Set_add_In; simpl; split; intros Hfont;
      intuition (try discriminate; auto).
Qed.

(** Whether a text made of two has a space. *)
Lemma has_space_app (a b : string) :
  has_space (a ++ b) = has_space a || has_space b.
Proof.
  induction a as [|c a IH]; cbn [append has_space]; [reflexivity|].
  now rewrite IH, orb_assoc.
Qed.

(** [replace(/ /g, '+')] leaves no space. *)
Lemma has_space_replace_spaces (s : string) : has_space (replace_spaces s) = false.
Proof.
  induction s as [|c s IH]; cbn [replace_spaces has_space]; [reflexivity|].
  rewrite IH, orb_false_r.
  destruct (Ascii.eqb c " ") eqn:Hc; [reflexivity|exact Hc].
Qed.

(** Joining texts without spaces by a separator without spaces. *)
Lemma has_space_concat (sep : string) (l : list string) :
  has_space sep = false ->
  (forall s, In s l -> has_space s = false) ->
  has_space (String.concat sep l) = false.
Proof.
  intros Hsep. induction l as [|s l IH]; intros Hl; [reflexivity|].
  cbn [String.concat]. destruct l as [|s' l].
  - apply Hl. now left.
  - rewrite !has_space_app, Hsep, (Hl s (or_introl eq_refl)). cbn [orb].
    apply IH. intros s'' Hin. apply Hl. now right.
Qed.

(** No weight of the font table has a space. *)
Lemma requestedWeights_no_space (font : string) :
  has_space (String.concat ";" (requestedWeights font)) = false.
Proof.
  apply has_space_concat; [reflexivity|]. unfold requestedWeights.
  destruct (find (fun f => (family f =? font)%string) popularFonts)
    as [fontOption|] eqn:Hfind.
  - apply find_some in Hfind as [Hin _].
    assert (Hall : forallb (fun f => forallb (fun v => negb (has_space v)) (variants f))
                     popularFonts = true) by reflexivity.
    rewrite forallb_forall in Hall. specialize (Hall fontOption Hin).
    rewrite forallb_forall in Hall. intros s Hs. specialize (Hall s Hs).
    now destruct (has_space s).
  - intros s [<-|[<-|[]]]; reflexivity.
Qed.

(** The request for one font. *)
Lemma font_request (font : string) :
  match find (fun f => (family f =? font)%string) popularFonts with
  | Some fontOption =>
      "family=" ++ replace_spaces font ++ ":wght@"
      ++ String.concat ";" (variants fontOption)
  | None => "family=" ++ replace_spaces font ++ ":wght@400;700"
  end
  = "family=" ++ replace_spaces font ++ ":wght@"
    ++ String.concat ";" (requestedWeights font).
Proof.
  unfold requestedWeights.
  now destruct (find (fun f => (family f =? font)%string) popularFonts).
Qed.

(** X8. The address the page loads its fonts from has no space in it,
    whatever the names of the body and heading fonts are. *)
Theorem google_fonts_url_has_no_space settings :
  has_space (createGoogleFontsUrl settings) = false.
Proof.
  unfold createGoogleFontsUrl. cbv zeta.
  rewrite !has_space_app. cbn [has_space Ascii.eqb Bool.eqb orb].
  rewrite orb_false_r. apply has_space_concat; [reflexivity|].
  intros s Hs. apply in_map_iff in Hs as (font & <- & _).
  rewrite font_request, !has_space_app, has_space_replace_spaces,
    requestedWeights_no_space.
  reflexivity.
Qed.

Section FontProperties.

Context `{Host}.

(** X9. For a body font outside the font table, or one the table lists
    with the weights 400 and 700 only, and no separate heading font, the
    address the page loads its font from is the address the generated CSS
    and SASS import it from: the generators ask for the weights 400 and
    700 whatever the table lists. *)
Theorem page_and_exports_load_one_address settings scope weights :
  useSeparateHeadingFont settings = false ->
  requestedWeights (fontFamily settings) = ["400"; "700"]%string ->
  exportFontWeights settings = Ok weights ->
  createGoogleFontsUrl settings =
  "https://fonts.googleapis.com/css2?family=" ++ replace_spaces (fontFamily settings)
  ++ ":wght@400;700&display=swap"
  /\ exists css_document sass_document,
       generateCSSCode settings scope = Ok css_document
       /\ occur_in_order ["@import url('" ++ createGoogleFontsUrl settings ++ "');"]
            css_document
       /\ generateSASSCode settings scope = Ok sass_document
       /\ occur_in_order ["@import url('" ++ createGoogleFontsUrl settings ++ "');"]
            sass_document.
Proof.
  intros Hsame Hweights Hexport.
  assert (Hurl : createGoogleFontsUrl settings =
                 "https://fonts.googleapis.com/css2?family="
                 ++ replace_spaces (fontFamily settings)
                 ++ ":wght@400;700&display=swap").
  { unfold createGoogleFontsUrl, getRequiredFonts. cbv zeta. rewrite Hsame.
    unfold Set_add. cbn [existsb app map String.concat].
    rewrite font_request, Hweights. cbn [String.concat].
    cbn [append]. rewrite !append_assoc. reflexivity. }
  split; [exact Hurl|]. rewrite Hurl.
  unfold generateCSSCode, generateSASSCode. rewrite Hexport. cbn [bind]. cbv zeta.
  do 2 eexists. split; [reflexivity|]. split; [|split; [reflexivity|]].
  - apply occur_after. apply occur_lines.
    apply chosen_skip. cbn [append]. rewrite !append_assoc. cbn [append].
    apply chosen_take. apply chosen_none.
  - apply occur_before, occur_before, occur_after, occur_lines.
    apply chosen_skip. cbn [append]. rewrite !append_assoc. cbn [append].
    apply chosen_take. apply chosen_none.
Qed.

(** X10. The generated CSS and SASS import every font the page requests,
    in the order the page requests them: the body font, and after it the
    heading font when a separate heading font is in use and differs from
    the body font. *)
Theorem exports_import_the_required_fonts settings scope weights :
  exportFontWeights settings = Ok weights ->
  exists css_document sass_document,
    generateCSSCode settings scope = Ok css_document
    /\ occur_in_order (map font_import (getRequiredFonts settings)) css_document
    /\ generateSASSCode settings scope = Ok sass_document
    /\ occur_in_order (map font_import (getRequiredFonts settings)) sass_document.
Proof.
  intros Hweights. unfold generateCSSCode, generateSASSCode.
  rewrite Hweights. cbn [bind]. cbv zeta. rewrite getRequiredFonts_eq.
  unfold font_import.
  destruct (useSeparateHeadingFont settings
            && negb (headingFontFamily settings =? fontFamily settings)%string);
    cbn [map]; do 2 eexists;
    (split; [reflexivity|]);
    (split; [apply occur_after, occur_lines; choose_lines|]);
    (split; [reflexivity|]);
    apply occur_before, occur_before, occur_after, occur_lines; choose_lines.
Qed.

End FontProperties.

(** ** Further properties of the export generators *)

Section FurtherExportProperties.

Context `{Host}.

(** Of marks that occur in a document, the first ones do, and the last
    ones do. *)
Lemma occur_prefix (marks marks' : list string) (document : string) :
  occur_in_order (marks ++ marks')%list document -> occur_in_order marks document.
Proof.
  revert document. induction marks as [|mark marks IH]; intros document Hmarks.
  - constructor.
  - cbn [app] in Hmarks. inversion Hmarks as [|before m rest ms Hrest]; subst.
    constructor. now apply IH.
Qed.

Lemma occur_suffix (marks marks' : list string) (document : string) :
  occur_in_order (marks ++ marks')%list document -> occur_in_order marks' document.
Proof.
  revert document. induction marks as [|mark marks IH]; intros document Hmarks.
  - exact Hmarks.
  - cbn [app] in Hmarks. inversion Hmarks as [|before m rest ms Hrest]; subst.
    apply occur_after, occur_after. now apply IH.
Qed.

(** The CSS document carries the weights and the spacings. *)
Lemma generateCSSCode_weights settings scope weights :
  exportFontWeights settings = Ok weights ->
  exists document,
    generateCSSCode settings scope = Ok document
    /\ occur_in_order
         (css_spacing_lines settings
          ++ css_weight_lines weights (baseFontWeight settings))%list document.
Proof.
  intros Hweights. unfold generateCSSCode. rewrite Hweights. cbn [bind]. cbv zeta.
  eexists. split; [reflexivity|].
  unfold css_spacing_lines, css_weight_lines. cbn [app].
  destruct (responsiveScaling settings).
  - apply occur_before, occur_after, occur_before, occur_lines. choose_lines.
  - apply occur_before, occur_after, occur_lines. choose_lines.
Qed.

(** The SASS document carries the weights and the spacings. *)
Lemma generateSASSCode_weights settings scope weights :
  exportFontWeights settings = Ok weights ->
  exists document,
    generateSASSCode settings scope = Ok document
    /\ occur_in_order
         (sass_weight_lines weights (baseFontWeight settings)
          ++ sass_spacing_lines settings)%list document.
Proof.
  intros Hweights. unfold generateSASSCode. rewrite Hweights. cbn [bind]. cbv zeta.
  eexists. split; [reflexivity|].
  unfold sass_spacing_lines, sass_weight_lines. cbn [app].
  apply occur_before, occur_before, occur_after, occur_lines. choose_lines.
Qed.

(** Printing an entry the array has. *)
Lemma toString_interp (v : option number) (text : string) :
  toString v = Ok text -> text = interp v.
Proof. destruct v; cbn; [now intros [= <-] | discriminate]. Qed.

(** The token tree carries the weights and the spacings. *)
Lemma figmaTokens_weights settings scope weights tokens :
  exportFontWeights settings = Ok weights ->
  figmaTokens settings scope = Ok tokens ->
  token_weights weights (baseFontWeight settings) tokens
  /\ token_spacing settings tokens.
Proof.
  intros Hweights. unfold figmaTokens. cbv zeta. rewrite Hweights. cbn [bind].
  destruct (toString (index weights 0)) as [w1|] eqn:H1; cbn [bind]; [|discriminate].
  destruct (toString (index weights 1)) as [w2|] eqn:H2; cbn [bind]; [|discriminate].
  destruct (toString (index weights 2)) as [w3|] eqn:H3; cbn [bind]; [|discriminate].
  destruct (toString (index weights 3)) as [w4|] eqn:H4; cbn [bind]; [|discriminate].
  destruct (toString (index weights 4)) as [w5|] eqn:H5; cbn [bind]; [|discriminate].
  destruct (toString (index weights 5)) as [w6|] eqn:H6; cbn [bind]; [|discriminate].
  apply toString_interp in H1, H2, H3, H4, H5, H6. subst.
  intros [= <-]. unfold token_weights, token_spacing.
  destruct (responsiveScaling settings); repeat split.
Qed.

(** X11. The three exports carry one set of weights: the six heading
    weights the generators compute and the body weight stand in the custom
    properties of the CSS document, in the variables of the SASS document
    and, whenever the token tree is built, in its weight tokens. *)
Theorem exports_carry_the_same_weights settings scope weights :
  exportFontWeights settings = Ok weights ->
  exists css_document sass_document,
    generateCSSCode settings scope = Ok css_document
    /\ occur_in_order (css_weight_lines weights (baseFontWeight settings))
         css_document
    /\ generateSASSCode settings scope = Ok sass_document
    /\ occur_in_order (sass_weight_lines weights (baseFontWeight settings))
         sass_document
    /\ (forall tokens,
          figmaTokens settings scope = Ok tokens ->
          token_weights weights (baseFontWeight settings) tokens).
Proof.
  intros Hweights.
  destruct (generateCSSCode_weights settings scope weights Hweights)
    as (css_document & Hcss & Hcss_lines).
  destruct (generateSASSCode_weights settings scope weights Hweights)
    as (sass_document & Hsass & Hsass_lines).
  exists css_document, sass_document.
  split; [exact Hcss|]. split; [|split; [exact Hsass|split]].
  - exact (occur_suffix _ _ _ Hcss_lines).
  - exact (occur_prefix _ _ _ Hsass_lines).
  - intros tokens Htokens.
    now destruct (figmaTokens_weights settings scope weights tokens Hweights Htokens).
Qed.

(** X12. The three exports carry one line height and one set of spacings:
    the base line height and the paragraph, heading and list spacing of
    the settings stand in the custom properties of the CSS document, in the
    variables of the SASS document and, whenever the token tree is built,
    in its tokens. *)
Theorem exports_carry_the_same_spacing settings scope weights :
  exportFontWeights settings = Ok weights ->
  exists css_document sass_document,
    generateCSSCode settings scope = Ok css_document
    /\ occur_in_order (css_spacing_lines settings) css_document
    /\ generateSASSCode settings scope = Ok sass_document
    /\ occur_in_order (sass_spacing_lines settings) sass_document
    /\ (forall tokens,
          figmaTokens settings scope = Ok tokens -> token_spacing settings tokens).
Proof.
  intros Hweights.
  destruct (generateCSSCode_weights settings scope weights Hweights)
    as (css_document & Hcss & Hcss_lines).
  destruct (generateSASSCode_weights settings scope weights Hweights)
    as (sass_document & Hsass & Hsass_lines).
  exists css_document, sass_document.
  split; [exact Hcss|]. split; [|split; [exact Hsass|split]].
  - exact (occur_prefix _ _ _ Hcss_lines).
  - exact (occur_suffix _ _ _ Hsass_lines).
  - intros tokens Htokens.
    now destruct (figmaTokens_weights settings scope weights tokens Hweights Htokens).
Qed.

(** X13. When the generators have fewer than six weights to export, the
    token generator throws a [TypeError], while the CSS and the SASS
    generator return documents in which the weight of H6 reads
    [undefined]; with six weights or more the token generator returns its
    document. *)
Theorem short_weight_list settings scope weights :
  exportFontWeights settings = Ok weights ->
  ((List.length weights < 6)%nat ->
   generateFigmaTokens settings scope = Throw TypeError
   /\ exists css_document sass_document,
        generateCSSCode settings scope = Ok css_document
        /\ occur_in_order ["  --h6-weight: undefined;"] css_document
        /\ generateSASSCode settings scope = Ok sass_document
        /\ occur_in_order ["$h6-weight: undefined;"] sass_document)
  /\ ((6 <= List.length weights)%nat ->
      exists document, generateFigmaTokens settings scope = Ok document).
Proof.
  intros Hweights. split.
  - intros Hshort. split.
    + unfold generateFigmaTokens, figmaTokens. cbv zeta. rewrite Hweights.
      cbn [bind]. unfold toString, index.
      destruct weights as [|w1 [|w2 [|w3 [|w4 [|w5 [|w6 weights]]]]]];
        cbn [nth_error bind]; try reflexivity.
      cbn [List.length] in Hshort. lia.
    + assert (Hnone : index weights 5 = None)
        by (apply nth_error_None; lia).
      destruct (generateCSSCode_weights settings scope weights Hweights)
        as (css_document & Hcss & Hcss_lines).
      destruct (generateSASSCode_weights settings scope weights Hweights)
        as (sass_document & Hsass & Hsass_lines).
      exists css_document, sass_document.
      split; [exact Hcss|]. split; [|split; [exact Hsass|]].
      * apply occur_suffix in Hcss_lines. unfold css_weight_lines in Hcss_lines.
        rewrite Hnone in Hcss_lines.
        apply (occur_suffix [_; _; _; _; _]) in Hcss_lines.
        exact (occur_prefix [_] _ _ Hcss_lines).
      * apply occur_prefix in Hsass_lines. unfold sass_weight_lines in Hsass_lines.
        rewrite Hnone in Hsass_lines.
        exact (occur_suffix [_; _; _; _; _; _] _ _ Hsass_lines).
  - intros Hsix. destruct (figmaTokens_total settings scope weights Hweights Hsix)
      as [tokens Htokens].
    unfold generateFigmaTokens. rewrite Htokens. cbn [bind]. eauto.
Qed.

(** Switching responsive scaling leaves the weights of every algorithm as
    they are. *)
Lemma exportFontWeights_responsiveScaling settings (b : bool) :
  exportFontWeights (updateSetting Key.responsiveScaling b settings)
  = exportFontWeights settings.
Proof.
  unfold exportFontWeights, calculateWeights_of, method_of, weightRampAlgorithms.
  cbn [updateSetting useWeightRamp fontWeightRampAlgorithm property].
  destruct (useWeightRamp settings); [|reflexivity].
  destruct ("stepped" =? fontWeightRampAlgorithm settings)%string; [reflexivity|].
  destruct ("linear" =? fontWeightRampAlgorithm settings)%string; [reflexivity|].
  destruct ("custom" =? fontWeightRampAlgorithm settings)%string; reflexivity.
Qed.

(** X14. Switching responsive scaling on changes the token tree in one
    place: the group [responsiveSizes] is added at the end of the
    typography tokens, and every other token stays as it is without
    responsive scaling. *)
Theorem responsive_scaling_adds_one_group settings scope tokens :
  figmaTokens (updateSetting Key.responsiveScaling false settings) scope = Ok tokens ->
  exists typography spacing sizes,
    tokens = JObject [("typography", JObject typography); ("spacing", JObject spacing)]
    /\ property typography "responsiveSizes" = None
    /\ figmaTokens (updateSetting Key.responsiveScaling true settings) scope
       = Ok (JObject
               [("typography",
                 JObject (typography ++ [("responsiveSizes", sizes)])%list);
                ("spacing", JObject spacing)]).
Proof.
  unfold figmaTokens. cbv zeta. rewrite !exportFontWeights_responsiveScaling.
  destruct (exportFontWeights settings) as [weights|]; cbn [bind]; [|discriminate].
  destruct (toString (index weights 0)); cbn [bind]; [|discriminate].
  destruct (toString (index weights 1)); cbn [bind]; [|discriminate].
  destruct (toString (index weights 2)); cbn [bind]; [|discriminate].
  destruct (toString (index weights 3)); cbn [bind]; [|discriminate].
  destruct (toString (index weights 4)); cbn [bind]; [|discriminate].
  destruct (toString (index weights 5)); cbn [bind]; [|discriminate].
  intros [= <-]. do 3 eexists. split; [reflexivity|]. split; reflexivity.
Qed.

End FurtherExportProperties.
(** ** The preview *)

Section PreviewProperties.

Context `{Host}.

(** What a rendering leaves as the sizes of the preview. *)
Lemma render_headingSizes st scope :
  render st = Ok scope ->
  calculateSizesForViewport (settings st) (previewViewport st)
  = Ok (headingSizes scope).
Proof.
  unfold render.
  destruct (calculateSizesForViewport (settings st) (previewViewport st));
    cbn [bind]; [|discriminate].
  destruct (calculateFontWeights (settings st)); cbn [bind]; [|discriminate].
  destruct (calculateSizesForViewport (settings st) desktop);
    cbn [bind]; [|discriminate].
  destruct (calculateSizesForViewport (settings st) tablet);
    cbn [bind]; [|discriminate].
  destruct (calculateSizesForViewport (settings st) mobile);
    cbn [bind]; [|discriminate].
  now intros [= <-].
Qed.

(** The weights the generators export are the weights of the selected
    algorithm, whenever it is one of the table. *)
Lemma exportFontWeights_calculateFontWeights settings weights :
  calculateFontWeights settings = Ok weights ->
  exportFontWeights settings = Ok weights.
Proof.
  unfold exportFontWeights, calculateFontWeights.
  destruct (useWeightRamp settings) eqn:Huse; [trivial|].
  unfold calculateWeights_of, method_of, weightRampAlgorithms. cbn [property].
  destruct ("stepped" =? fontWeightRampAlgorithm settings)%string;
    [cbn; rewrite Huse; now intros [= <-]|].
  destruct ("linear" =? fontWeightRampAlgorithm settings)%string;
    [cbn; rewrite Huse; now intros [= <-]|].
  destruct ("custom" =? fontWeightRampAlgorithm settings)%string;
    [cbn; rewrite Huse; now intros [= <-]|].
  discriminate.
Qed.

(** X15. The preview shows what is exported: after a rendering, the six
    heading sizes of the preview's style are the sizes the generators
    declare for the viewport of the preview, and the six heading weights
    of the preview's style are the weights the generators export. *)
Theorem preview_shows_what_is_exported st scope :
  render st = Ok scope ->
  headingSizes scope = exportSizes scope (previewViewport st)
  /\ exportFontWeights (settings st) = Ok (headingWeights scope)
  /\ style_sizes (previewStyles st scope) (exportSizes scope (previewViewport st))
  /\ style_weights (previewStyles st scope) (headingWeights scope).
Proof.
  intros Hrender.
  pose proof (render_headingSizes st scope Hrender) as Hsizes.
  destruct (render_scope st scope Hrender) as (Hd & Ht & Hm & Hw).
  assert (Heq : headingSizes scope = exportSizes scope (previewViewport st)).
  { unfold exportSizes. destruct (previewViewport st); congruence. }
  split; [exact Heq|]. split; [now apply exportFontWeights_calculateFontWeights|].
  rewrite <- Heq. split; repeat split.
Qed.

(** X16. The base font size of the preview is the base size the generators
    declare for the viewport of the preview, rounded; under responsive
    scaling the two are equal on mobile and tablet, where the generators
    round as well. *)
Theorem preview_base_font_size st scope :
  exists shown,
    property (previewStyles st scope) "--base-font-size"
    = Some (StyleString (num shown ++ "px"))
    /\ shown = Math_round (exportBaseFontSize (settings st) (previewViewport st))
    /\ (responsiveScaling (settings st) = true ->
        previewViewport st <> desktop ->
        shown = exportBaseFontSize (settings st) (previewViewport st)).
Proof.
  eexists. split; [reflexivity|].
  unfold exportBaseFontSize, getScaleFactor.
  destruct (responsiveScaling (settings st)), (previewViewport st);
    rewrite ?mul_1_r, ?Math_round_idempotent; repeat split;
    try reflexivity; try discriminate; intros _ Hne; now contradiction Hne.
Qed.

(** X17. The pixel labels of the spacing visualization are whole numbers,
    a spacing of one em is labelled with the base size it is given when
    that is rounded, and so with the default heading spacing of 1 the
    label of the heading margin is the base font size of the preview. *)
Theorem one_em_is_the_base_size :
  (forall emValue baseFontSize,
     Math_round (calculateActualSpacing emValue baseFontSize)
     = calculateActualSpacing emValue baseFontSize)
  /\ (forall baseFontSize,
        calculateActualSpacing 1 (Math_round baseFontSize) = Math_round baseFontSize)
  /\ (forall st scope,
        headingSpacing (settings st) = 1 ->
        exists shown,
          property (previewStyles st scope) "--base-font-size"
          = Some (StyleString (num shown ++ "px"))
          /\ property (previewData st) "data-heading-mb-px" = Some shown).
Proof.
  assert (Hone : forall x, calculateActualSpacing 1 (Math_round x) = Math_round x).
  { intros x. unfold calculateActualSpacing.
    now rewrite mul_comm, mul_1_r, Math_round_idempotent. }
  split; [|split].
  - intros emValue baseFontSize. unfold calculateActualSpacing.
    apply Math_round_idempotent.
  - exact Hone.
  - intros st scope Hspacing. eexists. split; [reflexivity|].
    cbn. rewrite Hspacing. now rewrite Hone.
Qed.

End PreviewProperties.

(** ** Changing the settings *)

(** X18. [updateSetting] changes the setting under its key and no other:
    the key reads the new value, every other key reads what it read
    before, a second update of the key replaces the first, and updates of
    two different keys can be made in either order. *)
Theorem updateSetting_changes_one_key (key : Key.t) (value : Value key)
    (prev : TypographySettings) :
  setting (updateSetting key value prev) key = value
  /\ (forall key', key' <> key ->
        setting (updateSetting key value prev) key' = setting prev key')
  /\ (forall value',
        updateSetting key value' (updateSetting key value prev)
        = updateSetting key value' prev)
  /\ (forall key' (value' : Value key'), key' <> key ->
        updateSetting key' value' (updateSetting key value prev)
        = updateSetting key value (updateSetting key' value' prev)).
Proof.
  split; [|split; [|split]].
  - destruct key; reflexivity.
  - intros key' Hne. destruct key, key'; try reflexivity; now contradiction Hne.
  - intros value'. destruct key; reflexivity.
  - intros key' value' Hne.
    destruct key, key'; try reflexivity; now contradiction Hne.
Qed.

(** Assigning to an entry the array has. *)
Lemma Array_assign_within {A} (a : list A) (i : nat) (v : A) :
  (i < List.length a)%nat ->
  exists b,
    Array_assign a i v = Some b
    /\ List.length b = List.length a
    /\ nth_error b i = Some v
    /\ (forall j, j <> i -> nth_error b j = nth_error a j).
Proof.
  revert i. induction a as [|x a IH]; intros i Hi; cbn [List.length] in Hi; [lia|].
  destruct i as [|i].
  - exists (v :: a). repeat split. intros [|j] Hj; [contradiction|reflexivity].
  - destruct (IH i ltac:(lia)) as (b & Hb & Hlen & Hget & Hother).
    exists (x :: b). cbn [Array_assign]. rewrite Hb.
    repeat split; cbn [List.length nth_error]; auto.
    intros [|j] Hj; [reflexivity|]. apply Hother. lia.
Qed.

(** Assigning just past the last entry, and further out. *)
Lemma Array_assign_beyond {A} (a : list A) (v : A) :
  Array_assign a (List.length a) v = Some (a ++ [v])%list
  /\ forall i, (List.length a < i)%nat -> Array_assign a i v = None.
Proof.
  induction a as [|x a [IHend IHpast]]; cbn [List.length].
  - split; [reflexivity|]. intros [|i] Hi; [lia|reflexivity].
  - split.
    + cbn [Array_assign app]. now rewrite IHend.
    + intros [|i] Hi; [lia|]. cbn [Array_assign]. now rewrite IHpast by lia.
Qed.

(** X19. Changing the custom size of a heading the ramp has replaces that
    entry and nothing else: the ramp keeps its length, the other sizes and
    every other setting stay as they are; and so for the custom weights.
    Assigning at the index just past the last size makes the ramp one
    entry longer. *)
Theorem custom_value_edit settings (index : nat) (value : number) :
  ((index < List.length (customRampValues settings))%nat ->
   exists update,
     updateCustomRampValue settings index value = Some update
     /\ forall prev,
          List.length (customRampValues (update prev))
          = List.length (customRampValues settings)
          /\ nth_error (customRampValues (update prev)) index = Some value
          /\ (forall i, i <> index ->
                nth_error (customRampValues (update prev)) i
                = nth_error (customRampValues settings) i)
          /\ (forall key, key <> Key.customRampValues ->
                setting (update prev) key = setting prev key))
  /\ ((index < List.length (customWeightRampValues settings))%nat ->
      exists update,
        customWeightOnChange settings index value = Some update
        /\ forall prev,
             List.length (customWeightRampValues (update prev))
             = List.length (customWeightRampValues settings)
             /\ nth_error (customWeightRampValues (update prev)) index = Some value
             /\ (forall i, i <> index ->
                   nth_error (customWeightRampValues (update prev)) i
                   = nth_error (customWeightRampValues settings) i)
             /\ (forall key, key <> Key.customWeightRampValues ->
                   setting (update prev) key = setting prev key))
  /\ (index = List.length (customRampValues settings) ->
      exists update,
        updateCustomRampValue settings index value = Some update
        /\ forall prev,
             customRampValues (update prev)
             = (customRampValues settings ++ [value])%list).
Proof.
  split; [|split].
  - intros Hindex.
    destruct (Array_assign_within (customRampValues settings) index value Hindex)
      as (b & Hb & Hlen & Hget & Hother).
    unfold updateCustomRampValue. cbv zeta. rewrite Hb. eexists.
    split; [reflexivity|]. intros prev. cbn [updateSetting customRampValues].
    repeat split; auto.
    intros key Hkey. destruct key; try reflexivity. now contradiction Hkey.
  - intros Hindex.
    destruct (Array_assign_within (customWeightRampValues settings) index value Hindex)
      as (b & Hb & Hlen & Hget & Hother).
    unfold customWeightOnChange. cbv zeta. rewrite Hb. eexists.
    split; [reflexivity|]. intros prev. cbn [updateSetting customWeightRampValues].
    repeat split; auto.
    intros key Hkey. destruct key; try reflexivity. now contradiction Hkey.
  - intros ->. unfold updateCustomRampValue. cbv zeta.
    rewrite (proj1 (Array_assign_beyond (customRampValues settings) value)).
    eexists. split; [reflexivity|]. reflexivity.
Qed.

(** X20. Of two custom-size changes made from one rendering only the
    second is kept: it starts from the sizes of that rendering, so the
    first change leaves no trace in the settings.  Made from the rendering
    that follows the first change, the second keeps it. *)
Theorem last_custom_edit_wins settings (i j : nat) (v w : number)
    (first second : TypographySettings -> TypographySettings) :
  updateCustomRampValue settings i v = Some first ->
  updateCustomRampValue settings j w = Some second ->
  (forall prev, second (first prev) = second prev)
  /\ ((i < List.length (customRampValues settings))%nat -> i <> j ->
      forall prev,
        nth_error (customRampValues (second (first prev))) i
        = nth_error (customRampValues settings) i)
  /\ ((i < List.length (customRampValues settings))%nat -> i <> j ->
      forall second',
        updateCustomRampValue (first settings) j w = Some second' ->
        nth_error (customRampValues (second' (first settings))) i = Some v).
Proof.
  unfold updateCustomRampValue. cbv zeta.
  destruct (Array_assign (customRampValues settings) i v) as [a|] eqn:Ha;
    [|discriminate].
  destruct (Array_assign (customRampValues settings) j w) as [b|] eqn:Hb;
    [|discriminate].
  intros [= <-] [= <-]. split; [reflexivity|]. split.
  - intros Hi Hne prev. cbn [updateSetting customRampValues].
    destruct (Nat.lt_ge_cases j (List.length (customRampValues settings)))
      as [Hj|Hj].
    + destruct (Array_assign_within (customRampValues settings) j w Hj)
        as (b' & Hb' & _ & _ & Hother).
      rewrite Hb in Hb'. injection Hb' as <-. now apply Hother.
    + destruct (Array_assign_beyond (customRampValues settings) w) as [Hend Hpast].
      destruct (Nat.eq_dec j (List.length (customRampValues settings))) as [->|Hne'].
      * rewrite Hb in Hend. injection Hend as ->.
        now rewrite nth_error_app1.
      * rewrite Hpast in Hb by lia. discriminate.
  - intros Hi Hne second'. cbn [updateSetting customRampValues].
    destruct (Array_assign_within (customRampValues settings) i v Hi)
      as (a' & Ha' & Hlen & Hget & _).
    rewrite Ha in Ha'. injection Ha' as <-.
    destruct (Array_assign a j w) as [c|] eqn:Hc; [|discriminate].
    intros [= <-]. cbn [updateSetting customRampValues].
    destruct (Nat.lt_ge_cases j (List.length a)) as [Hj|Hj].
    + destruct (Array_assign_within a j w Hj) as (c' & Hc' & _ & _ & Hother).
      rewrite Hc in Hc'. injection Hc' as <-. rewrite Hother by auto. exact Hget.
    + destruct (Array_assign_beyond a w) as [Hend Hpast].
      destruct (Nat.eq_dec j (List.length a)) as [->|Hne'].
      * rewrite Hc in Hend. injection Hend as ->.
        rewrite nth_error_app1 by lia. exact Hget.
      * rewrite Hpast in Hc by lia. discriminate.
Qed.

(** ** The page and its events *)

Section PageProperties.

Context `{Host}.

(** A select reports one of its items. *)
Lemma offers_In (items : list string) (value : string) :
  offers items value = true -> In value items.
Proof.
  unfold offers. intros Hoffers.
  apply existsb_exists in Hoffers as (item & Hin & Heq).
  apply String.eqb_eq in Heq. now subst.
Qed.

(** The Import handler and [copyToClipboard] leave the settings and the
    viewport of the preview alone. *)
Lemma importOnClick_settings (w : World) :
  settings (state (importOnClick w)) = settings (state w)
  /\ previewViewport (state (importOnClick w)) = previewViewport (state w)
  /\ copySuccess (state (importOnClick w)) = copySuccess (state w).
Proof.
  unfold importOnClick.
  destruct (markdownToHtml (markdownInput (state w))); repeat split.
Qed.

Lemma copyToClipboard_settings (p : Page) (scope : RenderScope) (permitted : bool) :
  settings (state (world (copyToClipboard p scope permitted)))
  = settings (state (world p))
  /\ previewViewport (state (world (copyToClipboard p scope permitted)))
     = previewViewport (state (world p)).
Proof.
  unfold copyToClipboard. cbv zeta.
  destruct (getExportCode (state (world p)) scope), permitted; repeat split.
Qed.

(** An event that is not of a control of the settings leaves them alone. *)
Lemma dispatch_settings (p p' : Page) (scope : RenderScope) (e : Event) :
  changes_settings e = false ->
  dispatch p scope e = Some p' ->
  settings (state (world p')) = settings (state (world p)).
Proof.
  intros Hchanges Hdispatch.
  destruct e as [key value|i v|i v|tab|open|open|text| | |format|permitted|viewport| | ];
    try discriminate Hchanges; cbn in Hdispatch;
    injection Hdispatch as <-; try reflexivity.
  - apply importOnClick_settings.
  - apply copyToClipboard_settings.
Qed.

(** The events the page offers keep its settings in good order. *)
Lemma dispatch_well_formed (p p' : Page) (scope : RenderScope) (e : Event) :
  well_formed (settings (state (world p))) ->
  offered p e = true ->
  dispatch p scope e = Some p' ->
  well_formed (settings (state (world p'))).
Proof.
  intros Hwf Hoffered Hdispatch.
  destruct (changes_settings e) eqn:Hchanges;
    [|now rewrite (dispatch_settings _ _ _ _ Hchanges Hdispatch)].
  destruct Hwf as (Hsize & Hweight & Hsizes & Hweights & Hbody & Hfont & Hheading).
  destruct e as [key value|i v|i v|tab|open|open|text| | |format|permitted|viewport| | ];
    try discriminate Hchanges; cbn in Hdispatch.
  - injection Hdispatch as <-. unfold offered in Hoffered.
    unfold well_formed.
    destruct key; cbv beta iota zeta in Hoffered; cbn; try discriminate Hoffered;
      repeat split; try assumption.
    + now apply offers_In in Hoffered.
    + now apply offers_In in Hoffered.
    + apply andb_prop in Hoffered as [_ Hoffered]. now apply offers_In in Hoffered.
    + apply andb_prop in Hoffered as [_ Hoffered]. now apply offers_In in Hoffered.
  - cbn in Hoffered. apply andb_prop in Hoffered as [_ Hindex].
    apply Nat.ltb_lt in Hindex.
    unfold updateCustomRampValue in Hdispatch. cbv zeta in Hdispatch.
    destruct (Array_assign_within _ i v Hindex) as (b & Hb & Hlen & _).
    rewrite Hb in Hdispatch. injection Hdispatch as <-.
    unfold well_formed. cbn. repeat split; try assumption. congruence.
  - cbn in Hoffered. apply andb_prop in Hoffered as [_ Hindex].
    apply Nat.ltb_lt in Hindex.
    unfold customWeightOnChange in Hdispatch. cbv zeta in Hdispatch.
    destruct (Array_assign_within _ i v Hindex) as (b & Hb & Hlen & _).
    rewrite Hb in Hdispatch. injection Hdispatch as <-.
    unfold well_formed. cbn. repeat split; try assumption. congruence.
Qed.

(** Every event the page offers has a next page. *)
Lemma dispatch_total (p : Page) (scope : RenderScope) (e : Event) :
  offered p e = true -> exists p', dispatch p scope e = Some p'.
Proof.
  intros Hoffered. destruct e as [key value|i v|i v|tab|open|open|text| | |format|permitted|viewport| | ];
    cbn; eauto; cbn in Hoffered;
    apply andb_prop in Hoffered as [_ Hindex]; apply Nat.ltb_lt in Hindex.
  - unfold updateCustomRampValue. cbv zeta.
    destruct (Array_assign_within _ i v Hindex) as (b & -> & _). eauto.
  - unfold customWeightOnChange. cbv zeta.
    destruct (Array_assign_within _ i v Hindex) as (b & -> & _). eauto.
Qed.

(** Settings in good order give ramps of six sizes and six weights. *)
Lemma well_formed_six settings :
  well_formed settings ->
  (exists base,
     calculateSizes_of (rampAlgorithm settings) settings = Ok base
     /\ List.length base = 6%nat)
  /\ (exists weights,
        calculateFontWeights settings = Ok weights
        /\ List.length weights = 6%nat).
Proof.
  intros (Hsize & Hweight & Hsizes & Hweights & _). split.
  - simpl in Hsize. destruct Hsize as [<-|[<-|[<-|[<-|[]]]]];
      eexists; (split; [reflexivity|]); try reflexivity. exact Hsizes.
  - unfold calculateFontWeights. simpl in Hweight.
    destruct Hweight as [<-|[<-|[<-|[]]]];
      cbn; destruct (useWeightRamp settings); cbn; eauto.
Qed.

(** A page with settings in good order renders, with six sizes and six
    weights, and each of its three exports returns a text. *)
Lemma well_formed_renders st :
  well_formed (settings st) ->
  exists scope,
    render st = Ok scope
    /\ List.length (headingSizes scope) = 6%nat
    /\ List.length (headingWeights scope) = 6%nat
    /\ forall format,
         exists text, getExportCode (setExportFormat st format) scope = Ok text.
Proof.
  intros Hwf.
  destruct (well_formed_six _ Hwf) as ((base & Hbase & Hsix) & (weights & Hw & Hsix')).
  destruct (render_ok st) as [scope Hrender];
    [apply Hwf | apply Hwf |].
  exists scope. split; [exact Hrender|].
  pose proof (render_headingSizes st scope Hrender) as Hsizes.
  destruct (render_scope st scope Hrender) as (_ & _ & _ & Hweights).
  rewrite (calculateSizesForViewport_eq _ _ _ Hbase) in Hsizes.
  injection Hsizes as Hsizes. rewrite Hw in Hweights. injection Hweights as Hweights.
  split; [now rewrite <- Hsizes, length_map|]. split; [now rewrite <- Hweights|].
  pose proof (exportFontWeights_calculateFontWeights _ _ Hw) as Hexport.
  intros format. unfold getExportCode. destruct format; cbn.
  - destruct (generateCSSCode_carries (settings st) scope weights Hexport)
      as (document & -> & _). eauto.
  - destruct (generateSASSCode_carries (settings st) scope weights Hexport)
      as (document & -> & _). eauto.
  - destruct (figmaTokens_total (settings st) scope weights Hexport ltac:(lia))
      as [tokens Htokens].
    unfold generateFigmaTokens. rewrite Htokens. cbn [bind]. eauto.
Qed.

(** The settings the page starts with are in good order. *)
Lemma initialPage_well_formed : well_formed (settings (state (world initialPage))).
Proof. unfold well_formed. cbn. repeat split; auto 20. Qed.

(** Good order is kept along a run of events. *)
Lemma run_well_formed (events : list Event) : forall p p',
  well_formed (settings (state (world p))) ->
  run p events = Some p' ->
  well_formed (settings (state (world p'))).
Proof.
  induction events as [|e events IH]; intros p p' Hwf Hrun; cbn [run] in Hrun.
  - now injection Hrun as <-.
  - destruct (handle p e) as [p1|] eqn:Hhandle; [|discriminate].
    apply (IH p1 p'); [|exact Hrun].
    unfold handle in Hhandle.
    destruct (render (state (world p))) as [scope|]; [|discriminate].
    destruct (offered p e) eqn:Hoffered; [|discriminate].
    exact (dispatch_well_formed _ _ _ _ Hwf Hoffered Hhandle).
Qed.

(** X21. Whatever the elements of the page report, from the state the
    page starts in: the selected algorithms stay keys of their tables, the
    custom sizes and weights stay six each, the body weight stays 400 and
    the fonts stay fonts of the table; so the component renders without
    throwing, with six heading sizes and six heading weights, each of the
    three exports returns its text, and every event the page then offers
    is handled. *)
Theorem page_keeps_rendering (events : list Event) (p : Page) :
  run initialPage events = Some p ->
  well_formed (settings (state (world p)))
  /\ (exists scope,
        render (state (world p)) = Ok scope
        /\ List.length (headingSizes scope) = 6%nat
        /\ List.length (headingWeights scope) = 6%nat
        /\ forall format,
             exists text,
               getExportCode (setExportFormat (state (world p)) format) scope
               = Ok text)
  /\ (forall e, offered p e = true -> exists p', handle p e = Some p').
Proof.
  intros Hrun.
  pose proof (run_well_formed events _ _ initialPage_well_formed Hrun) as Hwf.
  split; [exact Hwf|].
  destruct (well_formed_renders _ Hwf) as (scope & Hrender & Hrest).
  split; [now exists scope|].
  intros e Hoffered. unfold handle. rewrite Hrender, Hoffered.
  now apply dispatch_total.
Qed.

(** X22. Nothing but the controls of the settings changes what is
    exported: an event of any other element (the tabs, the dialogs, the
    markdown import, the format and viewport buttons, the copy button, the
    timeout) leaves the settings as they are, and with them the CSS, SASS
    and token documents. *)
Theorem other_events_keep_the_exports (p p' : Page) (e : Event) :
  handle p e = Some p' ->
  changes_settings e = false ->
  settings (state (world p')) = settings (state (world p))
  /\ exported generateCSSCode (state (world p'))
     = exported generateCSSCode (state (world p))
  /\ exported generateSASSCode (state (world p'))
     = exported generateSASSCode (state (world p))
  /\ exported generateFigmaTokens (state (world p'))
     = exported generateFigmaTokens (state (world p)).
Proof.
  intros Hhandle Hchanges. unfold handle in Hhandle.
  destruct (render (state (world p))) as [scope|]; [|discriminate].
  destruct (offered p e); [|discriminate].
  pose proof (dispatch_settings _ _ _ _ Hchanges Hhandle) as Hsettings.
  split; [exact Hsettings|].
  repeat split; apply exported_settings; trivial.
  - exact generateCSSCode_reads_export_sizes.
  - exact generateSASSCode_reads_export_sizes.
  - exact generateFigmaTokens_reads_export_sizes.
Qed.

(** What an event other than a copy the clipboard takes does to the
    message of the copy button, while no timeout is set. *)
Lemma dispatch_failed_copy (p p' : Page) (scope : RenderScope) (e : Event) :
  copySuccess (state (world p)) = "Failed to copy!" ->
  timeouts p = 0%nat ->
  is_permitted_copy e = false ->
  offered p e = true ->
  dispatch p scope e = Some p' ->
  copySuccess (state (world p')) = "Failed to copy!"
  /\ timeouts p' = 0%nat
  /\ clipboard p' = clipboard p.
Proof.
  intros Hmessage Htimeouts Hcopy Hoffered Hdispatch.
  destruct e as [key value|i v|i v|tab|open|open|text| | |format|permitted|viewport| | ];
    cbn in Hdispatch.
  - injection Hdispatch as <-. now repeat split.
  - destruct (updateCustomRampValue _ _ _); [|discriminate].
    injection Hdispatch as <-. now repeat split.
  - destruct (customWeightOnChange _ _ _); [|discriminate].
    injection Hdispatch as <-. now repeat split.
  - injection Hdispatch as <-. now repeat split.
  - injection Hdispatch as <-. now repeat split.
  - injection Hdispatch as <-. now repeat split.
  - injection Hdispatch as <-. now repeat split.
  - injection Hdispatch as <-. now repeat split.
  - injection Hdispatch as <-. cbn.
    destruct (importOnClick_settings (world p)) as (_ & _ & ->). now repeat split.
  - injection Hdispatch as <-. now repeat split.
  - injection Hdispatch as <-. cbn in Hcopy. subst permitted.
    unfold copyToClipboard. cbv zeta.
    destruct (getExportCode (state (world p)) scope); now repeat split.
  - injection Hdispatch as <-. now repeat split.
  - injection Hdispatch as <-. now repeat split.
  - cbn in Hoffered. rewrite Htimeouts in Hoffered. discriminate.
Qed.

(** X23. A failed copy is never taken back: when the clipboard refuses
    the text while no timeout is set, the button reads "Failed to copy!",
    no timeout is set to clear it, and the button keeps reading so
    through every later event until a copy the clipboard takes; the
    clipboard receives nothing meanwhile. *)
Theorem failed_copy_message_stays (events : list Event) (p p1 p' : Page) :
  timeouts p = 0%nat ->
  handle p (CopyClick false) = Some p1 ->
  (forall e, In e events -> is_permitted_copy e = false) ->
  run p1 events = Some p' ->
  copyButtonLabel (state (world p1)) = "Failed to copy!"
  /\ timeouts p1 = 0%nat
  /\ copyButtonLabel (state (world p')) = "Failed to copy!"
  /\ clipboard p' = clipboard p.
Proof.
  intros Htimeouts Hfail Hevents Hrun.
  assert (Hfirst : copySuccess (state (world p1)) = "Failed to copy!"
                   /\ timeouts p1 = 0%nat /\ clipboard p1 = clipboard p).
  { unfold handle in Hfail.
    destruct (render (state (world p))) as [scope|]; [|discriminate].
    cbn in Hfail. injection Hfail as <-. unfold copyToClipboard. cbv zeta.
    destruct (getExportCode (state (world p)) scope); now repeat split. }
  assert (Hlater : forall events p1 p',
             copySuccess (state (world p1)) = "Failed to copy!" ->
             timeouts p1 = 0%nat ->
             (forall e, In e events -> is_permitted_copy e = false) ->
             run p1 events = Some p' ->
             copySuccess (state (world p')) = "Failed to copy!"
             /\ clipboard p' = clipboard p1).
  { clear. induction events as [|e events IH]; intros p1 p' Hmessage Htimeouts Hevents Hrun;
      cbn [run] in Hrun.
    - injection Hrun as <-. now split.
    - destruct (handle p1 e) as [p2|] eqn:Hhandle; [|discriminate].
      unfold handle in Hhandle.
      destruct (render (state (world p1))) as [scope|]; [|discriminate].
      destruct (offered p1 e) eqn:Hoffered; [|discriminate].
      destruct (dispatch_failed_copy p1 p2 scope e Hmessage Htimeouts
                  (Hevents e (or_introl eq_refl)) Hoffered Hhandle)
        as (Hmessage' & Htimeouts' & Hclipboard).
      destruct (IH p2 p' Hmessage' Htimeouts'
                  (fun e' Hin => Hevents e' (or_intror Hin)) Hrun)
        as [Hlast Hclipboard'].
      split; [exact Hlast | congruence]. }
  destruct Hfirst as (Hmessage & Htimeouts1 & Hclipboard1).
  destruct (Hlater events p1 p' Hmessage Htimeouts1 Hevents Hrun)
    as [Hlast Hclipboard'].
  unfold copyButtonLabel. rewrite Hmessage, Hlast. cbn.
  repeat split; congruence.
Qed.

(** A rendering reads the settings and the viewport of the preview only. *)
Lemma render_settings st st' :
  settings st = settings st' -> previewViewport st = previewViewport st' ->
  render st = render st'.
Proof. intros Hs Hv. unfold render. now rewrite Hs, Hv. Qed.

(** X24. A copy the clipboard takes writes the text the export dialog
    shows to the clipboard, makes the button read "Copied!" and sets one
    timeout; when that timeout runs the button reads "Copy to Clipboard"
    again, and the settings are as they were. *)
Theorem copy_then_timeout (p : Page) (scope : RenderScope) (text : string) :
  render (state (world p)) = Ok scope ->
  getExportCode (state (world p)) scope = Ok text ->
  exists p1 p2,
    handle p (CopyClick true) = Some p1
    /\ clipboard p1 = (clipboard p ++ [text])%list
    /\ copyButtonLabel (state (world p1)) = "Copied!"
    /\ timeouts p1 = S (timeouts p)
    /\ handle p1 TimeoutDue = Some p2
    /\ copyButtonLabel (state (world p2)) = "Copy to Clipboard"
    /\ timeouts p2 = timeouts p
    /\ clipboard p2 = clipboard p1
    /\ settings (state (world p2)) = settings (state (world p)).
Proof.
  intros Hrender Hcode.
  set (p1 := copyToClipboard p scope true).
  assert (Hp1 : clipboard p1 = (clipboard p ++ [text])%list
                /\ copySuccess (state (world p1)) = "Copied!"
                /\ timeouts p1 = S (timeouts p)).
  { subst p1. unfold copyToClipboard. cbv zeta. rewrite Hcode. now repeat split. }
  destruct Hp1 as (Hclipboard & Hmessage & Htimeouts).
  destruct (copyToClipboard_settings p scope true) as [Hsettings Hviewport].
  fold p1 in Hsettings, Hviewport.
  assert (Hrender1 : render (state (world p1)) = Ok scope)
    by (now rewrite (render_settings _ (state (world p)))).
  exists p1. eexists.
  split; [unfold handle; now rewrite Hrender|].
  split; [exact Hclipboard|].
  split; [unfold copyButtonLabel; now rewrite Hmessage|].
  split; [exact Htimeouts|].
  split; [unfold handle; rewrite Hrender1; cbn [offered]; rewrite Htimeouts;
          reflexivity|].
  cbn. rewrite Htimeouts. now repeat split.
Qed.

End PageProperties.

(** * Concrete runs on the sample host *)

(** [Math.round] on halves, on numbers just below a half, on negative
    numbers and on the values that are not finite. *)
Example Math_round_values :
  map Math_round
    [2.5; -2.5; 0.5; -0.5; 0.49999999999999994; -0.2; 19.2; 14.4; 1e300;
     nan; infinity; neg_infinity]
  = [3; -2; 1; neg_zero; 0; neg_zero; 19; 14; 1e300; nan; infinity; neg_infinity].
Proof. reflexivity. Qed.

(** The page as it starts: the ramps of the three viewports. *)
Example render_sample_state : render (H := Sample.host) sample_state = Ok sample_scope.
Proof. reflexivity. Qed.

(** The four ramps and the three weight ramps of the default settings. *)
Example default_ramps :
  map (fun key => calculateSizes_of (H := Sample.host) key defaultSettings)
    sizeAlgorithms
  = [ Ok [33; 28; 23; 19; 16; 14];
      Ok [48; 41; 34; 28; 21; 14];
      Ok [43; 27; 16; 11; 5; 5];
      Ok [48; 36; 24; 20; 16; 14] ]
  /\ map (fun key => calculateWeights_of key defaultSettings) weightAlgorithms
     = [ Ok [700; 700; 600; 600; 500; 400];
         Ok [700; 640; 580; 520; 460; 400];
         Ok [700; 700; 600; 600; 500; 400] ].
Proof. split; reflexivity. Qed.

(** The modular ramp of the default settings. *)
Lemma modular_ramp_formula_run :
  calculateSizes_of (H := Sample.host) "modular" defaultSettings
  = Ok [33; 28; 23; 19; 16; 14]
  /\ index [33; 28; 23; 19; 16; 14] 3 = Some (Math_round (16 * 1.2)).
Proof.
  destruct (modular_ramp_formula (H := Sample.host)) as [Hramp Hh4].
  split.
  - rewrite Hramp. vm_compute. reflexivity.
  - apply (Hh4 (fun x => eq_refl) defaultSettings _ eq_refl eq_refl).
    vm_compute. reflexivity.
Defined.

(** The default custom ramp has six sizes. *)
Lemma six_sizes_six_weights_run :
  exists sizes,
    calculateSizes_of (H := Sample.host) "custom" defaultSettings = Ok sizes
    /\ List.length sizes = 6%nat.
Proof.
  apply (six_sizes_six_weights (H := Sample.host) defaultSettings eq_refl eq_refl).
  simpl. tauto.
Defined.

(** Importing the empty document, which the sample processor rejects. *)
Lemma import_keeps_preview_on_failure_run :
  previewContent (state (importOnClick (H := Sample.host) sample_world)) = ""
  /\ alerts (importOnClick (H := Sample.host) sample_world)
     = ["Error parsing markdown. Please check your input."].
Proof.
  destruct (import_keeps_preview_on_failure (H := Sample.host) sample_world)
    as [Hfail _].
  destruct (Hfail (Rejection "empty document") eq_refl) as (_ & Hpreview & Halerts).
  split; [exact Hpreview | exact Halerts].
Defined.

(** The CSS and SASS documents of the default settings. *)
Lemma exports_carry_the_same_sizes_run :
  exists css_document sass_document,
    generateCSSCode (H := Sample.host) defaultSettings sample_scope = Ok css_document
    /\ css_carries (H := Sample.host) true 16 14 12
         [33; 28; 23; 19; 16; 14] [30; 25; 21; 17; 14; 13] [25; 21; 17; 14; 12; 11]
         css_document
    /\ generateSASSCode (H := Sample.host) defaultSettings sample_scope
       = Ok sass_document
    /\ sass_carries (H := Sample.host) true 16 14 12
         [33; 28; 23; 19; 16; 14] [30; 25; 21; 17; 14; 13] [25; 21; 17; 14; 12; 11]
         sass_document.
Proof.
  destruct (exports_carry_the_same_sizes (H := Sample.host) sample_state
              sample_scope eq_refl)
    as (d & t & m & css_document & sass_document & weights
        & Hd & Ht & Hm & Hcss & Hcss_sizes & Hsass & Hsass_sizes & _).
  injection Hd as <-. injection Ht as <-. injection Hm as <-.
  exists css_document, sass_document. repeat split; assumption.
Defined.

(** The mobile sizes of a fractional custom ramp without responsive
    scaling. *)
Lemma sizes_for_viewport_run :
  calculateSizesForViewport (H := Sample.host) fractional_custom_size mobile
  = Ok [49; 36; 24; 20; 16; 14].
Proof.
  destruct (sizes_for_viewport (H := Sample.host) fractional_custom_size
              [48.5; 36; 24; 20; 16; 14] eq_refl) as (_ & Hflat & _).
  exact (Hflat eq_refl mobile).
Defined.

(** The linear ramp between the default bounds 14 and 48. *)
Lemma linear_ramp_descends_run :
  exists h1 h2 h3 h4 h5 h6,
    calculateSizes_of (H := Sample.host) "linear" linear_settings
    = Ok [h1; h2; h3; h4; h5; h6]
    /\ (h2 <=? h1) = true /\ (h3 <=? h2) = true /\ (h4 <=? h3) = true
    /\ (h5 <=? h4) = true /\ (h6 <=? h5) = true.
Proof.
  destruct (linear_ramp_descends (H := Sample.host) linear_settings)
    as (_ & _ & Hrange).
  destruct (Hrange 14%Z 48%Z ltac:(lia) ltac:(lia) ltac:(lia) eq_refl eq_refl)
    as (h1 & h2 & h3 & h4 & h5 & h6 & Hramp & H21 & H32 & H43 & H54 & H65 & _).
  exists h1, h2, h3, h4, h5, h6. repeat split; assumption.
Defined.

(** H3 of the fibonacci ramp for the default base size 16. *)
Lemma fibonacci_ramp_formula_run :
  index [43; 27; 16; 11; 5; 5] 2 = Some (Math_round 16) /\ Math_round 16 = 16.
Proof.
  destruct (fibonacci_ramp_formula (H := Sample.host) defaultSettings)
    as (_ & _ & Hh3).
  exact (Hh3 16%Z ltac:(lia) eq_refl [43; 27; 16; 11; 5; 5] eq_refl).
Defined.

(** Two states of the page with the default settings export the same
    documents. *)
Lemma outputs_depend_on_settings_only_run :
  exported (H := Sample.host) (generateCSSCode (H := Sample.host)) sample_state
  = exported (H := Sample.host) (generateCSSCode (H := Sample.host))
      sample_state_mobile
  /\ exported (H := Sample.host) (generateFigmaTokens (H := Sample.host))
       sample_state
     = exported (H := Sample.host) (generateFigmaTokens (H := Sample.host))
         sample_state_mobile.
Proof.
  destruct (outputs_depend_on_settings_only (H := Sample.host) sample_state
              sample_state_mobile eq_refl) as (_ & _ & _ & Hcss & _ & Hfigma).
  split; assumption.
Defined.

(** The linear weight ramp with the weight ramp switched off. *)
Lemma weights_without_ramp_run :
  calculateWeights_of "linear" linear_settings = Ok defaultWeights
  /\ exportFontWeights linear_settings
     = calculateWeights_of (fontWeightRampAlgorithm linear_settings) linear_settings.
Proof.
  destruct (weights_without_ramp linear_settings eq_refl) as [Hoff Hexport].
  split.
  - apply Hoff. simpl. tauto.
  - apply Hexport. simpl. tauto.
Defined.

(** ** Runs of the further properties *)

(** The address the page loads its fonts from, for the default settings
    and with a separate heading font. *)
Example createGoogleFontsUrl_values :
  createGoogleFontsUrl defaultSettings
  = "https://fonts.googleapis.com/css2?family=Inter:wght@400;500;600;700&display=swap"
  /\ createGoogleFontsUrl two_fonts_settings
     = "https://fonts.googleapis.com/css2?family=Inter:wght@400;500;600;700&family=Open+Sans:wght@400;600;700&display=swap".
Proof. split; reflexivity. Qed.

(** The desktop sizes of a fractional custom ramp. *)
Lemma viewport_sizes_are_whole_run :
  Math_round 49 = 49
  /\ exists base,
       calculateSizes_of (H := Sample.host) (rampAlgorithm fractional_custom_size)
         fractional_custom_size = Ok base
       /\ List.length [49; 36; 24; 20; 16; 14 : number] = List.length base.
Proof.
  destruct (viewport_sizes_are_whole (H := Sample.host) fractional_custom_size
              desktop [49; 36; 24; 20; 16; 14] eq_refl)
    as [Hwhole (base & Hbase & Hlength & _)].
  split; [apply Hwhole; simpl; tauto|].
  exists base. split; assumption.
Defined.


(** The linear weight ramp between the default bounds 400 and 700. *)
Lemma linear_weights_descend_run :
  exists w1 w2 w3 w4 w5 w6,
    calculateWeights_of "linear" defaultSettings = Ok [w1; w2; w3; w4; w5; w6]
    /\ (w2 <=? w1) = true /\ (w3 <=? w2) = true /\ (w4 <=? w3) = true
    /\ (w5 <=? w4) = true /\ (w6 <=? w5) = true.
Proof.
  destruct (linear_weights_descend defaultSettings 4 7 eq_refl
              ltac:(lia) ltac:(lia) ltac:(lia) eq_refl eq_refl)
    as (w1 & w2 & w3 & w4 & w5 & w6 & Hramp & H21 & H32 & H43 & H54 & H65 & _).
  exists w1, w2, w3, w4, w5, w6. repeat split; assumption.
Defined.

(** The fibonacci ramp of the default base size 16. *)
Lemma fibonacci_ramp_descends_run :
  exists h1 h2 h3 h4 h5 h6,
    calculateSizes_of (H := Sample.host) "fibonacci" defaultSettings
    = Ok [h1; h2; h3; h4; h5; h6]
    /\ (h2 <=? h1) = true /\ (h6 <=? h5) = true /\ (3 <=? h6) = true.
Proof.
  destruct (fibonacci_ramp_descends (H := Sample.host) defaultSettings 16
              ltac:(lia) eq_refl)
    as (h1 & h2 & h3 & h4 & h5 & h6 & Hramp & H21 & _ & _ & _ & H65 & Hlow).
  exists h1, h2, h3, h4, h5, h6. repeat split; assumption.
Defined.

(** The sizes of the default settings on the three viewports. *)
Lemma smaller_viewports_get_smaller_sizes_run :
  exists m t,
    calculateSizesForViewport (H := Sample.host) defaultSettings mobile = Ok m
    /\ calculateSizesForViewport (H := Sample.host) defaultSettings tablet = Ok t
    /\ pointwise_le m t = true
    /\ pointwise_le t [33; 28; 23; 19; 16; 14] = true.
Proof.
  destruct (smaller_viewports_get_smaller_sizes (H := Sample.host) defaultSettings
              [33; 28; 23; 19; 16; 14] eq_refl)
    as (m & t & Hm & Ht & _ & Hmt & Htd).
  - unfold scaleSteps. simpl. tauto.
  - unfold scaleSteps. simpl. tauto.
  - reflexivity.
  - reflexivity.
  - intros size Hsize. simpl in Hsize.
    destruct Hsize as [<-|[<-|[<-|[<-|[<-|[<-|[]]]]]]];
      [exists 33%Z|exists 28%Z|exists 23%Z|exists 19%Z|exists 16%Z|exists 14%Z];
      (split; [lia|reflexivity]).
  - exists m, t. repeat split; assumption.
Defined.

(** The base sizes the generators declare for the default settings. *)
Lemma smaller_viewports_get_smaller_base_sizes_run :
  exportBaseFontSize defaultSettings mobile = 12
  /\ exportBaseFontSize defaultSettings tablet = 14
  /\ (exportBaseFontSize defaultSettings mobile
      <=? exportBaseFontSize defaultSettings tablet) = true
  /\ (exportBaseFontSize defaultSettings tablet
      <=? exportBaseFontSize defaultSettings desktop) = true.
Proof.
  destruct (smaller_viewports_get_smaller_base_sizes defaultSettings 16 eq_refl)
    as [Hmobile Htablet].
  - unfold scaleSteps. simpl. tauto.
  - unfold scaleSteps. simpl. tauto.
  - reflexivity.
  - lia.
  - reflexivity.
  - repeat split; try assumption; reflexivity.
Defined.

(** The font Lato, listed with the weights 400 and 700. *)
Lemma page_and_exports_load_one_address_run :
  createGoogleFontsUrl lato_settings
  = "https://fonts.googleapis.com/css2?family=Lato:wght@400;700&display=swap".
Proof.
  destruct (page_and_exports_load_one_address (H := Sample.host) lato_settings
              sample_scope defaultWeights eq_refl eq_refl eq_refl) as [Hurl _].
  exact Hurl.
Defined.

(** The imports of the body font Inter and the heading font Open Sans. *)
Lemma exports_import_the_required_fonts_run :
  exists css_document,
    generateCSSCode (H := Sample.host) two_fonts_settings sample_scope
    = Ok css_document
    /\ occur_in_order [font_import "Inter"; font_import "Open Sans"] css_document.
Proof.
  destruct (exports_import_the_required_fonts (H := Sample.host) two_fonts_settings
              sample_scope defaultWeights eq_refl)
    as (css_document & sass_document & Hcss & Hfonts & _).
  exists css_document. split; assumption.
Defined.

(** The weights in the CSS document of the default settings. *)
Lemma exports_carry_the_same_weights_run :
  exists css_document,
    generateCSSCode (H := Sample.host) defaultSettings sample_scope = Ok css_document
    /\ occur_in_order
         (css_weight_lines (H := Sample.host) [700; 700; 600; 600; 500; 400] 400)
         css_document.
Proof.
  destruct (exports_carry_the_same_weights (H := Sample.host) defaultSettings
              sample_scope defaultWeights eq_refl)
    as (css_document & sass_document & Hcss & Hlines & _).
  exists css_document. split; assumption.
Defined.

(** The spacings in the SASS document of the default settings. *)
Lemma exports_carry_the_same_spacing_run :
  exists sass_document,
    generateSASSCode (H := Sample.host) defaultSettings sample_scope
    = Ok sass_document
    /\ occur_in_order (sass_spacing_lines (H := Sample.host) defaultSettings)
         sass_document.
Proof.
  destruct (exports_carry_the_same_spacing (H := Sample.host) defaultSettings
              sample_scope defaultWeights eq_refl)
    as (css_document & sass_document & _ & _ & Hsass & Hlines & _).
  exists sass_document. split; assumption.
Defined.

(** The exports of a single custom weight. *)
Lemma short_weight_list_run :
  generateFigmaTokens (H := Sample.host) one_custom_weight sample_scope
  = Throw TypeError
  /\ exists css_document,
       generateCSSCode (H := Sample.host) one_custom_weight sample_scope
       = Ok css_document
       /\ occur_in_order ["  --h6-weight: undefined;"] css_document.
Proof.
  destruct (short_weight_list (H := Sample.host) one_custom_weight sample_scope
              [700] eq_refl) as [Hshort _].
  destruct (Hshort ltac:(simpl; lia))
    as (Hfigma & css_document & sass_document & Hcss & Hundefined & _).
  split; [exact Hfigma|]. exists css_document. split; assumption.
Defined.

(** The token tree of the default settings with and without responsive
    scaling. *)
Lemma responsive_scaling_adds_one_group_run :
  exists typography spacing sizes,
    figmaTokens (H := Sample.host)
      (updateSetting Key.responsiveScaling true defaultSettings) sample_scope
    = Ok (JObject
            [("typography", JObject (typography ++ [("responsiveSizes", sizes)])%list);
             ("spacing", JObject spacing)]).
Proof.
  destruct (figmaTokens (H := Sample.host)
              (updateSetting Key.responsiveScaling false defaultSettings)
              sample_scope) as [tokens|] eqn:Htokens.
  - destruct (responsive_scaling_adds_one_group (H := Sample.host) defaultSettings
                sample_scope tokens Htokens)
      as (typography & spacing & sizes & _ & _ & Hon).
    exists typography, spacing, sizes. exact Hon.
  - vm_compute in Htokens. discriminate.
Defined.

(** The preview of the page as it starts. *)
Lemma preview_shows_what_is_exported_run :
  exportFontWeights defaultSettings = Ok [700; 700; 600; 600; 500; 400]
  /\ style_sizes (H := Sample.host)
       (previewStyles (H := Sample.host) sample_state sample_scope)
       [33; 28; 23; 19; 16; 14].
Proof.
  destruct (preview_shows_what_is_exported (H := Sample.host) sample_state
              sample_scope eq_refl) as (_ & Hweights & Hsizes & _).
  split; [exact Hweights | exact Hsizes].
Defined.

(** With a base size of 16.5 the preview shows 17 pixels, the exports
    declare 16.5. *)
Lemma preview_base_font_size_run :
  exists shown,
    property (previewStyles (H := Sample.host) fractional_base_state sample_scope)
      "--base-font-size"
    = Some (StyleString (num (H := Sample.host) shown ++ "px"))
    /\ shown = 17
    /\ exportBaseFontSize (settings fractional_base_state) desktop = 16.5.
Proof.
  destruct (preview_base_font_size (H := Sample.host) fractional_base_state
              sample_scope) as (shown & Hstyle & Hshown & _).
  exists shown. split; [exact Hstyle|]. split; [|reflexivity].
  rewrite Hshown. reflexivity.
Defined.

(** The heading margin of the page as it starts is labelled 16. *)
Lemma one_em_is_the_base_size_run :
  property (previewData sample_state) "data-heading-mb-px" = Some 16.
Proof.
  destruct (one_em_is_the_base_size (H := Sample.host)) as (_ & _ & Hlabel).
  destruct (Hlabel sample_state sample_scope eq_refl) as (shown & _ & Hshown).
  rewrite Hshown. assert (Hrun : property (previewData sample_state)
                                   "data-heading-mb-px" = Some 16) by reflexivity.
  congruence.
Defined.

(** Changing the first of the default custom sizes. *)
Lemma custom_value_edit_run :
  exists update,
    updateCustomRampValue defaultSettings 0 50 = Some update
    /\ nth_error (customRampValues (update defaultSettings)) 0 = Some 50
    /\ List.length (customRampValues (update defaultSettings)) = 6%nat.
Proof.
  destruct (custom_value_edit defaultSettings 0 50) as [Hsize _].
  destruct (Hsize ltac:(simpl; lia)) as (update & Hupdate & Hprev).
  destruct (Hprev defaultSettings) as (Hlength & Hentry & _).
  exists update. repeat split; assumption.
Defined.

(** Two changes of the default custom sizes made from one rendering. *)
Lemma last_custom_edit_wins_run :
  exists first second,
    updateCustomRampValue defaultSettings 0 50 = Some first
    /\ updateCustomRampValue defaultSettings 1 40 = Some second
    /\ customRampValues (second (first defaultSettings)) = [48; 40; 24; 20; 16; 14].
Proof.
  exists (updateSetting Key.customRampValues [50; 36; 24; 20; 16; 14]),
    (updateSetting Key.customRampValues [48; 40; 24; 20; 16; 14]).
  destruct (last_custom_edit_wins defaultSettings 0 1 50 40 _ _ eq_refl eq_refl)
    as [Hlost _].
  split; [reflexivity|]. split; [reflexivity|]. now rewrite Hlost.
Defined.

(** A session on the page as it starts. *)
Lemma page_keeps_rendering_run :
  exists p scope,
    run (H := Sample.host) initialPage sample_session = Some p
    /\ render (H := Sample.host) (state (world p)) = Ok scope
    /\ List.length (headingSizes scope) = 6%nat.
Proof.
  destruct (run (H := Sample.host) initialPage sample_session) as [p|] eqn:Hrun.
  - destruct (page_keeps_rendering (H := Sample.host) sample_session p Hrun)
      as (_ & (scope & Hrender & Hsizes & _) & _).
    exists p, scope. repeat split; assumption.
  - vm_compute in Hrun. discriminate.
Defined.

(** Switching to the mobile preview on the page as it starts. *)
Lemma other_events_keep_the_exports_run :
  exists p,
    handle (H := Sample.host) initialPage (ViewportClick mobile) = Some p
    /\ exported (H := Sample.host) (generateCSSCode (H := Sample.host))
         (state (world p))
       = exported (H := Sample.host) (generateCSSCode (H := Sample.host))
           (state (world initialPage)).
Proof.
  destruct (handle (H := Sample.host) initialPage (ViewportClick mobile))
    as [p|] eqn:Hhandle.
  - destruct (other_events_keep_the_exports (H := Sample.host) initialPage p
                (ViewportClick mobile) Hhandle eq_refl) as (_ & Hcss & _).
    exists p. split; [reflexivity | exact Hcss].
  - vm_compute in Hhandle. discriminate.
Defined.

(** A copy the clipboard refuses, then a change of tab and of viewport. *)
Lemma failed_copy_message_stays_run :
  exists p1 p',
    handle (H := Sample.host) initialPage (CopyClick false) = Some p1
    /\ run (H := Sample.host) p1 [TabChange "fonts"; ViewportClick tablet] = Some p'
    /\ copyButtonLabel (state (world p')) = "Failed to copy!"
    /\ clipboard p' = [].
Proof.
  destruct (handle (H := Sample.host) initialPage (CopyClick false))
    as [p1|] eqn:Hfail; [|vm_compute in Hfail; discriminate].
  destruct (run (H := Sample.host) p1 [TabChange "fonts"; ViewportClick tablet])
    as [p'|] eqn:Hrun.
  - destruct (failed_copy_message_stays (H := Sample.host)
                [TabChange "fonts"; ViewportClick tablet] initialPage p1 p'
                eq_refl Hfail)
      as (_ & _ & Hlabel & Hclipboard); [|exact Hrun|].
    + intros e [<-|[<-|[]]]; reflexivity.
    + exists p1, p'. repeat split; assumption.
  - vm_compute in Hfail. injection Hfail as <-. vm_compute in Hrun. discriminate.
Defined.

(** A copy of the CSS of the page as it starts. *)
Lemma copy_then_timeout_run :
  exists text p1 p2,
    getExportCode (H := Sample.host) initialState sample_scope = Ok text
    /\ handle (H := Sample.host) initialPage (CopyClick true) = Some p1
    /\ clipboard p1 = [text]
    /\ handle (H := Sample.host) p1 TimeoutDue = Some p2
    /\ copyButtonLabel (state (world p2)) = "Copy to Clipboard".
Proof.
  destruct (getExportCode (H := Sample.host) initialState sample_scope)
    as [text|] eqn:Hcode; [|vm_compute in Hcode; discriminate].
  destruct (copy_then_timeout (H := Sample.host) initialPage sample_scope text
              eq_refl Hcode)
    as (p1 & p2 & Hcopy & Hclipboard & _ & _ & Htimeout & Hlabel & _).
  exists text, p1, p2. repeat split; assumption.
Defined.
